(** * Dependency graph analyzer: a shallow embedding and its properties

    This development embeds the two Python programs of the repository,

    - [dep-graph-analyzer.py]  (class [DependencyGraphAnalyzer]) and
    - [dep-graph-analysis-report.py] (function [analyze_dependency_graph]),

    and settles the properties that the design document states about them.

    Modelling conventions.
    - Python [str] values are [string]s; the source text of a scanned file is
      taken to be ASCII.
    - A [pathlib] path is absolute and POSIX, with the behaviour of
      CPython 3.11: the list of its segments below the root [/].  The file
      system is a finite tree without symbolic links that does not change
      during a run, so [Path.resolve()] is the lexical collapse of [..]
      segments; a leading double slash is identified with the root.
    - A Python exception is a value [Raise e] of the error monad [result].
    - The analyzer is embedded at two levels.  The modules [FS] and
      [Analyzer] describe a run in which the operating system reports
      nothing but the presence or absence of an entry.  The module [OS]
      adds what the operating system and [pathlib] may raise on the way: an
      error of [os.stat] that [Path.exists()] and [Path.is_dir()] raise
      again, the [ValueError] of [Path.resolve()] for a NUL character, and
      the errors of [open] in [save_outputs].  Whatever a run of [OS]
      returns, the first level returns as well
      ([os_build_dependency_graph_refines]), so every property of a graph
      built at the first level holds of every graph built at the second.
    - Text written to the standard output is left out.
    - [dict] objects whose order is visible ([self.nodes]) are insertion
      ordered association lists; the two [defaultdict(int)] counters are
      [gmap string nat] read with a default of [0]. *)

From Stdlib Require Import String Ascii List Bool Arith Lia QArith.
From Stdlib Require Import OrderedTypeEx DecimalString DecimalNat.
From stdpp Require Import base list strings gmap sorting.

Local Open Scope string_scope.
Local Open Scope list_scope.

(** ** Exceptions *)

Inductive exn : Set :=
| ValueError (msg : string)
| ZeroDivisionError
| OSError (errno : string).

Inductive result (A : Type) : Type :=
| Ok (a : A)
| Raise (e : exn).

Arguments Ok {A} a.
Arguments Raise {A} e.

#[global] Instance result_ret : MRet result := fun A a => Ok a.

#[global] Instance result_bind : MBind result := fun A B k c =>
  match c with
  | Ok a => k a
  | Raise e => Raise e
  end.

#[global] Instance result_fmap : FMap result := fun A B f c =>
  match c with
  | Ok a => Ok (f a)
  | Raise e => Raise e
  end.

(** [for x in xs: acc = body(acc, x)] where the body may raise. *)
Fixpoint for_each {A S} (body : S -> A -> result S) (xs : list A) (acc : S)
  : result S :=
  match xs with
  | [] => Ok acc
  | x :: xs' => acc' ← body acc x; for_each body xs' acc'
  end.

(** ** Python string primitives *)

Module PyStr.

(** [s.startswith(p)] *)
Definition startswith (s p : string) : bool := String.prefix p s.

(** [sub in s] *)
Fixpoint contains (sub s : string) : bool :=
  String.prefix sub s ||
  match s with
  | EmptyString => false
  | String _ s' => contains sub s'
  end.

(** [s[n:]] *)
Fixpoint drop (n : nat) (s : string) : string :=
  match n, s with
  | O, _ => s
  | S _, EmptyString => EmptyString
  | S n', String _ s' => drop n' s'
  end.

(** [s[:n]] *)
Fixpoint take (n : nat) (s : string) : string :=
  match n, s with
  | O, _ => EmptyString
  | S _, EmptyString => EmptyString
  | S n', String c s' => String c (take n' s')
  end.

(** [s.endswith(p)] *)
Definition endswith (s p : string) : bool :=
  (String.length p <=? String.length s)%nat &&
  String.eqb (drop (String.length s - String.length p) s) p.

(** [s.rfind(c)], with [None] for Python's [-1]. *)
Fixpoint rfind (c : ascii) (s : string) : option nat :=
  match s with
  | EmptyString => None
  | String a s' =>
      match rfind c s' with
      | Some i => Some (S i)
      | None => if Ascii.eqb a c then Some O else None
      end
  end.

(** [s.split(c)] for a one-character separator: the current field is
    accumulated in [cur]. *)
Fixpoint split_aux (c : ascii) (cur : string) (s : string) : list string :=
  match s with
  | EmptyString => [cur]
  | String a s' =>
      if Ascii.eqb a c then cur :: split_aux c EmptyString s'
      else split_aux c (cur +:+ String a EmptyString) s'
  end.

Definition split (c : ascii) (s : string) : list string :=
  split_aux c EmptyString s.

(** [sep.join(xs)] *)
Definition join (sep : string) (xs : list string) : string :=
  String.concat sep xs.

(** [x in xs] for a list or tuple of strings. *)
Definition mem (x : string) (xs : list string) : bool :=
  existsb (String.eqb x) xs.

End PyStr.

(** ** [pathlib]: pure paths *)

Module PyPath.

(** An absolute POSIX path: its segments, outermost first. [[]] is [/]. *)
Definition path : Type := list string.

(** Segments of a path string as [pathlib] parses it: empty segments and
    [.] segments vanish, [..] segments are kept. *)
Definition parse_segments (s : string) : list string :=
  List.filter (fun seg => negb (String.eqb seg EmptyString) && negb (String.eqb seg "."))
         (PyStr.split "/" s).

(** [base / s]: an absolute right operand replaces the left one. *)
Definition joinpath (base : path) (s : string) : list string :=
  if PyStr.startswith s "/" then parse_segments s
  else base ++ parse_segments s.

(** [Path.resolve()] on a tree without symbolic links: [..] drops the last
    segment collected so far and is a no-op at the root.  [stack] holds the
    segments collected so far, innermost first.  This is the path that
    [Path.resolve()] returns when it returns; [OS.path_resolve] adds the
    [ValueError] that it raises for a NUL character. *)
Fixpoint resolve_aux (stack : list string) (segs : list string) : path :=
  match segs with
  | [] => rev stack
  | seg :: segs' =>
      if String.eqb seg ".." then resolve_aux (List.tl stack) segs'
      else resolve_aux (seg :: stack) segs'
  end.

Definition resolve (segs : list string) : path := resolve_aux [] segs.

(** [p.name]: the final segment, empty for the root. *)
Definition name (p : path) : string := List.last p EmptyString.

(** [p.parent]; the root is its own parent. *)
Definition parent (p : path) : path := removelast p.

(** [p.parts] *)
Definition parts (p : path) : list string := "/" :: p.

(** [PurePath.suffix] of a final segment: the text from the last dot on,
    provided that dot is neither the first nor the last character. *)
Definition suffix_of (nm : string) : string :=
  match PyStr.rfind "." nm with
  | Some i =>
      if (0 <? i)%nat && (i <? String.length nm - 1)%nat then PyStr.drop i nm
      else EmptyString
  | None => EmptyString
  end.

(** [PurePath.with_suffix(ext)] for a well-formed [ext]. *)
Definition with_suffix (p : path) (ext : string) : result path :=
  let nm := name p in
  if String.eqb nm EmptyString then Raise (ValueError "path has an empty name")
  else
    let old_suffix := suffix_of nm in
    let nm' :=
      if String.eqb old_suffix EmptyString then nm +:+ ext
      else PyStr.take (String.length nm - String.length old_suffix) nm +:+ ext
    in
    Ok (removelast p ++ [nm']).

(** [p.relative_to(root)], as the remaining segments. *)
Fixpoint relative_to (p root : path) : result (list string) :=
  match root, p with
  | [], _ => Ok p
  | r :: root', s :: p' =>
      if String.eqb r s then relative_to p' root'
      else Raise (ValueError "path is not in the subpath of the root")
  | _ :: _, [] => Raise (ValueError "path is not in the subpath of the root")
  end.

(** [str(p)] for the relative path with the given segments. *)
Definition str_rel (segs : list string) : string :=
  match segs with
  | [] => "."
  | _ => PyStr.join "/" segs
  end.

(** The order of [sorted] on paths: lexicographic on the segments, each
    compared as a string. *)
Fixpoint path_leb (p q : path) : bool :=
  match p, q with
  | [], _ => true
  | _ :: _, [] => false
  | a :: p', b :: q' =>
      match String.compare a b with
      | Lt => true
      | Gt => false
      | Eq => path_leb p' q'
      end
  end.

Definition path_le (p q : path) : Prop := path_leb p q = true.

#[global] Instance path_le_dec : RelDecision path_le.
Proof. intros p q. unfold path_le. apply _. Defined.

Definition sorted (ps : list path) : list path := merge_sort path_le ps.

End PyPath.

(** ** The file system snapshot *)

Module FS.

Import PyPath.

(** A directory entry: a file (whose text may be unreadable) or a directory
    with its named children. *)
#[warnings="-register-all"]
Inductive entry : Type :=
| File (text : option string)
| Dir (children : list (string * entry)).

Fixpoint child (nm : string) (children : list (string * entry))
  : option entry :=
  match children with
  | [] => None
  | (n, e) :: rest => if String.eqb n nm then Some e else child nm rest
  end.

(** The entry found at path [p] below [e]. *)
Fixpoint lookup (e : entry) (p : path) : option entry :=
  match p with
  | [] => Some e
  | seg :: p' =>
      match e with
      | Dir children =>
          match child seg children with
          | Some e' => lookup e' p'
          | None => None
          end
      | File _ => None
      end
  end.

(** [Path.exists()], as answered from the tree: the value that the call
    returns when [os.stat] reports the entry or its absence.
    [OS.path_exists] adds the errors that the call raises again. *)
Definition exists_ (fs : entry) (p : path) : bool :=
  match lookup fs p with Some _ => true | None => false end.

(** [Path.is_dir()], as answered from the tree; [OS.path_is_dir] adds the
    errors that the call raises again. *)
Definition is_dir (fs : entry) (p : path) : bool :=
  match lookup fs p with Some (Dir _) => true | _ => false end.

(** [open(p).read()], [None] when reading raises. *)
Definition read_text (fs : entry) (p : path) : option string :=
  match lookup fs p with Some (File (Some text)) => Some text | _ => None end.

(** Every entry strictly below [e], as a path relative to [e]. *)
Fixpoint walk (e : entry) : list path :=
  match e with
  | File _ => []
  | Dir children =>
      (fix walk_children (cs : list (string * entry)) : list path :=
         match cs with
         | [] => []
         | (n, c) :: cs' => ([n] :: map (cons n) (walk c)) ++ walk_children cs'
         end) children
  end.

(** The names of the entries directly in [e]. *)
Definition listdir (e : entry) : list string :=
  match e with
  | File _ => []
  | Dir children => map fst children
  end.

(** [fnmatch] for the patterns in use: a leading [*] followed by literal
    text, or literal text alone. *)
Definition fnmatch (nm pat : string) : bool :=
  match pat with
  | String "*" lit => PyStr.endswith nm lit
  | _ => String.eqb nm pat
  end.

(** [root.rglob(pat)]: the entries at any depth below [root] whose name
    matches [pat]. *)
Definition rglob (fs : entry) (root : path) (pat : string) : list path :=
  match lookup fs root with
  | Some e =>
      map (app root) (List.filter (fun p => fnmatch (name p) pat) (walk e))
  | None => []
  end.

(** [root.glob(pat)]: the entries directly in [root] whose name matches
    [pat]. *)
Definition glob (fs : entry) (root : path) (pat : string) : list path :=
  match lookup fs root with
  | Some e =>
      map (fun n => root ++ [n])
          (List.filter (fun n => fnmatch n pat) (listdir e))
  | None => []
  end.

End FS.

(** ** Regular expressions: the fragment of [re] used by the analyzer *)

Module Regex.

Inductive charset : Set :=
| CSpace                      (* \s *)
| CWord                       (* \w *)
| COneOf (cs : list ascii)    (* [...] *)
| CNoneOf (cs : list ascii).  (* [^...] *)

Inductive re : Set :=
| Lit (s : string)            (* literal text *)
| Cls (cs : charset)          (* one character of a class *)
| Seq (r1 r2 : re)            (* r1 r2 *)
| Alt (r1 r2 : re)            (* r1 | r2 *)
| Star (r : re)               (* r*, greedy *)
| Opt (r : re)                (* r?, greedy *)
| Group (r : re).             (* ( r ), the capturing group *)

(** [r+] *)
Definition Plus (r : re) : re := Seq r (Star r).

(** [\s] on ASCII text: tab to carriage return, the four separators
    FS, GS, RS, US, and the space. *)
Definition is_space (c : ascii) : bool :=
  let n := nat_of_ascii c in
  ((9 <=? n) && (n <=? 13) || (28 <=? n) && (n <=? 32))%nat.

(** [\w] on ASCII text. *)
Definition is_word (c : ascii) : bool :=
  let n := nat_of_ascii c in
  ((48 <=? n) && (n <=? 57) || (65 <=? n) && (n <=? 90)
   || (97 <=? n) && (n <=? 122) || (n =? 95))%nat.

Definition in_charset (cs : charset) (c : ascii) : bool :=
  match cs with
  | CSpace => is_space c
  | CWord => is_word c
  | COneOf l => existsb (Ascii.eqb c) l
  | CNoneOf l => negb (existsb (Ascii.eqb c) l)
  end.

(** The backtracking matcher.  [exec r s cap k] matches [r] at the front of
    [s] and hands the rest of the text and the text captured so far to the
    continuation [k]; alternatives are tried left to right and repetitions
    longest first, and a failing continuation makes the matcher back up. *)
Fixpoint exec {A : Type} (r : re) (s : string) (cap : string)
  (k : string -> string -> option A) {struct r} : option A :=
  match r with
  | Lit l =>
      if String.prefix l s then k (PyStr.drop (String.length l) s) cap
      else None
  | Cls cs =>
      match s with
      | String c s' => if in_charset cs c then k s' cap else None
      | EmptyString => None
      end
  | Seq r1 r2 => exec r1 s cap (fun s' cap' => exec r2 s' cap' k)
  | Alt r1 r2 =>
      match exec r1 s cap k with
      | Some a => Some a
      | None => exec r2 s cap k
      end
  | Star r1 =>
      (fix loop (fuel : nat) (s : string) (cap : string) : option A :=
         match fuel with
         | O => k s cap
         | S fuel' =>
             match
               exec r1 s cap
                 (fun s' cap' =>
                    if (String.length s' <? String.length s)%nat
                    then loop fuel' s' cap' else None)
             with
             | Some a => Some a
             | None => k s cap
             end
         end) (String.length s) s cap
  | Opt r1 =>
      match exec r1 s cap k with
      | Some a => Some a
      | None => k s cap
      end
  | Group r1 =>
      exec r1 s cap
        (fun s' _ => k s' (PyStr.take (String.length s - String.length s') s))
  end.

(** [pattern.match] at the front of [s]: the rest of the text after the
    match and the text of group 1. *)
Definition match_at (r : re) (s : string) : option (string * string) :=
  exec r s EmptyString (fun rest cap => Some (rest, cap)).

(** [pattern.findall(s)] for a pattern with one group: the scan tries every
    position from left to right and resumes after each match.  [skip] counts
    the characters of the current match that are still to be passed over. *)
Fixpoint findall_from (r : re) (s : string) (skip : nat) : list string :=
  match skip, s with
  | S skip', String _ s' => findall_from r s' skip'
  | S _, EmptyString => []
  | O, EmptyString =>
      match match_at r s with
      | Some (_, cap) => [cap]
      | None => []
      end
  | O, String _ s' =>
      match match_at r s with
      | Some (rest, cap) =>
          cap :: findall_from r s' (String.length s - String.length rest - 1)
      | None => findall_from r s' O
      end
  end.

Definition findall (r : re) (s : string) : list string := findall_from r s O.

End Regex.

(** ** [dep-graph-analyzer.py] *)

Module Analyzer.

Import PyPath FS Regex.

(** *** Data classes *)

Record ImportInfo : Type := {
  from_file : string;
  to_file : string;
  import_type : string;          (* 'static', 'dynamic', 're-export' *)
  import_name : option string;
  is_external : bool
}.

Record FileNode : Type := {
  id : string;
  type : string;
  imports : nat;
  imported_by : nat;
  is_orphaned : bool
}.

(** [FileNode(id=i, type=t)] with the defaults of the data class. *)
Definition new_FileNode (i t : string) : FileNode :=
  {| id := i; type := t; imports := 0; imported_by := 0;
     is_orphaned := false |}.

(** *** Insertion-ordered dictionaries with string keys *)

Definition dict (V : Type) : Type := list (string * V).

Fixpoint dict_get {V} (d : dict V) (k : string) : option V :=
  match d with
  | [] => None
  | (k', v) :: d' => if String.eqb k' k then Some v else dict_get d' k
  end.

(** [d[k] = v]: an existing key keeps its position. *)
Fixpoint dict_set {V} (d : dict V) (k : string) (v : V) : dict V :=
  match d with
  | [] => [(k, v)]
  | (k', v') :: d' =>
      if String.eqb k' k then (k, v) :: d' else (k', v') :: dict_set d' k v
  end.

Definition dict_keys {V} (d : dict V) : list string := map fst d.
Definition dict_values {V} (d : dict V) : list V := map snd d.

(** *** The analyzer object *)

Record analyzer : Type := {
  project_root : path;
  nodes : dict FileNode;
  edges : list ImportInfo;
  file_contents : dict string
}.

(** [DependencyGraphAnalyzer(project_root)] *)
Definition init (root : path) : analyzer :=
  {| project_root := root; nodes := []; edges := []; file_contents := [] |}.

Definition src_root (self : analyzer) : path := project_root self ++ ["src"].

Definition set_nodes (self : analyzer) (n : dict FileNode) : analyzer :=
  {| project_root := project_root self; nodes := n; edges := edges self;
     file_contents := file_contents self |}.

Definition set_edges (self : analyzer) (e : list ImportInfo) : analyzer :=
  {| project_root := project_root self; nodes := nodes self; edges := e;
     file_contents := file_contents self |}.

Definition set_file_contents (self : analyzer) (c : dict string) : analyzer :=
  {| project_root := project_root self; nodes := nodes self;
     edges := edges self; file_contents := c |}.

(** *** [self.import_patterns] *)

Definition squote : ascii := "'"%char.
Definition dquote : ascii := Eval cbv in ascii_of_nat 34.

(** Concatenation of a sequence of sub-patterns. *)
Definition cat (rs : list re) : re := fold_right Seq (Lit EmptyString) rs.

Definition ws : re := Cls CSpace.                         (* \s *)
Definition word : re := Cls CWord.                        (* \w *)
(** Either quote character. *)
Definition quote : re := Cls (COneOf [squote; dquote]).
(** A quoted import path: a quote, the captured group of one or more
    non-quote characters, a quote. *)
Definition quoted_path : re :=
  cat [quote; Group (Plus (Cls (CNoneOf [squote; dquote]))); quote].
(** A braced name list, [\{[^}]*\}]. *)
Definition braces : re :=
  cat [Lit "{"; Star (Cls (CNoneOf ["}"%char])); Lit "}"].

Definition static_import_re : re :=
  cat [Lit "import"; Plus ws;
       Opt (cat [Alt braces
                   (Alt (cat [Lit "*"; Plus ws; Lit "as"; Plus ws; Plus word])
                        (Plus word));
                 Plus ws; Lit "from"; Plus ws]);
       quoted_path].

Definition dynamic_import_re : re :=
  cat [Lit "import"; Star ws; Lit "("; Star ws; quoted_path; Star ws; Lit ")"].

Definition lazy_import_re : re :=
  cat [Lit "React.lazy"; Star ws; Lit "("; Star ws; Lit "("; Star ws; Lit ")";
       Star ws; Lit "=>"; Star ws; Lit "import"; Star ws; Lit "("; Star ws;
       quoted_path; Star ws; Lit ")"; Star ws; Lit ")"].

Definition require_re : re :=
  cat [Lit "require"; Star ws; Lit "("; Star ws; quoted_path; Star ws; Lit ")"].

Definition export_from_re : re :=
  cat [Lit "export"; Plus ws; Alt braces (Lit "*"); Plus ws; Lit "from";
       Plus ws; quoted_path].

Definition import_patterns : list (string * re) :=
  [("static_import", static_import_re);
   ("dynamic_import", dynamic_import_re);
   ("lazy_import", lazy_import_re);
   ("require", require_re);
   ("export_from", export_from_re)].

(** *** [self.file_type_patterns] *)

Definition file_type_patterns : list (string * list string) :=
  [("entry", ["main.tsx"; "main.ts"; "index.html"]);
   ("test", [".test."; ".spec."; "__tests__"]);
   ("config", ["config."; "setup."; ".config."]);
   ("type", [".d.ts"; "types.ts"])].

(** *** [get_all_source_files] *)

Definition extensions : list string := [".ts"; ".tsx"; ".js"; ".jsx"].

Definition get_all_source_files (self : analyzer) (fs : entry) : list path :=
  let files :=
    concat (map (fun ext => rglob fs (src_root self) ("*" +:+ ext)) extensions)
  in
  (* Also check for entry points at project root *)
  let files :=
    files ++ concat (map (fun pattern => glob fs (project_root self) pattern)
                         ["*.ts"; "*.tsx"; "*.js"; "*.jsx"])
  in
  sorted files.

(** *** [classify_file_type] *)

(** The first entry of [file_type_patterns] one of whose patterns occurs in
    the relative path. *)
Definition match_file_type_pattern (relative_path : string) : option string :=
  match
    find (fun entry =>
            existsb (fun pattern => PyStr.contains pattern relative_path)
                    (snd entry))
         file_type_patterns
  with
  | Some (file_type, _) => Some file_type
  | None => None
  end.

(** The classification by directory structure. *)
Definition classify_by_directory (parts : list string) : string :=
  if PyStr.mem "components" parts then "component"
  else if PyStr.mem "services" parts || PyStr.mem "api" parts then "service"
  else if PyStr.mem "utils" parts || PyStr.mem "lib" parts then "utility"
  else if PyStr.mem "pages" parts then "page"
  else if PyStr.mem "hooks" parts then "hook"
  else if PyStr.mem "context" parts || PyStr.mem "providers" parts
       then "context"
  else if PyStr.mem "features" parts then "feature"
  else "module".

Definition classify_file_type (self : analyzer) (file_path : path)
  : result string :=
  rel ← relative_to file_path (project_root self);
  let relative_path := str_rel rel in
  match match_file_type_pattern relative_path with
  | Some file_type => Ok file_type
  | None => Ok (classify_by_directory (parts file_path))
  end.

(** *** [resolve_import_path] *)

(** The direct file candidates, [resolved_path.with_suffix(ext)]. *)
Fixpoint direct_matches (fs : entry) (resolved_path : path)
  (exts : list string) : result (list path) :=
  match exts with
  | [] => Ok []
  | ext :: exts' =>
      candidate ← with_suffix resolved_path ext;
      rest ← direct_matches fs resolved_path exts';
      Ok (if exists_ fs candidate then candidate :: rest else rest)
  end.

(** The index file candidates, [resolved_path / f'index{ext}']. *)
Definition index_matches (fs : entry) (resolved_path : path)
  (exts : list string) : list path :=
  if is_dir fs resolved_path then
    List.filter (exists_ fs)
      (map (fun ext => resolved_path ++ ["index" +:+ ext]) exts)
  else [].

Definition resolve_import_path (self : analyzer) (fs : entry)
  (import_path : string) (from_file : path) : result (option path) :=
  (* Skip external packages *)
  if negb (PyStr.startswith import_path ".")
     && negb (PyStr.startswith import_path "@/")
  then Ok None
  else
    (* Handle path aliases *)
    let '(import_path, base_path) :=
      if PyStr.startswith import_path "@/"
      then (PyStr.drop 2 import_path, src_root self)
      else (import_path, parent from_file)
    in
    let resolved_path := resolve (joinpath base_path import_path) in
    (* Direct file match, then index file match *)
    direct ← direct_matches fs resolved_path extensions;
    let possible_paths := direct ++ index_matches fs resolved_path extensions in
    (* Return first match *)
    Ok (find (exists_ fs) possible_paths).

(** *** [extract_imports_from_file] *)

(** [str(p)] for an absolute path. *)
Definition str_abs (p : path) : string := "/" +:+ PyStr.join "/" p.

(** The provisional kind of an import that resolved to a file. *)
Definition imp_type_of (import_type : string) : string :=
  if String.eqb import_type "dynamic_import"
     || String.eqb import_type "lazy_import" then "dynamic"
  else if String.eqb import_type "export_from" then "re-export"
  else "static".

(** The body of the inner loop: the record for one match of one pattern. *)
Definition import_record (self : analyzer) (fs : entry) (file_path : path)
  (relative_from : string) (import_type : string) (import_path : string)
  : result ImportInfo :=
  resolved ← resolve_import_path self fs import_path file_path;
  match resolved with
  | Some resolved_path =>
      rel ← relative_to resolved_path (project_root self);
      let relative_to := str_rel rel in
      Ok {| from_file := relative_from;
            to_file := relative_to;
            import_type := imp_type_of import_type;
            import_name := Some import_path;
            is_external := false |}
  | None =>
      (* External import *)
      Ok {| from_file := relative_from;
            to_file := import_path;
            import_type := "static";
            import_name := Some import_path;
            is_external := true |}
  end.

(** Every match of every pattern, in the order of the two nested loops:
    the name of the pattern and the captured import path. *)
Definition raw_matches (content : string) : list (string * string) :=
  concat (map (fun '(import_type, pattern) =>
                 map (pair import_type) (findall pattern content))
              import_patterns).

Fixpoint import_records (self : analyzer) (fs : entry) (file_path : path)
  (relative_from : string) (matches : list (string * string))
  : result (list ImportInfo) :=
  match matches with
  | [] => Ok []
  | (import_type, import_path) :: matches' =>
      info ← import_record self fs file_path relative_from
                           import_type import_path;
      rest ← import_records self fs file_path relative_from matches';
      Ok (info :: rest)
  end.

Definition extract_imports_from_file (self : analyzer) (fs : entry)
  (file_path : path) : result (list ImportInfo * analyzer) :=
  match read_text fs file_path with
  | None => Ok ([], self)
  | Some content =>
      let self :=
        set_file_contents self
          (dict_set (file_contents self) (str_abs file_path) content) in
      rel ← relative_to file_path (project_root self);
      let relative_from := str_rel rel in
      imports ← import_records self fs file_path relative_from
                               (raw_matches content);
      Ok (imports, self)
  end.

(** *** [build_dependency_graph] *)

(** [counts[k] += 1] on a [defaultdict(int)]. *)
Definition incr (counts : gmap string nat) (k : string) : gmap string nat :=
  <[k := S (counts !!! k)]> counts.

(** Create nodes for all files. *)
Definition create_node (self : analyzer) (file_path : path) : result analyzer :=
  rel ← relative_to file_path (project_root self);
  let relative_path := str_rel rel in
  file_type ← classify_file_type self file_path;
  Ok (set_nodes self
        (dict_set (nodes self) relative_path
                  (new_FileNode relative_path file_type))).

(** Extract imports from one file and extend [self.edges]. *)
Definition collect_imports (fs : entry) (self : analyzer) (file_path : path)
  : result analyzer :=
  '(imports, self) ← extract_imports_from_file self fs file_path;
  Ok (set_edges self (edges self ++ imports)).

(** Calculate import statistics: [(import_counts, imported_by_counts)]. *)
Definition count_edge (counts : gmap string nat * gmap string nat)
  (edge : ImportInfo) : gmap string nat * gmap string nat :=
  if negb (is_external edge)
  then (incr (fst counts) (from_file edge), incr (snd counts) (to_file edge))
  else counts.

Definition import_statistics (es : list ImportInfo)
  : gmap string nat * gmap string nat :=
  fold_left count_edge es (∅, ∅).

(** Update node statistics. *)
Definition update_node (counts : gmap string nat * gmap string nat)
  (item : string * FileNode) : string * FileNode :=
  let '(node_id, node) := item in
  let node_imports := fst counts !!! node_id in
  let node_imported_by := snd counts !!! node_id in
  (node_id,
   {| id := id node;
      type := type node;
      imports := node_imports;
      imported_by := node_imported_by;
      is_orphaned :=
        (node_imported_by =? 0)%nat
        && negb (PyStr.mem (type node) ["entry"; "test"]) |}).

Definition build_dependency_graph (self : analyzer) (fs : entry)
  : result analyzer :=
  let source_files := get_all_source_files self fs in
  self ← for_each create_node source_files self;
  self ← for_each (collect_imports fs) source_files self;
  let counts := import_statistics (edges self) in
  Ok (set_nodes self (map (update_node counts) (nodes self))).

(** *** [generate_json_output] *)

Record graph_stats : Type := {
  totalFiles : nat;
  totalImports : nat;
  orphanedFilesCount : nat;        (* stats['orphanedFiles'] *)
  externalDependencies : nat;
  entryPoints : nat;
  fileTypes : gmap string nat
}.

Record graph_document : Type := {
  doc_nodes : list FileNode;       (* 'nodes' *)
  doc_edges : list ImportInfo;     (* 'edges' *)
  doc_stats : graph_stats;         (* 'stats' *)
  orphanedFiles : list string
}.

Definition generate_json_output (self : analyzer) : graph_document :=
  (* Filter out external dependencies for cleaner graph *)
  let internal_edges :=
    List.filter (fun edge => negb (is_external edge)) (edges self) in
  (* Find orphaned files *)
  let orphaned_files := List.filter is_orphaned (dict_values (nodes self)) in
  let values := dict_values (nodes self) in
  {| doc_nodes := values;
     doc_edges := internal_edges;
     doc_stats :=
       {| totalFiles := length (nodes self);
          totalImports := length internal_edges;
          orphanedFilesCount := length orphaned_files;
          externalDependencies := length (List.filter is_external (edges self));
          entryPoints :=
            length (List.filter (fun n => String.eqb (type n) "entry") values);
          fileTypes :=
            list_to_map
              (map (fun file_type =>
                      (file_type,
                       length (List.filter
                                 (fun n => String.eqb (type n) file_type)
                                 values)))
                   (map type values)) |};
     orphanedFiles := map id orphaned_files |}.

End Analyzer.

(** ** [dep-graph-analysis-report.py] *)

Module Report.

Import Analyzer.

(** [a / b] on integers.  The quotient is kept exact; the program holds it
    in a float. *)
Definition truediv (a b : nat) : result Q :=
  match b with
  | O => Raise ZeroDivisionError
  | S _ => Ok (Z.of_nat a # Pos.of_nat b)
  end.

(** [nodes = {node['id']: node for node in graph_data['nodes']}] *)
Definition load_nodes (graph_data : graph_document) : dict FileNode :=
  fold_left (fun d node => dict_set d (id node) node) (doc_nodes graph_data) [].

(** Test coverage gaps: [test_files] and [source_files]. *)
Definition test_files (nodes : dict FileNode) : list FileNode :=
  List.filter (fun node => String.eqb (type node) "test") (dict_values nodes).

Definition source_files (nodes : dict FileNode) : list FileNode :=
  List.filter
    (fun node =>
       PyStr.mem (type node) ["component"; "service"; "utility"; "hook"])
    (dict_values nodes).

(** [len(test_files) / len(source_files) if source_files else 0] *)
Definition test_ratio (nodes : dict FileNode) : result Q :=
  match source_files nodes with
  | _ :: _ => truediv (length (test_files nodes)) (length (source_files nodes))
  | [] => Ok 0%Q
  end.

(** The warning printed under the ratio: [test_ratio < 0.3]. *)
Definition low_test_coverage (nodes : dict FileNode) : result bool :=
  ratio ← test_ratio nodes;
  Ok (negb (Qle_bool (3 # 10) ratio)).

(** The part of [analyze_dependency_graph] that reports the ratio. *)
Definition analyze_test_coverage (graph_data : graph_document)
  : result (Q * bool) :=
  let nodes := load_nodes graph_data in
  ratio ← test_ratio nodes;
  low ← low_test_coverage nodes;
  Ok (ratio, low).

End Report.

(** ** Notions used in the statements *)

Import PyPath FS Regex Analyzer.

(** An import path that the resolver does not dismiss as a package name. *)
Definition is_local (import_path : string) : bool :=
  PyStr.startswith import_path "." || PyStr.startswith import_path "@/".

(** The normalized candidate path that [resolve_import_path] probes. *)
Definition resolved_candidate (self : analyzer) (import_path : string)
  (from_file : path) : path :=
  if PyStr.startswith import_path "@/"
  then resolve (joinpath (src_root self) (PyStr.drop 2 import_path))
  else resolve (joinpath (parent from_file) import_path).

(** The two probes of [resolve_import_path] at a candidate path. *)
Definition first_match (fs : entry) (resolved_path : path)
  : result (option path) :=
  direct ← direct_matches fs resolved_path extensions;
  Ok (find (exists_ fs)
           (direct ++ index_matches fs resolved_path extensions)).

(** A file name that one of the discovery patterns matches. *)
Definition has_source_extension (nm : string) : bool :=
  existsb (PyStr.endswith nm) extensions.

(** The identities of the nodes of the graph. *)
Definition node_ids (self : analyzer) : list string := dict_keys (nodes self).

(** The internal edges whose target is not a node. *)
Definition dangling_edges (nodes : list string) (edges : list ImportInfo)
  : list ImportInfo :=
  List.filter
    (fun edge => negb (is_external edge) && negb (PyStr.mem (to_file edge) nodes))
    edges.


(** [PurePath.stem] of a final segment: the segment without its suffix. *)
Definition stem_of (nm : string) : string :=
  if String.eqb (suffix_of nm) EmptyString then nm
  else PyStr.take (String.length nm - String.length (suffix_of nm)) nm.

(** The direct file candidate for an extension. *)
Definition direct_candidate (resolved_path : path) (ext : string) : path :=
  removelast resolved_path ++ [stem_of (name resolved_path) +:+ ext].

(** The index file candidate for an extension. *)
Definition index_candidate (resolved_path : path) (ext : string) : path :=
  resolved_path ++ ["index" +:+ ext].


(** What the resolver guarantees about a record. *)
Definition edge_resolved (root : path) (fs : entry) (edge : ImportInfo)
  : Prop :=
  if is_external edge then import_name edge = Some (to_file edge)
  else exists target rel,
      exists_ fs target = true
      /\ has_source_extension (name target) = true
      /\ relative_to target root = Ok rel
      /\ to_file edge = str_rel rel.

(** One of the markers occurs in the text. *)
Definition occurs_any (markers : list string) (text : string) : bool :=
  existsb (fun marker => PyStr.contains marker text) markers.

(** The roles that the classifier can assign. *)
Definition roles : list string :=
  ["entry"; "test"; "config"; "type"; "component"; "service"; "utility";
   "page"; "hook"; "context"; "feature"; "module"].

(** ** Scenarios *)

Module Scenario.

(** [src/App.tsx] imports [./Foo], and [src/Foo.tsx] exists. *)
Definition fs_app_foo : entry :=
  Dir [("p",
        Dir [("src",
              Dir [("App.tsx", File (Some "import Foo from './Foo'"));
                   ("Foo.tsx", File (Some "export default 1"));
                   ("utils", Dir [("helpers.ts", File (Some "//"))])])])].

(** [src/App.tsx] imports a script that lives beside [src]. *)
Definition fs_scripts : entry :=
  Dir [("p",
        Dir [("src",
              Dir [("App.tsx",
                    File (Some "import seed from '../scripts/seed'"))]);
             ("scripts", Dir [("seed.ts", File (Some "export default 1"))])])].

(** [src/App.tsx] wraps a dynamic import in [React.lazy]. *)
Definition lazy_statement : string :=
  "const Lazy = React.lazy(() => import('./Lazy'));".

Definition fs_lazy : entry :=
  Dir [("p",
        Dir [("src",
              Dir [("App.tsx", File (Some lazy_statement));
                   ("Lazy.tsx", File (Some "export default 1"))])])].

(** [src/App.tsx] imports a package dynamically. *)
Definition fs_dynamic_package : entry :=
  Dir [("p",
        Dir [("src",
              Dir [("App.tsx", File (Some "const m = import('lodash');"))])])].


Definition the_analyzer : analyzer := init ["p"].


Definition app_tsx : path := ["p"; "src"; "App.tsx"].

(** The value of a computation that did not raise. *)
Definition value_of {A} (default : A) (c : result A) : A :=
  match c with Ok a => a | Raise _ => default end.

(** The graphs built for the trees above. *)
Definition graph_app_foo : analyzer :=
  Eval vm_compute in
    value_of the_analyzer (build_dependency_graph the_analyzer fs_app_foo).

Definition graph_scripts : analyzer :=
  Eval vm_compute in
    value_of the_analyzer (build_dependency_graph the_analyzer fs_scripts).

Definition button_test : path :=
  ["p"; "src"; "components"; "Button.test.tsx"].

Definition main_test : path :=
  ["p"; "src"; "components"; "main.tsx.test.tsx"].

Definition lodash_record : ImportInfo :=
  {| from_file := "src/App.tsx"; to_file := "lodash";
     import_type := "static"; import_name := Some "lodash";
     is_external := true |}.

Definition lazy_record : ImportInfo :=
  {| from_file := "src/App.tsx"; to_file := "src/Lazy.tsx";
     import_type := "dynamic"; import_name := Some "./Lazy";
     is_external := false |}.

Definition extracted_lazy : list ImportInfo * analyzer :=
  Eval vm_compute in
    value_of ([], the_analyzer)
             (extract_imports_from_file the_analyzer fs_lazy app_tsx).

Definition seed_edge : ImportInfo :=
  {| from_file := "src/App.tsx"; to_file := "scripts/seed.ts";
     import_type := "static"; import_name := Some "../scripts/seed";
     is_external := false |}.



Definition helpers_node : FileNode :=
  {| id := "src/utils/helpers.ts"; type := "utility"; imports := 0;
     imported_by := 0; is_orphaned := true |}.

End Scenario.

(** ** [generate_mermaid_output] *)

Module Mermaid.

Import Analyzer.

(** [s.replace(old, new)] for a non-empty [old]: the occurrences are
    replaced from left to right and do not overlap.  [skip] counts the
    characters of the occurrence being replaced that are still ahead. *)
Fixpoint replace_from (old new : string) (s : string) (skip : nat) : string :=
  match s with
  | EmptyString => EmptyString
  | String c s' =>
      match skip with
      | S skip' => replace_from old new s' skip'
      | O =>
          if String.prefix old s
          then new +:+ replace_from old new s' (String.length old - 1)
          else String c (replace_from old new s' O)
      end
  end.

Definition replace (old new s : string) : string := replace_from old new s O.

(** [sorted(set(xs))]: ascending, each string once. *)
Fixpoint insert_unique (x : string) (sorted_tail : list string)
  : list string :=
  match sorted_tail with
  | [] => [x]
  | y :: rest =>
      match String.compare x y with
      | Lt => x :: y :: rest
      | Eq => y :: rest
      | Gt => y :: insert_unique x rest
      end
  end.

Definition sorted_set (xs : list string) : list string :=
  fold_right insert_unique [] xs.

(** [f"N{i}"] *)
Definition node_name (i : nat) : string :=
  "N" +:+ NilEmpty.string_of_uint (Nat.to_uint i).

Definition quoted (s : string) : string :=
  String dquote (s +:+ String dquote EmptyString).

Definition newline_char : ascii := Eval cbv in ascii_of_nat 10.

Definition newline : string := String newline_char EmptyString.

Definition internal_edges (self : analyzer) : list ImportInfo :=
  List.filter (fun edge => negb (is_external edge)) (edges self).

(** Focus on entry points and their immediate dependencies, and on the
    files that import many others. *)
Definition entry_points (self : analyzer) : list string :=
  map id
    (List.filter (fun n => String.eqb (type n) "entry")
                 (dict_values (nodes self))).

Definition high_import_files (self : analyzer) : list string :=
  map id
    (List.filter (fun n => (5 <? imports n)%nat) (dict_values (nodes self))).

(** The elements of [important_files], in the order they are added. *)
Definition important_files (self : analyzer) : list string :=
  entry_points self
  ++ map to_file
       (List.filter (fun edge => PyStr.mem (from_file edge) (entry_points self))
                    (internal_edges self))
  ++ high_import_files self.

Definition clean_name (file_id : string) : string :=
  replace ".ts" EmptyString
    (replace ".tsx" EmptyString (replace "src/" EmptyString file_id)).

(** The lines that one file of the enumeration adds. *)
Definition node_lines (self : analyzer) (node_id file_id : string)
  : list string :=
  match dict_get (nodes self) file_id with
  | Some node =>
      if String.eqb (type node) "entry" then
        ["    " +:+ node_id +:+ "[" +:+ quoted (clean_name file_id) +:+ "]";
         "    " +:+ node_id +:+ " --> " +:+ node_id]
      else if String.eqb (type node) "component" then
        ["    " +:+ node_id +:+ "((" +:+ quoted (clean_name file_id) +:+ "))"]
      else
        ["    " +:+ node_id +:+ "[" +:+ quoted (clean_name file_id) +:+ "]"]
  | None => []
  end.

(** The loop over [enumerate(sorted(important_files))], from index [i] on:
    the node mapping and the lines. *)
Fixpoint enumerate_nodes (self : analyzer) (i : nat) (files : list string)
  (node_mapping : dict string) (lines : list string)
  : dict string * list string :=
  match files with
  | [] => (node_mapping, lines)
  | file_id :: files' =>
      let node_id := node_name i in
      enumerate_nodes self (S i) files'
        (dict_set node_mapping file_id node_id)
        (lines ++ node_lines self node_id file_id)
  end.

(** The line of an edge between two important files. *)
Definition edge_lines (node_mapping : dict string) (edge : ImportInfo)
  : list string :=
  match dict_get node_mapping (from_file edge),
        dict_get node_mapping (to_file edge) with
  | Some from_node, Some to_node =>
      if String.eqb (import_type edge) "dynamic"
      then ["    " +:+ from_node +:+ " -.-> " +:+ to_node]
      else ["    " +:+ from_node +:+ " --> " +:+ to_node]
  | _, _ => []
  end.

Definition mermaid_lines (self : analyzer) : list string :=
  let '(node_mapping, lines) :=
    enumerate_nodes self 0 (sorted_set (important_files self)) [] ["graph TD"]
  in
  lines ++ concat (map (edge_lines node_mapping) (internal_edges self)).

Definition node_mapping (self : analyzer) : dict string :=
  fst (enumerate_nodes self 0 (sorted_set (important_files self)) []
         ["graph TD"]).

Definition generate_mermaid_output (self : analyzer) : string :=
  PyStr.join newline (mermaid_lines self).

End Mermaid.

(** ** [dep-graph-analysis-report.py], the remaining sections *)

Module ReportSections.

Import Analyzer Report.

(** [sorted(xs, key=key, reverse=True)]: descending in the key, and stable,
    items of equal key keep the order they had. *)
Fixpoint insert_desc {A} (key : A -> nat) (x : A) (sorted_tail : list A)
  : list A :=
  match sorted_tail with
  | [] => [x]
  | y :: rest =>
      if (key y <=? key x)%nat then x :: y :: rest
      else y :: insert_desc key x rest
  end.

Definition sorted_desc {A} (key : A -> nat) (xs : list A) : list A :=
  fold_right (insert_desc key) [] xs.

(** [sorted(d.items())] for a dictionary with string keys: ascending in the
    key. *)
Fixpoint insert_by_key {V} (item : string * V) (sorted_tail : dict V)
  : dict V :=
  match sorted_tail with
  | [] => [item]
  | item' :: rest =>
      match String.compare (fst item) (fst item') with
      | Gt => item' :: insert_by_key item rest
      | _ => item :: item' :: rest
      end
  end.

Definition sorted_items {V} (d : dict V) : dict V :=
  fold_right insert_by_key [] d.

(** [d[k].append(v)] on a [defaultdict(list)]. *)
Definition dict_append {V} (d : dict (list V)) (k : string) (v : V)
  : dict (list V) :=
  match dict_get d k with
  | Some l => dict_set d k (l ++ [v])
  | None => dict_set d k [v]
  end.

(** [Counter(xs)] *)
Definition counter (xs : list string) : dict nat :=
  fold_left
    (fun d x => dict_set d x (S (default 0 (dict_get d x)))) xs [].

(** 1. Entry points. *)
Definition entry_points (nodes : dict FileNode) : list FileNode :=
  List.filter (fun node => String.eqb (type node) "entry") (dict_values nodes).

(** 2. Most connected files and most imported files. *)
Definition by_imports (nodes : dict FileNode) : list FileNode :=
  take 10 (sorted_desc imports (dict_values nodes)).

Definition by_imported (nodes : dict FileNode) : list FileNode :=
  take 10 (sorted_desc imported_by (dict_values nodes)).

(** 3. Orphaned files, grouped by directory. *)
Definition dir_path (orphan : string) : string :=
  PyStr.join "/" (removelast (PyStr.split "/" orphan)).

Definition filename (file : string) : string :=
  List.last (PyStr.split "/" file) EmptyString.

Definition orphaned_by_dir (orphaned_files : list string)
  : dict (list string) :=
  fold_left
    (fun d orphan =>
       if PyStr.contains "/" orphan
       then dict_append d (dir_path orphan) orphan
       else dict_append d "root" orphan)
    orphaned_files [].

(** One printed group: the directory, the file names shown and the number
    of files left out. *)
Definition orphan_group (item : string * list string)
  : string * list string * nat :=
  let '(directory, files) := item in
  if (3 <? length files)%nat
  then (directory, map filename (take 3 files), length files - 3)
  else (directory, map filename files, 0).

Definition orphan_listing (orphaned_files : list string)
  : list (string * list string * nat) :=
  map orphan_group (sorted_items (orphaned_by_dir orphaned_files)).

(** [(count / total) * 100] *)
Definition percentage (count total : nat) : result Q :=
  ratio ← truediv count total; Ok (ratio * 100)%Q.

Fixpoint percentages (total : nat) (items : list (string * nat))
  : result (list (string * nat * Q)) :=
  match items with
  | [] => Ok []
  | (label, count) :: items' =>
      p ← percentage count total;
      rest ← percentages total items';
      Ok ((label, count, p) :: rest)
  end.

(** 4. File type distribution.  The order of [stats['fileTypes']] is the
    one of the map; rows of equal count keep it. *)
Definition file_type_distribution (stats : graph_stats)
  : result (list (string * nat * Q)) :=
  percentages (totalFiles stats)
              (sorted_desc snd (map_to_list (fileTypes stats))).

(** 5. Import type analysis. *)
Definition import_type_analysis (edges : list ImportInfo)
  : result (list (string * nat * Q)) :=
  let import_types := counter (map import_type edges) in
  percentages (length edges) (sorted_desc snd import_types).

(** 6. Circular dependency risk: the files flagged and the ones printed. *)
Definition high_interconnected (nodes : dict FileNode) : list FileNode :=
  List.filter
    (fun node => (5 <? imports node)%nat && (5 <? imported_by node)%nat)
    (dict_values nodes).

Definition circular_risks (nodes : dict FileNode) : list (FileNode * nat) :=
  map (fun node => (node, imports node + imported_by node))
      (take 5 (sorted_desc (fun node => imports node + imported_by node)
                           (high_interconnected nodes))).

(** 7. Feature modules. *)
Definition feature_files (nodes : dict FileNode) : list FileNode :=
  List.filter (fun node => PyStr.contains "features/" (id node))
              (dict_values nodes).

Definition feature_modules (nodes : dict FileNode) : dict (list FileNode) :=
  fold_left
    (fun d node =>
       match PyStr.split "/" (id node) with
       | _ :: second :: feature_name :: _ =>
           if String.eqb second "features"
           then dict_append d feature_name node else d
       | _ => d
       end)
    (feature_files nodes) [].

(** [sum(f[field] for f in files) / len(files) if files else 0] *)
Definition average (field : FileNode -> nat) (files : list FileNode)
  : result Q :=
  match files with
  | _ :: _ => truediv (list_sum (map field files)) (length files)
  | [] => Ok 0%Q
  end.

Fixpoint feature_rows (items : dict (list FileNode))
  : result (list (string * nat * Q * Q)) :=
  match items with
  | [] => Ok []
  | (feature, files) :: items' =>
      avg_imports ← average imports files;
      avg_imported_by ← average imported_by files;
      rest ← feature_rows items';
      Ok ((feature, length files, avg_imports, avg_imported_by) :: rest)
  end.

Definition feature_module_analysis (nodes : dict FileNode)
  : result (list (string * nat * Q * Q)) :=
  feature_rows
    (sorted_desc (fun item => length (snd item)) (feature_modules nodes)).

(** 8. Potential issues. *)
Definition heavy_importers (nodes : dict FileNode) : list FileNode :=
  List.filter (fun node => (20 <? imports node)%nat) (dict_values nodes).

Definition critical_deps (nodes : dict FileNode) : list FileNode :=
  List.filter (fun node => (15 <? imported_by node)%nat) (dict_values nodes).

Definition component_files (nodes : dict FileNode) : list FileNode :=
  List.filter (fun node => String.eqb (type node) "component")
              (dict_values nodes).

Definition orphaned_components (nodes : dict FileNode) : list FileNode :=
  List.filter (fun node => (imported_by node =? 0)%nat)
              (component_files nodes).

(** What [analyze_dependency_graph] computes, section by section. *)
Record report : Type := {
  rep_entry_points : list FileNode;
  rep_by_imports : list FileNode;
  rep_by_imported : list FileNode;
  rep_orphans : list (string * list string * nat);
  rep_file_types : list (string * nat * Q);
  rep_import_types : list (string * nat * Q);
  rep_circular : list (FileNode * nat);
  rep_features : list (string * nat * Q * Q);
  rep_heavy_importers : list FileNode;
  rep_critical_deps : list FileNode;
  rep_orphaned_components : list FileNode;
  rep_test_ratio : Q;
  rep_low_coverage : bool
}.

Definition analyze_dependency_graph (graph_data : graph_document)
  : result report :=
  let nodes := load_nodes graph_data in
  let edges := doc_edges graph_data in
  let stats := doc_stats graph_data in
  let orphaned_files := orphanedFiles graph_data in
  file_types ← file_type_distribution stats;
  import_types ← import_type_analysis edges;
  features ← feature_module_analysis nodes;
  ratio ← test_ratio nodes;
  low ← low_test_coverage nodes;
  Ok {| rep_entry_points := entry_points nodes;
        rep_by_imports := by_imports nodes;
        rep_by_imported := by_imported nodes;
        rep_orphans := orphan_listing orphaned_files;
        rep_file_types := file_types;
        rep_import_types := import_types;
        rep_circular := circular_risks nodes;
        rep_features := features;
        rep_heavy_importers := heavy_importers nodes;
        rep_critical_deps := critical_deps nodes;
        rep_orphaned_components := orphaned_components nodes;
        rep_test_ratio := ratio;
        rep_low_coverage := low |}.

End ReportSections.

(** The strict order of strings that [sorted] uses. *)
Definition string_lt (a b : string) : Prop := String.compare a b = Lt.

(** ** Well-formed file system snapshots *)


(** ** Further scenarios *)

Module Scenario2.

Import Scenario.


(** [src/App.tsx] imports a file that lives outside the project root. *)
Definition fs_escaping : entry :=
  Dir [("p",
        Dir [("src",
              Dir [("App.tsx",
                    File (Some "import x from '../../shared/x'"))])]);
       ("shared", Dir [("x.ts", File (Some "export default 1"))])].

(** An entry point at the top of the project that imports [src/App] and,
    dynamically, [src/Lazy]. *)
Definition fs_entry : entry :=
  Dir [("p",
        Dir [("main.tsx",
              File (Some "import App from './src/App'; import('./src/Lazy')"));
             ("src",
              Dir [("App.tsx", File (Some "export default 1"));
                   ("Lazy.tsx", File (Some "export default 2"))])])].

Definition graph_entry : analyzer :=
  Eval vm_compute in
    value_of the_analyzer (build_dependency_graph the_analyzer fs_entry).

Definition lazy_edge : ImportInfo :=
  {| from_file := "main.tsx"; to_file := "src/Lazy.tsx";
     import_type := "dynamic"; import_name := Some "./src/Lazy";
     is_external := false |}.

(** A component that nothing imports. *)
Definition fs_component : entry :=
  Dir [("p",
        Dir [("src",
              Dir [("App.tsx", File (Some "export default 1"));
                   ("components",
                    Dir [("Button.tsx", File (Some "export default 2"))])])])].

Definition graph_component : analyzer :=
  Eval vm_compute in
    value_of the_analyzer (build_dependency_graph the_analyzer fs_component).

Definition button_node : FileNode :=
  {| id := "src/components/Button.tsx"; type := "component"; imports := 0;
     imported_by := 0; is_orphaned := true |}.

Definition foo_node : FileNode :=
  {| id := "src/Foo.tsx"; type := "module"; imports := 0; imported_by := 1;
     is_orphaned := false |}.

End Scenario2.

(** ** The analyzer and the errors of the operating system *)

Module OS.

Import PyPath FS Regex Analyzer.

(** What the operating system answers for a path beyond what the tree
    shows.  [stat_error p] is the errno with which [os.stat(p)] fails when
    that errno is none of [ENOENT], [ENOTDIR], [EBADF] and [ELOOP], the ones
    that [Path.exists()] and [Path.is_dir()] take for absence: for instance
    [ENAMETOOLONG] for a name beyond the limit of the file system, or
    [EACCES] below a directory that may not be searched.  [open_error p] is
    the errno with which [open(p, 'w')] fails for a reason that the tree does
    not show, such as [EACCES] or [EROFS]. *)
Record os_errors : Type := {
  stat_error : path -> option string;
  open_error : path -> option string
}.

(** An operating system that reports nothing but absence. *)
Definition no_errors : os_errors :=
  {| stat_error := fun _ => None; open_error := fun _ => None |}.

(** [Path.exists()]: absence is [False], every other error of [os.stat] is
    raised again. *)
Definition path_exists (os : os_errors) (fs : entry) (p : path)
  : result bool :=
  match stat_error os p with
  | Some errno => Raise (OSError errno)
  | None => Ok (exists_ fs p)
  end.

(** [Path.is_dir()], with the same treatment of errors. *)
Definition path_is_dir (os : os_errors) (fs : entry) (p : path)
  : result bool :=
  match stat_error os p with
  | Some errno => Raise (OSError errno)
  | None => Ok (is_dir fs p)
  end.

(** The NUL character, which no system call accepts in a path. *)
Definition nul : string := String Ascii.zero EmptyString.

(** [Path.resolve()]: [os.path.realpath] calls [os.lstat] on every named
    segment and lets the [ValueError] for a NUL character through; the
    errors of the operating system are swallowed in non-strict mode. *)
Definition path_resolve (segs : list string) : result path :=
  if existsb (PyStr.contains nul) segs
  then Raise (ValueError "embedded null byte")
  else Ok (resolve segs).

(** *** [resolve_import_path] *)

(** Direct file match. *)
Fixpoint direct_matches (os : os_errors) (fs : entry) (resolved_path : path)
  (exts : list string) : result (list path) :=
  match exts with
  | [] => Ok []
  | ext :: exts' =>
      candidate ← with_suffix resolved_path ext;
      found ← path_exists os fs candidate;
      rest ← direct_matches os fs resolved_path exts';
      Ok (if found : bool then candidate :: rest else rest)
  end.

(** The loop over the index files of a directory. *)
Fixpoint index_files (os : os_errors) (fs : entry) (resolved_path : path)
  (exts : list string) : result (list path) :=
  match exts with
  | [] => Ok []
  | ext :: exts' =>
      let candidate := resolved_path ++ ["index" +:+ ext] in
      found ← path_exists os fs candidate;
      rest ← index_files os fs resolved_path exts';
      Ok (if found : bool then candidate :: rest else rest)
  end.

(** Index file match. *)
Definition index_matches (os : os_errors) (fs : entry) (resolved_path : path)
  (exts : list string) : result (list path) :=
  is_directory ← path_is_dir os fs resolved_path;
  if is_directory : bool then index_files os fs resolved_path exts else Ok [].

(** Return first match. *)
Fixpoint first_existing (os : os_errors) (fs : entry) (paths : list path)
  : result (option path) :=
  match paths with
  | [] => Ok None
  | p :: paths' =>
      found ← path_exists os fs p;
      if found : bool then Ok (Some p) else first_existing os fs paths'
  end.

Definition resolve_import_path (os : os_errors) (self : analyzer)
  (fs : entry) (import_path : string) (from_file : path)
  : result (option path) :=
  (* Skip external packages *)
  if negb (PyStr.startswith import_path ".")
     && negb (PyStr.startswith import_path "@/")
  then Ok None
  else
    (* Handle path aliases *)
    let '(import_path, base_path) :=
      if PyStr.startswith import_path "@/"
      then (PyStr.drop 2 import_path, src_root self)
      else (import_path, parent from_file)
    in
    resolved_path ← path_resolve (joinpath base_path import_path);
    direct ← direct_matches os fs resolved_path extensions;
    index ← index_matches os fs resolved_path extensions;
    let possible_paths := direct ++ index in
    first_existing os fs possible_paths.

(** *** [extract_imports_from_file] *)

Definition import_record (os : os_errors) (self : analyzer) (fs : entry)
  (file_path : path) (relative_from : string) (import_type : string)
  (import_path : string) : result ImportInfo :=
  resolved ← resolve_import_path os self fs import_path file_path;
  match resolved with
  | Some resolved_path =>
      rel ← relative_to resolved_path (project_root self);
      let relative_to := str_rel rel in
      Ok {| from_file := relative_from;
            to_file := relative_to;
            import_type := imp_type_of import_type;
            import_name := Some import_path;
            is_external := false |}
  | None =>
      (* External import *)
      Ok {| from_file := relative_from;
            to_file := import_path;
            import_type := "static";
            import_name := Some import_path;
            is_external := true |}
  end.

Fixpoint import_records (os : os_errors) (self : analyzer) (fs : entry)
  (file_path : path) (relative_from : string)
  (matches : list (string * string)) : result (list ImportInfo) :=
  match matches with
  | [] => Ok []
  | (import_type, import_path) :: matches' =>
      info ← import_record os self fs file_path relative_from
                           import_type import_path;
      rest ← import_records os self fs file_path relative_from matches';
      Ok (info :: rest)
  end.

Definition extract_imports_from_file (os : os_errors) (self : analyzer)
  (fs : entry) (file_path : path) : result (list ImportInfo * analyzer) :=
  match read_text fs file_path with
  | None => Ok ([], self)
  | Some content =>
      let self :=
        set_file_contents self
          (dict_set (file_contents self) (str_abs file_path) content) in
      rel ← relative_to file_path (project_root self);
      let relative_from := str_rel rel in
      imports ← import_records os self fs file_path relative_from
                               (raw_matches content);
      Ok (imports, self)
  end.

(** *** [build_dependency_graph] *)

Definition collect_imports (os : os_errors) (fs : entry) (self : analyzer)
  (file_path : path) : result analyzer :=
  '(imports, self) ← extract_imports_from_file os self fs file_path;
  Ok (set_edges self (edges self ++ imports)).

Definition build_dependency_graph (os : os_errors) (self : analyzer)
  (fs : entry) : result analyzer :=
  let source_files := get_all_source_files self fs in
  self ← for_each create_node source_files self;
  self ← for_each (collect_imports os fs) source_files self;
  let counts := import_statistics (edges self) in
  Ok (set_nodes self (map (update_node counts) (nodes self))).

(** *** [save_outputs] and [main] *)

(** What a file holds once it is written: the object handed to [json.dump],
    or a text. *)
Inductive output : Type :=
| JsonDocument (document : graph_document)
| Text (text : string).

(** The errno with which [open(p, 'w')] fails on the tree below [e]: a
    missing directory on the way, a file in the place of a directory, or a
    directory in the place of the file. *)
Fixpoint open_errno (e : entry) (p : path) : option string :=
  match p with
  | [] =>
      match e with
      | Dir _ => Some "EISDIR"
      | File _ => None
      end
  | seg :: p' =>
      match e with
      | File _ => Some "ENOTDIR"
      | Dir children =>
          match child seg children with
          | Some e' => open_errno e' p'
          | None =>
              match p' with
              | [] => None
              | _ :: _ => Some "ENOENT"
              end
          end
      end
  end.

(** [open(p, 'w')] *)
Definition open_for_writing (os : os_errors) (fs : entry) (p : path)
  : result unit :=
  match open_error os p with
  | Some errno => Raise (OSError errno)
  | None =>
      match open_errno fs p with
      | Some errno => Raise (OSError errno)
      | None => Ok tt
      end
  end.

(** [save_outputs]: the files written, in order, and how the call ends.
    The summary printed afterwards is left out. *)
Definition save_outputs (os : os_errors) (self : analyzer) (fs : entry)
  : list (path * output) * result unit :=
  (* Save JSON *)
  let json_output := generate_json_output self in
  let json_path := project_root self ++ ["dep-graph.json"] in
  match open_for_writing os fs json_path with
  | Raise e => ([], Raise e)
  | Ok _ =>
      let written := [(json_path, JsonDocument json_output)] in
      (* Save Mermaid *)
      let mermaid_output := Mermaid.generate_mermaid_output self in
      let mermaid_path := project_root self ++ ["dep-graph.mmd"] in
      match open_for_writing os fs mermaid_path with
      | Raise e => (written, Raise e)
      | Ok _ => (written ++ [(mermaid_path, Text mermaid_output)], Ok tt)
      end
  end.

(** The body of [main] for a given project root. *)
Definition run (os : os_errors) (root : path) (fs : entry)
  : list (path * output) * result unit :=
  let analyzer := init root in
  match build_dependency_graph os analyzer fs with
  | Raise e => ([], Raise e)
  | Ok analyzer => save_outputs os analyzer fs
  end.

Definition main (os : os_errors) (fs : entry)
  : list (path * output) * result unit :=
  run os ["Users"; "damon"; "liquid-spark-finance"] fs.

End OS.

(** The segments that [resolve_import_path] hands to [Path.resolve()]. *)
Definition joined_segments (self : analyzer) (import_path : string)
  (from_file : path) : list string :=
  if PyStr.startswith import_path "@/"
  then joinpath (src_root self) (PyStr.drop 2 import_path)
  else joinpath (parent from_file) import_path.


(** The paths that [resolve_import_path] asks the operating system about
    at a candidate, in the order of the calls: the four direct candidates,
    the candidate itself, and its index files when it is a directory. *)
Definition probed_paths (fs : entry) (candidate : path) : list path :=
  map (direct_candidate candidate) extensions
  ++ candidate
     :: (if is_dir fs candidate
         then map (index_candidate candidate) extensions
         else []).

(** ** Scenarios with errors of the operating system *)

Module Scenario3.

Import Scenario.

(** [src/App.tsx] imports a module that does not exist and a package. *)
Definition fs_missing : entry :=
  Dir [("p",
        Dir [("src",
              Dir [("App.tsx",
                    File (Some "import a from './Missing'; import b from 'react'"))
                  ])])].






(** An operating system that refuses to look at [src/Missing.jsx]. *)
Definition os_refusing : OS.os_errors :=
  {| OS.stat_error := fun p =>
       if List.list_eq_dec string_dec p ["p"; "src"; "Missing.jsx"]
       then Some "EACCES" else None;
     OS.open_error := fun _ => None |}.

End Scenario3.

(** ** Properties *)

(** *** The error monad *)

Lemma bind_Ok_inv {A B} (c : result A) (k : A -> result B) (b : B) :
  c ≫= k = Ok b -> exists a, c = Ok a /\ k a = Ok b.
Proof. destruct c as [a|e]; simpl; [eauto | discriminate]. Qed.

Ltac bind_inv H :=
  let a := fresh "a" in
  let Ha := fresh "Ha" in
  apply bind_Ok_inv in H; destruct H as (a & Ha & H).

(** *** Alias resolution *)

Lemma resolve_import_path_local (self : analyzer) (fs : entry)
  (import_path : string) (from_file : path) :
  is_local import_path = true ->
  resolve_import_path self fs import_path from_file
  = first_match fs (resolved_candidate self import_path from_file).
Proof.
  unfold is_local, resolve_import_path, resolved_candidate, first_match.
  intros Hloc.
  destruct (PyStr.startswith import_path ".") eqn:Hdot;
    destruct (PyStr.startswith import_path "@/") eqn:Halias;
    simpl in *; try discriminate; reflexivity.
Qed.

Lemma resolve_import_path_external (self : analyzer) (fs : entry)
  (import_path : string) (from_file : path) :
  is_local import_path = false ->
  resolve_import_path self fs import_path from_file = Ok None.
Proof.
  unfold is_local, resolve_import_path. intros Hloc.
  apply orb_false_iff in Hloc as [-> ->]. reflexivity.
Qed.

(** C7. An alias-marked import path resolves to the same result from every
    declaring file: the marker is stripped and the rest is resolved against
    the source root, whatever the location of the declaring file. *)
Theorem alias_resolution_independent (self : analyzer) (fs : entry)
  (rest : string) (from_file1 from_file2 : path) :
  resolve_import_path self fs ("@/" +:+ rest) from_file1
  = resolve_import_path self fs ("@/" +:+ rest) from_file2
  /\ resolve_import_path self fs ("@/" +:+ rest) from_file1
     = first_match fs (resolve (joinpath (src_root self) rest)).
Proof.
  assert (Hloc : is_local ("@/" +:+ rest) = true) by (destruct rest; reflexivity).
  rewrite !resolve_import_path_local by exact Hloc.
  unfold resolved_candidate.
  replace (PyStr.startswith ("@/" +:+ rest) "@/") with true
    by (destruct rest; reflexivity).
  split; reflexivity.
Qed.

(** *** The aggregation pass *)

Lemma for_each_Ok_preserves {A S} (P : S -> Prop) (body : S -> A -> result S)
  (xs : list A) :
  (forall s x s', In x xs -> P s -> body s x = Ok s' -> P s') ->
  forall s s', P s -> for_each body xs s = Ok s' -> P s'.
Proof.
  induction xs as [|x xs IH]; intros Hbody s s' Hs Hrun; simpl in Hrun.
  - by inversion Hrun; subst.
  - bind_inv Hrun.
    apply (IH (fun s0 y s0' Hy => Hbody s0 y s0' (or_intror Hy)) a s');
      [|exact Hrun].
    apply (Hbody s x a); [by left | exact Hs | exact Ha].
Qed.

Lemma build_dependency_graph_nodes (self : analyzer) (fs : entry)
  (a : analyzer) :
  build_dependency_graph self fs = Ok a ->
  exists mid : analyzer,
    nodes a = map (update_node (import_statistics (edges mid))) (nodes mid)
    /\ edges a = edges mid.
Proof.
  unfold build_dependency_graph. intros H.
  bind_inv H. bind_inv H. inversion H; subst; clear H.
  exists a1. split; reflexivity.
Qed.

Lemma update_node_orphan (counts : gmap string nat * gmap string nat)
  (item : string * FileNode) :
  let node := snd (update_node counts item) in
  is_orphaned node
  = (imported_by node =? 0)%nat
    && negb (PyStr.mem (type node) ["entry"; "test"]).
Proof. destruct item as [node_id node]. reflexivity. Qed.

Lemma mem_entry_test (t : string) :
  PyStr.mem t ["entry"; "test"] = false <-> t <> "entry" /\ t <> "test".
Proof.
  unfold PyStr.mem. simpl. rewrite orb_false_r, orb_false_iff.
  rewrite !String.eqb_neq. tauto.
Qed.

(** *** The degree counters *)

Lemma incr_lookup (counts : gmap string nat) (k k' : string) :
  incr counts k !!! k'
  = if String.eqb k k' then S (counts !!! k') else counts !!! k'.
Proof.
  unfold incr. destruct (String.eqb_spec k k') as [->|Hne].
  - by rewrite lookup_total_insert_eq.
  - by rewrite lookup_total_insert_ne.
Qed.

Lemma count_edges_from (es : list ImportInfo)
  (counts : gmap string nat * gmap string nat) (k : string) :
  (fold_left count_edge es counts).1 !!! k
  = counts.1 !!! k
    + length (List.filter
                (fun edge => negb (is_external edge)
                             && String.eqb (from_file edge) k) es)
  /\ (fold_left count_edge es counts).2 !!! k
     = counts.2 !!! k
       + length (List.filter
                   (fun edge => negb (is_external edge)
                                && String.eqb (to_file edge) k) es).
Proof.
  revert counts. induction es as [|edge es IH]; intros counts; simpl.
  - split; lia.
  - destruct (IH (count_edge counts edge)) as [-> ->].
    unfold count_edge. destruct (is_external edge); simpl; [split; lia|].
    rewrite !incr_lookup.
    destruct (String.eqb (from_file edge) k), (String.eqb (to_file edge) k);
      simpl; split; lia.
Qed.

(** The counters of [build_dependency_graph]: for every identity, the
    number of internal edges leaving it and the number reaching it. *)
Lemma import_statistics_counts (es : list ImportInfo) (k : string) :
  (import_statistics es).1 !!! k
  = length (List.filter
              (fun edge => negb (is_external edge)
                           && String.eqb (from_file edge) k) es)
  /\ (import_statistics es).2 !!! k
     = length (List.filter
                 (fun edge => negb (is_external edge)
                              && String.eqb (to_file edge) k) es).
Proof.
  unfold import_statistics.
  destruct (count_edges_from es (∅, ∅) k) as [-> ->].
  simpl. rewrite !lookup_total_empty. split; reflexivity.
Qed.

(** X3. An external edge never takes part in a degree count, and the incoming
    count of a node of the built graph is the number of internal edges whose
    target is the identity the node is filed under. *)
Lemma incoming_count_spec (self : analyzer) (fs : entry) (a : analyzer)
  (k : string) (node : FileNode) :
  build_dependency_graph self fs = Ok a ->
  In (k, node) (nodes a) ->
  imports node
  = length (List.filter
              (fun edge => negb (is_external edge)
                           && String.eqb (from_file edge) k) (edges a))
  /\ imported_by node
     = length (List.filter
                 (fun edge => negb (is_external edge)
                              && String.eqb (to_file edge) k) (edges a)).
Proof.
  intros Hbuild Hin.
  destruct (build_dependency_graph_nodes _ _ _ Hbuild) as (mid & Hnodes & Hedges).
  rewrite Hnodes in Hin. apply in_map_iff in Hin as ([k0 n0] & Heq & _).
  simpl in Heq. inversion Heq; subst; clear Heq. simpl.
  rewrite Hedges. apply import_statistics_counts.
Qed.

(** C2. After the aggregation pass of [build_dependency_graph], a node is
    flagged as orphaned if and only if its incoming count is zero and its
    role is neither entry nor test. *)
Theorem orphan_flag_iff (self : analyzer) (fs : entry) (a : analyzer)
  (node : FileNode) :
  build_dependency_graph self fs = Ok a ->
  In node (dict_values (nodes a)) ->
  is_orphaned node = true
  <-> imported_by node = 0 /\ type node <> "entry" /\ type node <> "test".
Proof.
  intros Hbuild Hin.
  destruct (build_dependency_graph_nodes _ _ _ Hbuild) as (mid & Hnodes & _).
  unfold dict_values in Hin. rewrite Hnodes, map_map in Hin.
  apply in_map_iff in Hin as (item & <- & _).
  rewrite update_node_orphan.
  rewrite andb_true_iff, negb_true_iff, Nat.eqb_eq, mem_entry_test.
  reflexivity.
Qed.

(** The graph built for [src/App.tsx], [src/Foo.tsx] and
    [src/utils/helpers.ts], at the node of the unused helper. *)
Lemma orphan_flag_iff_witness :
  build_dependency_graph Scenario.the_analyzer Scenario.fs_app_foo
  = Ok Scenario.graph_app_foo
  /\ In Scenario.helpers_node (dict_values (nodes Scenario.graph_app_foo))
  /\ (is_orphaned Scenario.helpers_node = true
      <-> imported_by Scenario.helpers_node = 0
          /\ type Scenario.helpers_node <> "entry"
          /\ type Scenario.helpers_node <> "test").
Proof.
  assert (Hbuild : build_dependency_graph Scenario.the_analyzer
                     Scenario.fs_app_foo = Ok Scenario.graph_app_foo)
    by (vm_compute; reflexivity).
  assert (Hin : In Scenario.helpers_node
                   (dict_values (nodes Scenario.graph_app_foo)))
    by (vm_compute; tauto).
  split; [exact Hbuild|]. split; [exact Hin|].
  exact (orphan_flag_iff _ _ _ _ Hbuild Hin).
Defined.

(** *** The test coverage ratio *)

Import Report.

(** C10. The test coverage ratio never fails: it is a number for every graph
    document, and it is 0 when the graph has no node of role component,
    service, utility or hook. *)
Theorem test_ratio_total (nodes : dict FileNode) :
  (exists ratio, test_ratio nodes = Ok ratio)
  /\ (source_files nodes = [] -> test_ratio nodes = Ok 0%Q).
Proof.
  unfold test_ratio. split.
  - destruct (source_files nodes) as [|n l]; simpl; eauto.
  - intros ->. reflexivity.
Qed.

Lemma test_ratio_total_witness :
  source_files (load_nodes (generate_json_output Scenario.graph_scripts)) = []
  /\ test_ratio (load_nodes (generate_json_output Scenario.graph_scripts))
     = Ok 0%Q.
Proof.
  assert (Hsrc : source_files
                   (load_nodes (generate_json_output Scenario.graph_scripts))
                 = []) by (vm_compute; reflexivity).
  split; [exact Hsrc|].
  exact (proj2 (test_ratio_total _) Hsrc).
Defined.

(** *** Classification *)

Lemma classify_by_directory_role (parts : list string) :
  In (classify_by_directory parts) roles.
Proof.
  unfold classify_by_directory, roles.
  repeat match goal with
         | |- context [if ?b then _ else _] => destruct b
         end; simpl; tauto.
Qed.

Lemma match_file_type_pattern_cases (relative_path : string) :
  match_file_type_pattern relative_path
  = if occurs_any ["main.tsx"; "main.ts"; "index.html"] relative_path
    then Some "entry"
    else if occurs_any [".test."; ".spec."; "__tests__"] relative_path
    then Some "test"
    else if occurs_any ["config."; "setup."; ".config."] relative_path
    then Some "config"
    else if occurs_any [".d.ts"; "types.ts"] relative_path
    then Some "type"
    else None.
Proof.
  unfold match_file_type_pattern, file_type_patterns, occurs_any, find, snd.
  repeat match goal with
         | |- context [if ?b then _ else _] => destruct b; try reflexivity
         end.
Qed.

(** C3, the claim as stated fails: a file under a components directory whose
    name ends in [.test.tsx] is classified as entry when its relative path
    also contains an entry-point pattern. *)
Lemma classify_test_under_components_counterexample :
  In "components" (parts Scenario.main_test)
  /\ PyStr.endswith (name Scenario.main_test) ".test.tsx" = true
  /\ classify_file_type Scenario.the_analyzer Scenario.main_test = Ok "entry"
  /\ classify_file_type Scenario.the_analyzer Scenario.main_test <> Ok "test".
Proof.
  split; [simpl; tauto|]. split; [reflexivity|].
  split; [reflexivity | discriminate].
Qed.

(** C3, amended. Every file path below the project root gets exactly one
    role.  The pattern rules are tried in the order entry, test, config,
    type, and only when none of them matches does the directory decide; so a
    file whose relative path contains a test marker is classified as test
    unless the path also contains an entry-point pattern (then entry), and
    never as component. *)
Theorem classify_pattern_rules_first (self : analyzer) (file_path : path)
  (rel : list string) :
  relative_to file_path (project_root self) = Ok rel ->
  let relative_path := str_rel rel in
  let entry_rule := occurs_any ["main.tsx"; "main.ts"; "index.html"] in
  let test_rule := occurs_any [".test."; ".spec."; "__tests__"] in
  let config_rule := occurs_any ["config."; "setup."; ".config."] in
  let type_rule := occurs_any [".d.ts"; "types.ts"] in
  (exists role, classify_file_type self file_path = Ok role /\ In role roles)
  /\ classify_file_type self file_path
     = Ok (if entry_rule relative_path then "entry"
           else if test_rule relative_path then "test"
           else if config_rule relative_path then "config"
           else if type_rule relative_path then "type"
           else classify_by_directory (parts file_path))
  /\ (test_rule relative_path = true ->
      entry_rule relative_path = false ->
      classify_file_type self file_path = Ok "test")
  /\ (test_rule relative_path = true ->
      classify_file_type self file_path <> Ok "component").
Proof.
  intros Hrel relative_path entry_rule test_rule config_rule type_rule.
  assert (Hcases :
    classify_file_type self file_path
    = Ok (if entry_rule relative_path then "entry"
          else if test_rule relative_path then "test"
          else if config_rule relative_path then "config"
          else if type_rule relative_path then "type"
          else classify_by_directory (parts file_path))).
  { unfold classify_file_type. rewrite Hrel. simpl.
    rewrite match_file_type_pattern_cases.
    fold relative_path. fold (entry_rule relative_path).
    fold (test_rule relative_path). fold (config_rule relative_path).
    fold (type_rule relative_path).
    destruct (entry_rule relative_path), (test_rule relative_path),
      (config_rule relative_path), (type_rule relative_path); reflexivity. }
  repeat split.
  - rewrite Hcases. eexists. split; [reflexivity|].
    destruct (entry_rule relative_path), (test_rule relative_path),
      (config_rule relative_path), (type_rule relative_path);
      try (unfold roles; simpl; tauto); apply classify_by_directory_role.
  - exact Hcases.
  - intros Htest Hentry. rewrite Hcases, Hentry, Htest. reflexivity.
  - intros Htest. rewrite Hcases, Htest.
    destruct (entry_rule relative_path); discriminate.
Qed.

Lemma classify_pattern_rules_first_witness :
  relative_to Scenario.button_test (project_root Scenario.the_analyzer)
  = Ok ["src"; "components"; "Button.test.tsx"]
  /\ In "components" (parts Scenario.button_test)
  /\ classify_file_type Scenario.the_analyzer Scenario.button_test = Ok "test".
Proof.
  assert (Hrel : relative_to Scenario.button_test
                   (project_root Scenario.the_analyzer)
                 = Ok ["src"; "components"; "Button.test.tsx"])
    by reflexivity.
  split; [exact Hrel|]. split; [simpl; tauto|].
  destruct (classify_pattern_rules_first _ _ _ Hrel) as (_ & _ & Htest & _).
  apply Htest; reflexivity.
Defined.

(** *** Extension probing *)

Lemma with_suffix_Ok (p : path) (ext : string) (c : path) :
  with_suffix p ext = Ok c <->
  name p <> EmptyString /\ c = direct_candidate p ext.
Proof.
  unfold with_suffix, direct_candidate, stem_of.
  destruct (String.eqb_spec (name p) EmptyString) as [Hnm|Hnm].
  - split; [discriminate | intros [? _]; contradiction].
  - destruct (String.eqb (suffix_of (name p)) EmptyString);
      (split; [intros H; inversion H; auto | intros [_ ->]; reflexivity]).
Qed.

Lemma with_suffix_Raise (p : path) (ext : string) :
  name p = EmptyString -> exists e, with_suffix p ext = Raise e.
Proof.
  unfold with_suffix. intros ->. simpl. eauto.
Qed.

Lemma direct_matches_Ok (fs : entry) (p : path) (exts : list string) :
  name p <> EmptyString ->
  direct_matches fs p exts
  = Ok (List.filter (exists_ fs) (map (direct_candidate p) exts)).
Proof.
  intros Hnm. induction exts as [|ext exts IH]; simpl; [reflexivity|].
  assert (Hc : with_suffix p ext = Ok (direct_candidate p ext))
    by (apply with_suffix_Ok; auto).
  rewrite Hc. simpl. rewrite IH. simpl.
  destruct (exists_ fs (direct_candidate p ext)); reflexivity.
Qed.

Lemma index_matches_filter (fs : entry) (p : path) (exts : list string) :
  index_matches fs p exts
  = if is_dir fs p
    then List.filter (exists_ fs) (map (index_candidate p) exts) else [].
Proof. reflexivity. Qed.

Lemma first_match_Ok (fs : entry) (p : path) :
  name p <> EmptyString ->
  first_match fs p
  = Ok (find (exists_ fs)
          (List.filter (exists_ fs) (map (direct_candidate p) extensions)
           ++ index_matches fs p extensions)).
Proof.
  intros Hnm. unfold first_match. rewrite direct_matches_Ok by exact Hnm.
  reflexivity.
Qed.


Lemma append_inv_head (s a b : string) : s +:+ a = s +:+ b -> a = b.
Proof.
  induction s as [|c s IH]; simpl; intros H; [exact H|].
  inversion H. auto.
Qed.






(** *** Suffix replacement *)



Lemma resolve_aux_plain (stack segs : list string) :
  Forall (fun seg => seg <> "..") segs ->
  resolve_aux stack segs = rev stack ++ segs.
Proof.
  revert stack. induction segs as [|seg segs IH]; intros stack Hplain; simpl.
  - by rewrite app_nil_r.
  - apply Forall_cons in Hplain as [Hseg Hplain].
    destruct (String.eqb_spec seg "..") as [->|_]; [contradiction|].
    rewrite IH by exact Hplain. simpl. by rewrite <- app_assoc.
Qed.

Lemma resolve_plain (segs : list string) :
  Forall (fun seg => seg <> "..") segs -> resolve segs = segs.
Proof. intros H. unfold resolve. by rewrite resolve_aux_plain. Qed.




(** *** Import extraction *)

Lemma import_record_shape (self : analyzer) (fs : entry) (file_path : path)
  (relative_from import_type import_path : string) (info : ImportInfo) :
  import_record self fs file_path relative_from import_type import_path
  = Ok info ->
  from_file info = relative_from
  /\ import_name info = Some import_path
  /\ ((is_external info = true
       /\ resolve_import_path self fs import_path file_path = Ok None
       /\ to_file info = import_path
       /\ Analyzer.import_type info = "static")
      \/ (is_external info = false
          /\ Analyzer.import_type info = imp_type_of import_type
          /\ exists resolved_path rel,
              resolve_import_path self fs import_path file_path
              = Ok (Some resolved_path)
              /\ relative_to resolved_path (project_root self) = Ok rel
              /\ to_file info = str_rel rel)).
Proof.
  unfold import_record. intros H. bind_inv H.
  destruct a as [resolved_path|].
  - bind_inv H. inversion H; subst; clear H. simpl.
    split; [reflexivity|]. split; [reflexivity|]. right.
    split; [reflexivity|]. split; [reflexivity|]. eauto.
  - inversion H; subst; clear H. simpl. tauto.
Qed.

Lemma import_records_Forall2 (self : analyzer) (fs : entry) (file_path : path)
  (relative_from : string) (matches : list (string * string))
  (imports : list ImportInfo) :
  import_records self fs file_path relative_from matches = Ok imports ->
  Forall2 (fun m info =>
             import_record self fs file_path relative_from (fst m) (snd m)
             = Ok info)
          matches imports.
Proof.
  revert imports. induction matches as [|[import_type import_path] ms IH];
    intros imports H; simpl in H.
  - inversion H. constructor.
  - bind_inv H. bind_inv H. inversion H; subst; clear H.
    constructor; [exact Ha | apply IH; exact Ha0].
Qed.

Lemma extract_imports_from_file_records (self : analyzer) (fs : entry)
  (file_path : path) (content : string) (imports : list ImportInfo)
  (self' : analyzer) :
  read_text fs file_path = Some content ->
  extract_imports_from_file self fs file_path = Ok (imports, self') ->
  project_root self' = project_root self
  /\ nodes self' = nodes self /\ edges self' = edges self
  /\ exists relative_from,
      Forall2 (fun m info =>
                 import_record self' fs file_path relative_from (fst m) (snd m)
                 = Ok info)
              (raw_matches content) imports.
Proof.
  unfold extract_imports_from_file. intros -> H.
  bind_inv H. bind_inv H. inversion H; subst; clear H.
  repeat split. eexists. apply import_records_Forall2. exact Ha0.
Qed.

(** C4, the claim as stated fails: an import matched by the dynamic-import
    pattern that is classified external is recorded with kind static. *)
Lemma external_kind_counterexample :
  read_text Scenario.fs_dynamic_package Scenario.app_tsx
  = Some "const m = import('lodash');"
  /\ raw_matches "const m = import('lodash');" = [("dynamic_import", "lodash")]
  /\ fst <$> extract_imports_from_file Scenario.the_analyzer
               Scenario.fs_dynamic_package Scenario.app_tsx
     = Ok [Scenario.lodash_record]
  /\ import_type Scenario.lodash_record <> "dynamic".
Proof.
  split; [reflexivity|]. split; [vm_compute; reflexivity|].
  split; [vm_compute; reflexivity | discriminate].
Qed.

(** C4, amended. For every raw import record that resolved to a file, the
    kind is dynamic if the record was matched by the dynamic-import or the
    lazy-wrapper pattern, re-export if matched by the re-export-from pattern,
    and static otherwise; every record classified external has kind static,
    whichever pattern matched it. *)
Theorem import_kind_mapping (self : analyzer) (fs : entry) (file_path : path)
  (content : string) (imports : list ImportInfo) (self' : analyzer) :
  read_text fs file_path = Some content ->
  extract_imports_from_file self fs file_path = Ok (imports, self') ->
  Forall2
    (fun m info =>
       let pattern := fst m in
       import_name info = Some (snd m)
       /\ if is_external info then import_type info = "static"
          else (pattern = "dynamic_import" \/ pattern = "lazy_import" ->
                import_type info = "dynamic")
               /\ (pattern = "export_from" -> import_type info = "re-export")
               /\ (pattern <> "dynamic_import" -> pattern <> "lazy_import" ->
                   pattern <> "export_from" -> import_type info = "static"))
    (raw_matches content) imports.
Proof.
  intros Hread Hextract.
  destruct (extract_imports_from_file_records _ _ _ _ _ _ Hread Hextract)
    as (_ & _ & _ & relative_from & Hall).
  eapply Forall2_impl; [exact Hall|].
  intros [pattern import_path] info Hrec. simpl in *.
  apply import_record_shape in Hrec
    as (_ & Hname & [(-> & _ & _ & Hkind) | (-> & Hkind & _)]).
  - split; assumption.
  - split; [assumption|]. rewrite Hkind. unfold imp_type_of.
    split; [|split].
    + intros [-> | ->]; reflexivity.
    + intros ->. reflexivity.
    + intros Hd Hl He.
      apply String.eqb_neq in Hd, Hl, He. rewrite Hd, Hl, He. reflexivity.
Qed.

Lemma import_kind_mapping_witness :
  read_text Scenario.fs_lazy Scenario.app_tsx = Some Scenario.lazy_statement
  /\ extract_imports_from_file Scenario.the_analyzer Scenario.fs_lazy
       Scenario.app_tsx = Ok Scenario.extracted_lazy
  /\ raw_matches Scenario.lazy_statement
     = [("dynamic_import", "./Lazy"); ("lazy_import", "./Lazy")]
  /\ Forall (fun info => import_type info = "dynamic")
            (fst Scenario.extracted_lazy).
Proof.
  assert (Hread : read_text Scenario.fs_lazy Scenario.app_tsx
                  = Some Scenario.lazy_statement) by reflexivity.
  assert (Hextract : extract_imports_from_file Scenario.the_analyzer
                       Scenario.fs_lazy Scenario.app_tsx
                     = Ok (fst Scenario.extracted_lazy,
                           snd Scenario.extracted_lazy))
    by (vm_compute; reflexivity).
  assert (Hraw : raw_matches Scenario.lazy_statement
                 = [("dynamic_import", "./Lazy"); ("lazy_import", "./Lazy")])
    by (vm_compute; reflexivity).
  split; [exact Hread|]. split; [exact Hextract|]. split; [exact Hraw|].
  pose proof (import_kind_mapping _ _ _ _ _ _ Hread Hextract) as Hall.
  rewrite Hraw in Hall.
  change (fst Scenario.extracted_lazy)
    with [Scenario.lazy_record; Scenario.lazy_record] in *.
  apply Forall2_cons_1 in Hall as [(_ & Hdyn & _) Hall].
  apply Forall2_cons_1 in Hall as [(_ & Hlazy & _) _].
  constructor; [apply Hdyn; simpl; tauto|].
  constructor; [apply Hlazy; simpl; tauto|]. constructor.
Defined.

(** C5, the claim as stated fails: the single statement
    [const Lazy = React.lazy(() => import('./Lazy'));] yields two records,
    one for each pattern that matches it. *)
Lemma lazy_wrapper_counterexample :
  read_text Scenario.fs_lazy Scenario.app_tsx = Some Scenario.lazy_statement
  /\ fst <$> extract_imports_from_file Scenario.the_analyzer Scenario.fs_lazy
               Scenario.app_tsx
     = Ok [Scenario.lazy_record; Scenario.lazy_record]
  /\ length [Scenario.lazy_record; Scenario.lazy_record] <> 1.
Proof.
  split; [reflexivity|]. split; [vm_compute; reflexivity | discriminate].
Qed.

Lemma raw_matches_paths (content : string) :
  map snd (raw_matches content)
  = findall static_import_re content ++ findall dynamic_import_re content
    ++ findall lazy_import_re content ++ findall require_re content
    ++ findall export_from_re content.
Proof.
  unfold raw_matches, import_patterns. simpl.
  rewrite !map_app, !map_map. simpl. rewrite !map_id, app_nil_r.
  reflexivity.
Qed.

(** C5, amended. The five patterns are matched independently over the whole
    text and every match of every pattern yields its own record, so the
    records of a file are the matches of the static-import, dynamic-import,
    lazy-wrapper, require and re-export-from patterns in that order; one
    lazy-loading wrapper statement is matched by the dynamic-import pattern
    and by the lazy-wrapper pattern and yields two records. *)
Theorem one_record_per_pattern_match :
  (forall (self : analyzer) (fs : entry) (file_path : path)
          (content : string) (imports : list ImportInfo) (self' : analyzer),
      read_text fs file_path = Some content ->
      extract_imports_from_file self fs file_path = Ok (imports, self') ->
      let matches :=
        findall static_import_re content ++ findall dynamic_import_re content
        ++ findall lazy_import_re content ++ findall require_re content
        ++ findall export_from_re content in
      map import_name imports = map Some matches
      /\ length imports = length matches)
  /\ findall static_import_re Scenario.lazy_statement = []
  /\ findall dynamic_import_re Scenario.lazy_statement = ["./Lazy"]
  /\ findall lazy_import_re Scenario.lazy_statement = ["./Lazy"]
  /\ findall require_re Scenario.lazy_statement = []
  /\ findall export_from_re Scenario.lazy_statement = [].
Proof.
  split; [|repeat split; vm_compute; reflexivity].
  intros self fs file_path content imports self' Hread Hextract matches.
  destruct (extract_imports_from_file_records _ _ _ _ _ _ Hread Hextract)
    as (_ & _ & _ & relative_from & Hall).
  assert (Hnames : map import_name imports
                   = map Some (map snd (raw_matches content))).
  { clear Hextract. induction Hall as [|m info ms infos Hrec _ IH]; simpl;
      [reflexivity|].
    apply import_record_shape in Hrec as (_ & -> & _). by rewrite IH. }
  rewrite raw_matches_paths in Hnames. fold matches in Hnames.
  split; [exact Hnames|].
  apply (f_equal (@length (option string))) in Hnames.
  by rewrite !length_map in Hnames.
Qed.

Lemma one_record_per_pattern_match_witness :
  read_text Scenario.fs_lazy Scenario.app_tsx = Some Scenario.lazy_statement
  /\ extract_imports_from_file Scenario.the_analyzer Scenario.fs_lazy
       Scenario.app_tsx = Ok Scenario.extracted_lazy
  /\ length (fst Scenario.extracted_lazy) = 2.
Proof.
  assert (Hread : read_text Scenario.fs_lazy Scenario.app_tsx
                  = Some Scenario.lazy_statement) by reflexivity.
  assert (Hextract : extract_imports_from_file Scenario.the_analyzer
                       Scenario.fs_lazy Scenario.app_tsx
                     = Ok (fst Scenario.extracted_lazy,
                           snd Scenario.extracted_lazy))
    by (vm_compute; reflexivity).
  split; [exact Hread|]. split; [exact Hextract|].
  destruct one_record_per_pattern_match
    as (Hgeneral & Hstatic & Hdynamic & Hlazy & Hrequire & Hexport).
  destruct (Hgeneral _ _ _ _ _ _ Hread Hextract) as [_ Hlen].
  rewrite Hlen, Hstatic, Hdynamic, Hlazy, Hrequire, Hexport. reflexivity.
Defined.

(** *** File discovery *)





Lemma name_app (p q : path) : q <> [] -> name (p ++ q) = name q.
Proof.
  intros Hq. unfold name.
  rewrite (app_removelast_last EmptyString Hq), app_assoc, !last_last.
  reflexivity.
Qed.






(** *** What a resolved import points at *)

Lemma length_append (a b : string) :
  String.length (a +:+ b) = String.length a + String.length b.
Proof. induction a as [|c a IH]; simpl; auto. Qed.

Lemma drop_append (a b : string) : PyStr.drop (String.length a) (a +:+ b) = b.
Proof. induction a as [|c a IH]; simpl; [by destruct b | exact IH]. Qed.

Lemma endswith_append (a b : string) : PyStr.endswith (a +:+ b) b = true.
Proof.
  unfold PyStr.endswith. rewrite length_append.
  replace (String.length a + String.length b - String.length b)
    with (String.length a) by lia.
  rewrite drop_append, String.eqb_refl, andb_true_r.
  apply Nat.leb_le. lia.
Qed.

Lemma find_filter_app_In {A} (P : A -> bool) (l rest : list A) (c : A) :
  find P (List.filter P l ++ rest) = Some c ->
  P c = true /\ (In c l \/ In c rest).
Proof.
  intros H. apply find_some in H as [Hin Hc]. split; [exact Hc|].
  apply in_app_or in Hin as [Hin|Hin]; [left | by right].
  by apply filter_In in Hin as [Hin _].
Qed.

Lemma first_match_Some (fs : entry) (p c : path) :
  first_match fs p = Ok (Some c) ->
  exists_ fs c = true /\ has_source_extension (name c) = true.
Proof.
  intros H.
  destruct (String.eqb_spec (name p) EmptyString) as [Hnm|Hnm].
  { unfold first_match, extensions in H. simpl in H.
    destruct (with_suffix_Raise p ".ts" Hnm) as [e He].
    rewrite He in H. discriminate. }
  rewrite first_match_Ok in H by exact Hnm.
  assert (H' : find (exists_ fs)
                 (List.filter (exists_ fs)
                    (map (direct_candidate p) extensions)
                  ++ index_matches fs p extensions) = Some c)
    by congruence.
  apply find_filter_app_In in H' as [Hex Hin].
  split; [exact Hex|].
  unfold has_source_extension. apply existsb_exists.
  destruct Hin as [Hin|Hin].
  - apply in_map_iff in Hin as (ext & <- & Hext).
    exists ext. split; [exact Hext|].
    unfold direct_candidate. rewrite name_app by discriminate.
    apply endswith_append.
  - rewrite index_matches_filter in Hin.
    destruct (is_dir fs p); [|contradiction].
    apply filter_In in Hin as [Hin _].
    apply in_map_iff in Hin as (ext & <- & Hext).
    exists ext. split; [exact Hext|].
    unfold index_candidate. rewrite name_app by discriminate.
    apply endswith_append.
Qed.

Lemma resolve_import_path_Some (self : analyzer) (fs : entry)
  (import_path : string) (from_file c : path) :
  resolve_import_path self fs import_path from_file = Ok (Some c) ->
  exists_ fs c = true /\ has_source_extension (name c) = true.
Proof.
  destruct (is_local import_path) eqn:Hloc.
  - rewrite resolve_import_path_local by exact Hloc. apply first_match_Some.
  - rewrite resolve_import_path_external by exact Hloc. discriminate.
Qed.

(** *** The graph builder *)

Lemma dict_set_keys {V} (d : dict V) (k : string) (v : V) (k' : string) :
  In k' (dict_keys (dict_set d k v)) <-> k' = k \/ In k' (dict_keys d).
Proof.
  unfold dict_keys. induction d as [|[k0 v0] d IH]; simpl.
  - intuition.
  - destruct (String.eqb_spec k0 k) as [->|Hne]; simpl; [intuition|].
    rewrite IH. intuition.
Qed.

Lemma dict_set_In {V} (d : dict V) (k : string) (v : V) (item : string * V) :
  In item (dict_set d k v) -> item = (k, v) \/ In item d.
Proof.
  induction d as [|[k0 v0] d IH]; simpl.
  - intuition.
  - destruct (String.eqb k0 k); simpl; intuition.
Qed.

Lemma create_node_Ok (self : analyzer) (file_path : path) (self' : analyzer) :
  create_node self file_path = Ok self' ->
  exists rel file_type,
    relative_to file_path (project_root self) = Ok rel
    /\ self' = set_nodes self
                (dict_set (nodes self) (str_rel rel)
                          (new_FileNode (str_rel rel) file_type)).
Proof.
  unfold create_node. intros H. bind_inv H. bind_inv H.
  inversion H; subst; clear H. eauto.
Qed.

(** The first loop of [build_dependency_graph]: one node per source file,
    filed under the identity it carries. *)
Lemma create_nodes_spec (files : list path) (self self' : analyzer) :
  for_each create_node files self = Ok self' ->
  project_root self' = project_root self
  /\ edges self' = edges self
  /\ (forall k, In k (dict_keys (nodes self)) -> In k (dict_keys (nodes self')))
  /\ (forall f, In f files ->
      exists rel, relative_to f (project_root self) = Ok rel
                  /\ In (str_rel rel) (dict_keys (nodes self')))
  /\ (Forall (fun item => id (snd item) = fst item) (nodes self) ->
      Forall (fun item => id (snd item) = fst item) (nodes self')).
Proof.
  revert self. induction files as [|f files IH]; intros self H; simpl in H.
  - inversion H; subst. repeat split; auto. intros f [].
  - bind_inv H.
    apply create_node_Ok in Ha as (rel & file_type & Hrel & ->).
    destruct (IH _ H) as (Hroot & Hedges & Hmono & Hfiles & Hids).
    simpl in *. split; [exact Hroot|]. split; [exact Hedges|].
    split; [|split].
    + intros k Hk. apply Hmono, dict_set_keys. by right.
    + intros f' [<-|Hf']; [|by apply Hfiles].
      exists rel. split; [exact Hrel|]. apply Hmono, dict_set_keys. by left.
    + intros Hall. apply Hids. apply List.Forall_forall.
      intros item Hitem. apply dict_set_In in Hitem as [->|Hitem];
        [reflexivity|].
      rewrite List.Forall_forall in Hall. by apply Hall.
Qed.

Lemma import_record_resolved (self : analyzer) (fs : entry) (file_path : path)
  (relative_from import_type import_path : string) (info : ImportInfo) :
  import_record self fs file_path relative_from import_type import_path
  = Ok info ->
  edge_resolved (project_root self) fs info.
Proof.
  intros H. unfold edge_resolved.
  apply import_record_shape in H
    as (_ & Hname & [(-> & _ & -> & _) | (-> & _ & c & rel & Hres & Hrel & Hto)]).
  - exact Hname.
  - apply resolve_import_path_Some in Hres as [Hex Hext].
    exists c, rel. auto.
Qed.

Lemma collect_imports_spec (fs : entry) (self : analyzer) (file_path : path)
  (self' : analyzer) :
  collect_imports fs self file_path = Ok self' ->
  project_root self' = project_root self
  /\ nodes self' = nodes self
  /\ exists imports,
      edges self' = edges self ++ imports
      /\ Forall (edge_resolved (project_root self) fs) imports.
Proof.
  unfold collect_imports. intros H. bind_inv H. destruct a as [imports s].
  inversion H; subst; clear H. simpl.
  destruct (read_text fs file_path) as [content|] eqn:Hread.
  - destruct (extract_imports_from_file_records _ _ _ _ _ _ Hread Ha)
      as (Hroot & Hnodes & Hedges & relative_from & Hall).
    split; [exact Hroot|]. split; [exact Hnodes|].
    exists imports. rewrite Hedges. split; [reflexivity|].
    rewrite <- Hroot. clear Ha.
    induction Hall as [|m info ms infos Hrec _ IH]; constructor; auto.
    exact (import_record_resolved _ _ _ _ _ _ _ Hrec).
  - unfold extract_imports_from_file in Ha. rewrite Hread in Ha.
    inversion Ha; subst. repeat split. exists []. rewrite app_nil_r. auto.
Qed.

(** The second loop: the node set is untouched and every edge added is a
    record of the resolver. *)
Lemma collect_all_imports_spec (fs : entry) (files : list path)
  (self self' : analyzer) :
  for_each (collect_imports fs) files self = Ok self' ->
  Forall (edge_resolved (project_root self) fs) (edges self) ->
  project_root self' = project_root self
  /\ nodes self' = nodes self
  /\ Forall (edge_resolved (project_root self) fs) (edges self').
Proof.
  intros Hrun Hinit.
  refine (for_each_Ok_preserves
            (fun s => project_root s = project_root self
                      /\ nodes s = nodes self
                      /\ Forall (edge_resolved (project_root self) fs) (edges s))
            (collect_imports fs) files _ self self' _ Hrun); [|auto].
  intros s f s' _ (Hroot & Hnodes & Hedges) Hstep.
  apply collect_imports_spec in Hstep
    as (Hroot' & Hnodes' & imports & Hedges' & Hall).
  rewrite Hroot', Hnodes', Hedges', <- Hroot.
  repeat split; auto. apply Forall_app. split; [|exact Hall].
  by rewrite Hroot.
Qed.

Lemma update_node_keys (counts : gmap string nat * gmap string nat)
  (d : dict FileNode) :
  dict_keys (map (update_node counts) d) = dict_keys d.
Proof.
  unfold dict_keys. rewrite map_map. apply map_ext. by intros [k n].
Qed.

Lemma update_node_ids (counts : gmap string nat * gmap string nat)
  (d : dict FileNode) :
  Forall (fun item => id (snd item) = fst item) d ->
  map id (dict_values (map (update_node counts) d)) = dict_keys d.
Proof.
  unfold dict_values, dict_keys. rewrite !map_map.
  induction 1 as [|[k n] d Hid _ IH]; simpl; [reflexivity|].
  simpl in Hid. by rewrite Hid, IH.
Qed.

(** The graph that [build_dependency_graph] returns for a fresh analyzer. *)
Lemma build_dependency_graph_spec (root : path) (fs : entry) (a : analyzer) :
  build_dependency_graph (init root) fs = Ok a ->
  project_root a = root
  /\ Forall (edge_resolved root fs) (edges a)
  /\ (forall f, In f (get_all_source_files (init root) fs) ->
      exists rel, relative_to f root = Ok rel /\ In (str_rel rel) (node_ids a))
  /\ map id (dict_values (nodes a)) = node_ids a.
Proof.
  unfold build_dependency_graph. intros H. bind_inv H. bind_inv H.
  inversion H; subst; clear H.
  apply create_nodes_spec in Ha as (Hroot & Hedges & _ & Hfiles & Hids).
  simpl in Hroot, Hedges, Hfiles, Hids.
  apply collect_all_imports_spec in Ha0 as (Hroot' & Hnodes' & Hall);
    [|rewrite Hedges; constructor].
  rewrite Hroot in Hroot', Hall.
  assert (Hkeys : node_ids
                    (set_nodes a1
                       (map (update_node (import_statistics (edges a1)))
                            (nodes a1)))
                  = dict_keys (nodes a0)).
  { unfold node_ids. simpl. by rewrite update_node_keys, Hnodes'. }
  rewrite Hkeys. simpl.
  split; [exact Hroot'|]. split; [exact Hall|]. split; [exact Hfiles|].
  rewrite Hnodes'. apply update_node_ids, Hids. constructor.
Qed.

(** *** Internal edges and the node set *)


(** *** Nested filters *)


(** ** Further properties of the graph builder *)

(** *** The node set *)

Lemma dict_set_keys_NoDup {V} (d : dict V) (k : string) (v : V) :
  List.NoDup (dict_keys d) -> List.NoDup (dict_keys (dict_set d k v)).
Proof.
  unfold dict_keys. induction d as [|[k0 v0] d IH]; simpl; intros Hnd.
  - constructor; [intros [] | constructor].
  - inversion Hnd as [|? ? Hnotin Hnd']; subst.
    destruct (String.eqb_spec k0 k) as [->|Hne]; simpl.
    + constructor; assumption.
    + constructor; [|by apply IH].
      intros Hin. apply Hnotin.
      apply (dict_set_keys d k v k0) in Hin as [Heq|Hin]; [congruence|].
      exact Hin.
Qed.

(** The first loop adds nothing but the identities of the files it is given
    and never files two nodes under one identity. *)
Lemma create_nodes_keys_sound (files : list path) (self self' : analyzer) :
  for_each create_node files self = Ok self' ->
  (forall k, In k (dict_keys (nodes self')) ->
             In k (dict_keys (nodes self))
             \/ exists f rel, In f files
                              /\ relative_to f (project_root self) = Ok rel
                              /\ k = str_rel rel)
  /\ (List.NoDup (dict_keys (nodes self)) ->
      List.NoDup (dict_keys (nodes self'))).
Proof.
  revert self. induction files as [|f files IH]; intros self H; simpl in H.
  - inversion H; subst. split; auto.
  - bind_inv H.
    apply create_node_Ok in Ha as (rel & file_type & Hrel & ->).
    destruct (IH _ H) as [Hsound Hnd]. simpl in Hsound, Hnd. split.
    + intros k Hk. destruct (Hsound k Hk) as [Hold|(f' & rel' & Hf' & Hrel' & ->)].
      * apply dict_set_keys in Hold as [->|Hold]; [|by left].
        right. exists f, rel. split; [by left|]. auto.
      * right. exists f', rel'. split; [by right|]. auto.
    + intros Hnd0. apply Hnd. by apply dict_set_keys_NoDup.
Qed.

(** The intermediate states of [build_dependency_graph]: after the first
    loop and after the second. *)
Lemma build_dependency_graph_stages (root : path) (fs : entry) (a : analyzer) :
  build_dependency_graph (init root) fs = Ok a ->
  exists a1 a2,
    for_each create_node (get_all_source_files (init root) fs) (init root)
    = Ok a1
    /\ for_each (collect_imports fs) (get_all_source_files (init root) fs) a1
       = Ok a2
    /\ a = set_nodes a2
             (map (update_node (import_statistics (edges a2))) (nodes a2)).
Proof.
  unfold build_dependency_graph. intros H. bind_inv H. bind_inv H.
  inversion H; subst; clear H. eauto.
Qed.

(** X1. The nodes of the built graph are the discovered files, each under its
    project-relative identity, and no identity occurs twice. *)
Theorem node_ids_are_discovered_files (root : path) (fs : entry)
  (a : analyzer) :
  build_dependency_graph (init root) fs = Ok a ->
  List.NoDup (node_ids a)
  /\ forall k,
      In k (node_ids a)
      <-> exists f rel,
          In f (get_all_source_files (init root) fs)
          /\ relative_to f root = Ok rel /\ k = str_rel rel.
Proof.
  intros Hbuild.
  destruct (build_dependency_graph_spec _ _ _ Hbuild) as (_ & _ & Hfiles & _).
  destruct (build_dependency_graph_stages _ _ _ Hbuild)
    as (a1 & a2 & H1 & H2 & ->).
  destruct (create_nodes_keys_sound _ _ _ H1) as [Hsound Hnd].
  apply collect_all_imports_spec in H2 as (_ & Hnodes & _);
    [|apply create_nodes_spec in H1 as (_ & -> & _); constructor].
  assert (Hkeys : node_ids
                    (set_nodes a2
                       (map (update_node (import_statistics (edges a2)))
                            (nodes a2)))
                  = dict_keys (nodes a1)).
  { unfold node_ids. simpl. by rewrite update_node_keys, Hnodes. }
  rewrite Hkeys in *. split.
  - apply Hnd. constructor.
  - intros k. split.
    + intros Hk. destruct (Hsound k Hk) as [[]|Hk']. exact Hk'.
    + intros (f & rel & Hf & Hrel & ->).
      destruct (Hfiles f Hf) as (rel' & Hrel' & Hin). congruence.
Qed.

Lemma node_ids_are_discovered_files_witness :
  build_dependency_graph (init ["p"]) Scenario.fs_app_foo
  = Ok Scenario.graph_app_foo
  /\ node_ids Scenario.graph_app_foo
     = ["src/App.tsx"; "src/Foo.tsx"; "src/utils/helpers.ts"]
  /\ List.NoDup (node_ids Scenario.graph_app_foo).
Proof.
  assert (Hbuild : build_dependency_graph (init ["p"]) Scenario.fs_app_foo
                   = Ok Scenario.graph_app_foo) by (vm_compute; reflexivity).
  split; [exact Hbuild|]. split; [reflexivity|].
  exact (proj1 (node_ids_are_discovered_files _ _ _ Hbuild)).
Defined.

(** *** The sources of the edges *)

Lemma extract_imports_from_file_sources (self : analyzer) (fs : entry)
  (file_path : path) (imports : list ImportInfo) (self' : analyzer) :
  extract_imports_from_file self fs file_path = Ok (imports, self') ->
  imports = []
  \/ exists rel,
      relative_to file_path (project_root self) = Ok rel
      /\ Forall (fun info => from_file info = str_rel rel) imports.
Proof.
  unfold extract_imports_from_file.
  destruct (read_text fs file_path) as [content|]; intros H.
  - right. bind_inv H. bind_inv H. inversion H; subst; clear H.
    simpl in Ha. exists a. split; [exact Ha|].
    apply import_records_Forall2 in Ha0.
    induction Ha0 as [|m info ms infos Hrec _ IH]; constructor; auto.
    by apply import_record_shape in Hrec as (-> & _).
  - left. by inversion H.
Qed.

Lemma collect_all_imports_sources (fs : entry) (files : list path)
  (self self' : analyzer) :
  for_each (collect_imports fs) files self = Ok self' ->
  forall edge,
    In edge (edges self') ->
    In edge (edges self)
    \/ exists f rel, In f files
                     /\ relative_to f (project_root self) = Ok rel
                     /\ from_file edge = str_rel rel.
Proof.
  intros Hrun.
  refine (proj2 (for_each_Ok_preserves
            (fun s => project_root s = project_root self
                      /\ forall edge, In edge (edges s) ->
                           In edge (edges self)
                           \/ exists f rel,
                               In f files
                               /\ relative_to f (project_root self) = Ok rel
                               /\ from_file edge = str_rel rel)
            (collect_imports fs) files _ self self' _ Hrun)); [|auto].
  intros s f s' Hf [Hroot Hedges] Hstep.
  unfold collect_imports in Hstep. bind_inv Hstep.
  destruct a as [imports s0]. inversion Hstep; subst; clear Hstep.
  pose proof Ha as Hsrc. apply extract_imports_from_file_sources in Hsrc.
  assert (Hs0 : project_root s0 = project_root s /\ edges s0 = edges s).
  { unfold extract_imports_from_file in Ha.
    destruct (read_text fs f); [|by inversion Ha].
    bind_inv Ha. bind_inv Ha. by inversion Ha. }
  destruct Hs0 as [Hroot0 Hedges0]. simpl. split; [congruence|].
  intros edge Hin. rewrite Hedges0 in Hin.
  apply in_app_or in Hin as [Hin|Hin]; [by apply Hedges|].
  destruct Hsrc as [->|(rel & Hrel & Hall)]; [destruct Hin|].
  right. exists f, rel. rewrite <- Hroot. split; [exact Hf|].
  split; [exact Hrel|].
  rewrite List.Forall_forall in Hall. by apply Hall.
Qed.

(** X2. Every edge of the built graph, internal or external, starts at a node. *)
Theorem edge_source_is_node (root : path) (fs : entry) (a : analyzer)
  (edge : ImportInfo) :
  build_dependency_graph (init root) fs = Ok a ->
  In edge (edges a) ->
  In (from_file edge) (node_ids a).
Proof.
  intros Hbuild Hin.
  destruct (build_dependency_graph_spec _ _ _ Hbuild) as (_ & _ & Hfiles & _).
  destruct (build_dependency_graph_stages _ _ _ Hbuild)
    as (a1 & a2 & H1 & H2 & Ha).
  assert (Hedges : edges a = edges a2) by (subst a; reflexivity).
  rewrite Hedges in Hin.
  apply create_nodes_spec in H1 as (Hroot1 & Hedges1 & _).
  destruct (collect_all_imports_sources _ _ _ _ H2 edge Hin)
    as [Hold|(f & rel & Hf & Hrel & Hfrom)].
  - rewrite Hedges1 in Hold. destruct Hold.
  - rewrite Hroot1 in Hrel. simpl in Hrel.
    destruct (Hfiles f Hf) as (rel' & Hrel' & Hnode).
    rewrite Hfrom. congruence.
Qed.

Lemma edge_source_is_node_witness :
  build_dependency_graph (init ["p"]) Scenario.fs_scripts
  = Ok Scenario.graph_scripts
  /\ In Scenario.seed_edge (edges Scenario.graph_scripts)
  /\ In (from_file Scenario.seed_edge) (node_ids Scenario.graph_scripts).
Proof.
  assert (Hbuild : build_dependency_graph (init ["p"]) Scenario.fs_scripts
                   = Ok Scenario.graph_scripts) by (vm_compute; reflexivity).
  assert (Hin : In Scenario.seed_edge (edges Scenario.graph_scripts))
    by (simpl; tauto).
  split; [exact Hbuild|]. split; [exact Hin|].
  exact (edge_source_is_node _ _ _ _ Hbuild Hin).
Defined.

(** *** Degrees *)

(** The degree counts of a node of the built graph at work: [src/Foo.tsx]
    is imported once and imports nothing. *)
Lemma incoming_count_spec_witness :
  build_dependency_graph Scenario.the_analyzer Scenario.fs_app_foo
  = Ok Scenario.graph_app_foo
  /\ In ("src/Foo.tsx", Scenario2.foo_node) (nodes Scenario.graph_app_foo)
  /\ imports Scenario2.foo_node = 0
  /\ imported_by Scenario2.foo_node = 1.
Proof.
  assert (Hbuild : build_dependency_graph Scenario.the_analyzer
                     Scenario.fs_app_foo = Ok Scenario.graph_app_foo)
    by (vm_compute; reflexivity).
  assert (Hin : In ("src/Foo.tsx", Scenario2.foo_node)
                   (nodes Scenario.graph_app_foo)) by (simpl; tauto).
  split; [exact Hbuild|]. split; [exact Hin|].
  destruct (incoming_count_spec _ _ _ _ _ Hbuild Hin) as [-> ->].
  split; reflexivity.
Defined.

Lemma list_sum_map_add {A} (f g : A -> nat) (l : list A) :
  list_sum (map (fun x => f x + g x) l)
  = list_sum (map f l) + list_sum (map g l).
Proof. induction l as [|x l IH]; simpl; lia. Qed.

Lemma list_sum_indicator (ks : list string) (k : string) :
  List.NoDup ks ->
  list_sum (map (fun k' => if String.eqb k k' then 1 else 0) ks)
  = if PyStr.mem k ks then 1 else 0.
Proof.
  unfold PyStr.mem. induction 1 as [|k0 ks Hnotin _ IH]; simpl; [reflexivity|].
  rewrite IH. destruct (String.eqb_spec k k0) as [->|_]; simpl; [|reflexivity].
  destruct (existsb (String.eqb k0) ks) eqn:Hex; [|reflexivity].
  exfalso. apply Hnotin. apply existsb_exists in Hex as (k' & Hin & Heq).
  apply String.eqb_eq in Heq. by subst.
Qed.

(** Summing, over a duplicate-free list of keys, the number of selected
    items filed under each key counts the selected items whose key is
    listed. *)
Lemma list_sum_counts {A} (p : A -> bool) (g : A -> string) (ks : list string)
  (l : list A) :
  List.NoDup ks ->
  list_sum (map (fun k => length (List.filter
                                   (fun x => p x && String.eqb (g x) k) l)) ks)
  = length (List.filter (fun x => p x && PyStr.mem (g x) ks) l).
Proof.
  intros Hnd. induction l as [|x l IH]; simpl.
  - clear Hnd. induction ks as [|k ks IHks]; simpl; auto.
  - rewrite <- (map_ext
        (fun k => (if p x && String.eqb (g x) k then 1 else 0)
                  + length (List.filter
                              (fun y => p y && String.eqb (g y) k) l)))
      by (intros k; destruct (p x && String.eqb (g x) k); reflexivity).
    rewrite list_sum_map_add, IH.
    destruct (p x); simpl.
    + rewrite list_sum_indicator by exact Hnd.
      destruct (PyStr.mem (g x) ks); reflexivity.
    + replace (list_sum (map (fun _ : string => 0) ks)) with 0
        by (clear; induction ks; simpl; auto).
      reflexivity.
Qed.

(** The shape of the built graph: the node dictionary before the statistics
    were filled in, with what the two loops guarantee about it. *)
Lemma built_graph_shape (root : path) (fs : entry) (a : analyzer) :
  build_dependency_graph (init root) fs = Ok a ->
  exists d : dict FileNode,
    nodes a = map (update_node (import_statistics (edges a))) d
    /\ node_ids a = dict_keys d
    /\ List.NoDup (dict_keys d)
    /\ Forall (fun item => id (snd item) = fst item) d
    /\ forall edge, In edge (edges a) -> In (from_file edge) (dict_keys d).
Proof.
  intros Hbuild.
  destruct (build_dependency_graph_spec _ _ _ Hbuild) as (_ & _ & Hfiles & _).
  destruct (build_dependency_graph_stages _ _ _ Hbuild)
    as (a1 & a2 & H1 & H2 & Ha).
  destruct (create_nodes_keys_sound _ _ _ H1) as [_ Hnd].
  pose proof (collect_all_imports_sources _ _ _ _ H2) as Hsrc.
  pose proof H1 as Hspec.
  apply create_nodes_spec in Hspec as (Hroot1 & Hedges1 & _ & _ & Hids).
  apply collect_all_imports_spec in H2 as (_ & Hnodes & _);
    [|rewrite Hedges1; constructor].
  assert (Hkeys : node_ids a = dict_keys (nodes a1)).
  { subst a. unfold node_ids. simpl. by rewrite update_node_keys, Hnodes. }
  exists (nodes a1). split; [subst a; simpl; by rewrite Hnodes|].
  split; [exact Hkeys|]. split; [apply Hnd; constructor|].
  split; [apply Hids; constructor|].
  intros edge Hin. assert (Hin2 : In edge (edges a2)) by (by subst a).
  destruct (Hsrc edge Hin2) as [Hold|(f & rel & Hf & Hrel & Hfrom)].
  - rewrite Hedges1 in Hold. destruct Hold.
  - rewrite Hroot1 in Hrel. simpl in Hrel.
    destruct (Hfiles f Hf) as (rel' & Hrel' & Hnode).
    rewrite <- Hkeys, Hfrom. congruence.
Qed.

Lemma filter_ext_in {A} (p q : A -> bool) (l : list A) :
  (forall x, In x l -> p x = q x) -> List.filter p l = List.filter q l.
Proof.
  induction l as [|x l IH]; simpl; intros H; [reflexivity|].
  rewrite (H x) by (by left). rewrite IH; [reflexivity|].
  intros y Hy. apply H. by right.
Qed.

Lemma filter_split_length {A} (p q : A -> bool) (l : list A) :
  length (List.filter (fun x => p x && q x) l)
  + length (List.filter (fun x => p x && negb (q x)) l)
  = length (List.filter p l).
Proof.
  induction l as [|x l IH]; simpl; [reflexivity|].
  destruct (p x), (q x); simpl; lia.
Qed.

(** X4. The degrees add up.  The out-degrees of the nodes sum to the number of
    internal edges, which is the [totalImports] of the document; the
    in-degrees sum to the number of internal edges whose target is a node,
    so they fall short of it by the number of dangling edges. *)
Theorem degree_sums (root : path) (fs : entry) (a : analyzer) :
  build_dependency_graph (init root) fs = Ok a ->
  let internal := List.filter (fun edge => negb (is_external edge)) (edges a) in
  list_sum (map imports (dict_values (nodes a))) = length internal
  /\ list_sum (map imported_by (dict_values (nodes a)))
     + length (dangling_edges (node_ids a) (edges a)) = length internal
  /\ totalImports (doc_stats (generate_json_output a)) = length internal.
Proof.
  intros Hbuild internal.
  destruct (built_graph_shape _ _ _ Hbuild)
    as (d & Hnodes & Hkeys & Hnd & _ & Hsrc).
  assert (Hout : map imports (dict_values (nodes a))
                 = map (fun k => length
                                   (List.filter
                                      (fun edge => negb (is_external edge)
                                         && String.eqb (from_file edge) k)
                                      (edges a))) (dict_keys d)).
  { rewrite Hnodes. unfold dict_values, dict_keys. rewrite !map_map.
    apply map_ext. intros [k n]. simpl.
    apply (proj1 (import_statistics_counts (edges a) k)). }
  assert (Hinc : map imported_by (dict_values (nodes a))
                 = map (fun k => length
                                   (List.filter
                                      (fun edge => negb (is_external edge)
                                         && String.eqb (to_file edge) k)
                                      (edges a))) (dict_keys d)).
  { rewrite Hnodes. unfold dict_values, dict_keys. rewrite !map_map.
    apply map_ext. intros [k n]. simpl.
    apply (proj2 (import_statistics_counts (edges a) k)). }
  split; [|split; [|reflexivity]].
  - rewrite Hout, (list_sum_counts _ from_file) by exact Hnd.
    unfold internal. f_equal. apply filter_ext_in. intros edge Hin.
    assert (Hmem : PyStr.mem (from_file edge) (dict_keys d) = true).
    { apply existsb_exists. exists (from_file edge).
      split; [by apply Hsrc | apply String.eqb_refl]. }
    rewrite Hmem. apply andb_true_r.
  - rewrite Hinc, (list_sum_counts _ to_file) by exact Hnd.
    unfold dangling_edges. rewrite Hkeys.
    apply (filter_split_length (fun edge => negb (is_external edge))
             (fun edge => PyStr.mem (to_file edge) (dict_keys d))).
Qed.

Lemma degree_sums_witness :
  build_dependency_graph (init ["p"]) Scenario.fs_scripts
  = Ok Scenario.graph_scripts
  /\ list_sum (map imports (dict_values (nodes Scenario.graph_scripts))) = 1
  /\ list_sum (map imported_by (dict_values (nodes Scenario.graph_scripts)))
     + length (dangling_edges (node_ids Scenario.graph_scripts)
                              (edges Scenario.graph_scripts)) = 1.
Proof.
  assert (Hbuild : build_dependency_graph (init ["p"]) Scenario.fs_scripts
                   = Ok Scenario.graph_scripts) by (vm_compute; reflexivity).
  split; [exact Hbuild|].
  destruct (degree_sums _ _ _ Hbuild) as (Hout & Hinc & _).
  split; [exact Hout | exact Hinc].
Defined.

(** *** The output document *)

Lemma filter_partition_length {A} (p : A -> bool) (l : list A) :
  length (List.filter (fun x => negb (p x)) l) + length (List.filter p l)
  = length l.
Proof. induction l as [|x l IH]; simpl; [|destruct (p x); simpl]; lia. Qed.

Lemma list_to_map_tabulate (count : string -> nat) (ts : list string)
  (t : string) :
  (list_to_map (map (fun t' => (t', count t')) ts) : gmap string nat) !! t
  = if PyStr.mem t ts then Some (count t) else None.
Proof.
  unfold PyStr.mem. induction ts as [|t0 ts IH]; simpl; [apply lookup_empty|].
  destruct (String.eqb_spec t t0) as [->|Hne]; simpl.
  - by rewrite lookup_insert_eq.
  - rewrite lookup_insert_ne by congruence. exact IH.
Qed.

Lemma mem_types_count (t : string) (values : list FileNode) :
  PyStr.mem t (map type values)
  = negb (length (List.filter (fun n => String.eqb (type n) t) values)
          =? 0)%nat.
Proof.
  unfold PyStr.mem. induction values as [|n values IH]; simpl; [reflexivity|].
  rewrite (String.eqb_sym t (type n)).
  destruct (String.eqb (type n) t); simpl; [reflexivity | exact IH].
Qed.

(** X5. The statistics of the document agree with its lists, for every state of
    the analyzer: internal and external edges partition the edge list, the
    orphan count is the length of [orphanedFiles], [fileTypes] holds exactly
    the roles that occur, each with its positive number of nodes, and
    [entryPoints] is the entry of [fileTypes] for the role entry. *)
Theorem document_stats_consistent (self : analyzer) :
  let document := generate_json_output self in
  let stats := doc_stats document in
  let count t :=
    length (List.filter (fun n => String.eqb (type n) t) (doc_nodes document))
  in
  totalImports stats + externalDependencies stats = length (edges self)
  /\ totalImports stats = length (doc_edges document)
  /\ totalFiles stats = length (doc_nodes document)
  /\ orphanedFilesCount stats = length (orphanedFiles document)
  /\ Forall (fun edge => is_external edge = false) (doc_edges document)
  /\ (forall t, fileTypes stats !! t
                = if (count t =? 0)%nat then None else Some (count t))
  /\ entryPoints stats = default 0 (fileTypes stats !! "entry").
Proof.
  intros document stats count.
  assert (Htypes : forall t, fileTypes stats !! t
                   = if (count t =? 0)%nat then None else Some (count t)).
  { intros t. unfold stats, document, generate_json_output. simpl.
    rewrite (list_to_map_tabulate
               (fun file_type =>
                  length (List.filter
                            (fun n => String.eqb (type n) file_type)
                            (dict_values (nodes self))))).
    rewrite mem_types_count. unfold count, document. simpl.
    destruct (length _ =? 0)%nat; reflexivity. }
  split; [apply (filter_partition_length is_external)|].
  split; [reflexivity|].
  split.
  { change (length (nodes self) = length (map snd (nodes self))).
    by rewrite length_map. }
  split.
  { change (length (List.filter is_orphaned (dict_values (nodes self)))
            = length (map id (List.filter is_orphaned
                                (dict_values (nodes self))))).
    by rewrite length_map. }
  split.
  { apply List.Forall_forall. intros edge Hin.
    apply filter_In in Hin as [_ Hint]. by apply negb_true_iff in Hint. }
  split; [exact Htypes|].
  rewrite Htypes. unfold count, stats, document. simpl.
  destruct (length _ =? 0)%nat eqn:Hz; simpl; [|reflexivity].
  by apply Nat.eqb_eq in Hz.
Qed.

Lemma no_internal_edge_to (es : list ImportInfo) (k : string) :
  length (List.filter
            (fun edge => negb (is_external edge) && String.eqb (to_file edge) k)
            es) = 0
  <-> Forall (fun edge => is_external edge = true \/ to_file edge <> k) es.
Proof.
  induction es as [|edge es IH]; simpl.
  - split; [constructor | reflexivity].
  - destruct (is_external edge) eqn:Hext; simpl.
    + rewrite IH. split; [intros; constructor; auto | by inversion 1].
    + destruct (String.eqb_spec (to_file edge) k) as [Heq|Hne]; simpl.
      * split; [discriminate|]. inversion 1 as [|? ? [Hx|Hx]]; congruence.
      * rewrite IH. split; [intros; constructor; auto | by inversion 1].
Qed.

(** X6. A file is reported in [orphanedFiles] exactly when it is a node of the
    built graph, no internal edge has it as its target, and its role is
    neither entry nor test. *)
Theorem orphaned_files_report (root : path) (fs : entry) (a : analyzer)
  (k : string) :
  build_dependency_graph (init root) fs = Ok a ->
  In k (orphanedFiles (generate_json_output a))
  <-> exists node,
      In (k, node) (nodes a)
      /\ Forall (fun edge => is_external edge = true \/ to_file edge <> k)
                (edges a)
      /\ type node <> "entry" /\ type node <> "test".
Proof.
  intros Hbuild.
  destruct (built_graph_shape _ _ _ Hbuild) as (d & Hnodes & _ & _ & Hids & _).
  assert (Hzero : forall k0,
    (import_statistics (edges a)).2 !!! k0 = 0
    <-> Forall (fun edge => is_external edge = true \/ to_file edge <> k0)
               (edges a)).
  { intros k0. rewrite (proj2 (import_statistics_counts (edges a) k0)).
    apply no_internal_edge_to. }
  simpl. rewrite in_map_iff. split.
  - intros (node & <- & Hin). apply filter_In in Hin as [Hin Horph].
    unfold dict_values in Hin. rewrite Hnodes in Hin.
    apply in_map_iff in Hin as ([k1 node1] & <- & Hin).
    apply in_map_iff in Hin as ([k0 node0] & Heq & Hin0).
    rewrite List.Forall_forall in Hids. specialize (Hids _ Hin0).
    simpl in Heq, Hids. inversion Heq; subst k1 node1; clear Heq.
    simpl in Horph |- *. rewrite Hids.
    apply andb_true_iff in Horph as [Hcount Hrole].
    apply Nat.eqb_eq in Hcount. apply negb_true_iff, mem_entry_test in Hrole.
    exists (snd (update_node (import_statistics (edges a)) (k0, node0))).
    split; [|split; [by apply Hzero | exact Hrole]].
    rewrite Hnodes. apply in_map_iff. exists (k0, node0). by split.
  - intros (node & Hin & Hnone & Hrole).
    rewrite Hnodes in Hin. apply in_map_iff in Hin as ([k0 node0] & Heq & Hin0).
    rewrite List.Forall_forall in Hids. specialize (Hids _ Hin0).
    simpl in Heq, Hids. injection Heq as Hk Hnode.
    rewrite <- Hnode in Hrole. simpl in Hrole. clear Hnode.
    rewrite Hk in Hids, Hin0. clear Hk.
    exists (snd (update_node (import_statistics (edges a)) (k, node0))).
    split; [exact Hids|]. apply filter_In. split.
    + unfold dict_values. rewrite Hnodes.
      apply (in_map snd), (in_map (update_node (import_statistics (edges a)))).
      exact Hin0.
    + simpl. apply andb_true_iff. split.
      * apply Nat.eqb_eq. by apply Hzero.
      * apply negb_true_iff. by apply (mem_entry_test (type node0)).
Qed.

Lemma orphaned_files_report_witness :
  build_dependency_graph (init ["p"]) Scenario.fs_app_foo
  = Ok Scenario.graph_app_foo
  /\ orphanedFiles (generate_json_output Scenario.graph_app_foo)
     = ["src/App.tsx"; "src/utils/helpers.ts"]
  /\ exists node,
      In ("src/utils/helpers.ts", node) (nodes Scenario.graph_app_foo)
      /\ Forall (fun edge => is_external edge = true
                             \/ to_file edge <> "src/utils/helpers.ts")
                (edges Scenario.graph_app_foo)
      /\ type node <> "entry" /\ type node <> "test".
Proof.
  assert (Hbuild : build_dependency_graph (init ["p"]) Scenario.fs_app_foo
                   = Ok Scenario.graph_app_foo) by (vm_compute; reflexivity).
  split; [exact Hbuild|]. split; [reflexivity|].
  apply (orphaned_files_report _ _ _ "src/utils/helpers.ts" Hbuild).
  simpl. tauto.
Defined.

(** ** Further properties of the resolver *)





Lemma resolve_aux_no_parent (stack segs : list string) :
  ~ In ".." stack -> ~ In ".." (resolve_aux stack segs).
Proof.
  revert stack. induction segs as [|seg segs IH]; intros stack Hstack; simpl.
  - by rewrite <- in_rev.
  - destruct (String.eqb_spec seg "..") as [->|Hne]; apply IH.
    + destruct stack as [|s stack]; simpl; auto.
      intros Hin. apply Hstack. by right.
    + intros [Heq|Hin]; [congruence | contradiction].
Qed.

(** X10. The candidate that the resolver probes is normalized: it has no [..]
    segment, and resolving it again leaves it as it is. *)
Theorem resolved_candidate_normalized (self : analyzer)
  (import_path : string) (from_file : path) :
  let candidate := resolved_candidate self import_path from_file in
  ~ In ".." candidate /\ resolve candidate = candidate.
Proof.
  intros candidate.
  assert (Hno : ~ In ".." candidate).
  { unfold candidate, resolved_candidate, resolve.
    destruct (PyStr.startswith import_path "@/");
      apply resolve_aux_no_parent; intros []. }
  split; [exact Hno|].
  apply resolve_plain, List.Forall_forall. intros seg Hseg ->. by apply Hno.
Qed.

(** ** Failures that abort the run *)

Lemma resolve_import_path_root (self self' : analyzer) (fs : entry)
  (import_path : string) (from_file : path) :
  project_root self = project_root self' ->
  resolve_import_path self fs import_path from_file
  = resolve_import_path self' fs import_path from_file.
Proof.
  intros Hroot. unfold resolve_import_path, src_root. by rewrite Hroot.
Qed.

Lemma import_record_root (self self' : analyzer) (fs : entry)
  (file_path : path) (relative_from import_type import_path : string) :
  project_root self = project_root self' ->
  import_record self fs file_path relative_from import_type import_path
  = import_record self' fs file_path relative_from import_type import_path.
Proof.
  intros Hroot. unfold import_record.
  by rewrite (resolve_import_path_root self self') , Hroot.
Qed.

Lemma import_records_raise (self : analyzer) (fs : entry) (file_path : path)
  (relative_from : string) (matches : list (string * string))
  (m : string * string) :
  In m matches ->
  (exists e, import_record self fs file_path relative_from (fst m) (snd m)
             = Raise e) ->
  exists e, import_records self fs file_path relative_from matches = Raise e.
Proof.
  induction matches as [|[t p] ms IH]; intros Hin Hraise; [destruct Hin|].
  simpl.
  destruct (import_record self fs file_path relative_from t p)
    as [info|e] eqn:Hrec; [|simpl; eauto].
  destruct Hin as [<-|Hin].
  - destruct Hraise as [e He]. simpl in He. congruence.
  - destruct (IH Hin Hraise) as [e He]. rewrite He. simpl. eauto.
Qed.

Lemma for_each_raise {A S} (P : S -> Prop) (body : S -> A -> result S)
  (xs : list A) (x : A) :
  In x xs ->
  (forall s y s', P s -> body s y = Ok s' -> P s') ->
  (forall s, P s -> exists e, body s x = Raise e) ->
  forall s, P s -> exists e, for_each body xs s = Raise e.
Proof.
  intros Hin Hinv Hraise. induction xs as [|y xs IH]; [destruct Hin|].
  intros s Hs. simpl.
  destruct (body s y) as [s'|e] eqn:Hbody; [|simpl; eauto].
  simpl. destruct Hin as [->|Hin].
  - destruct (Hraise s Hs) as [e He]. congruence.
  - apply IH; [exact Hin|]. exact (Hinv _ _ _ Hs Hbody).
Qed.

(** X11. An import of a scanned file that resolves to an existing file outside
    the project root stops the run: there is no fallback to external, the
    [ValueError] of [relative_to] ends [build_dependency_graph]. *)
Theorem build_aborts_on_escaping_import (root : path) (fs : entry)
  (file_path : path) (content : string) (import_type import_path : string)
  (target : path) (e : exn) :
  In file_path (get_all_source_files (init root) fs) ->
  read_text fs file_path = Some content ->
  In (import_type, import_path) (raw_matches content) ->
  resolve_import_path (init root) fs import_path file_path
  = Ok (Some target) ->
  relative_to target root = Raise e ->
  exists e', build_dependency_graph (init root) fs = Raise e'.
Proof.
  intros Hfile Hread Hmatch Hres Hrel. unfold build_dependency_graph.
  destruct (for_each create_node (get_all_source_files (init root) fs)
              (init root)) as [a1|e1] eqn:H1; [|simpl; eauto].
  simpl.
  apply create_nodes_spec in H1 as (Hroot1 & _).
  destruct (for_each_raise (fun s => project_root s = root)
              (collect_imports fs) _ file_path Hfile) with (s := a1)
    as [e2 He2]; [| |exact Hroot1|rewrite He2; simpl; eauto].
  - intros s y s' Hs Hstep.
    apply collect_imports_spec in Hstep as (Hr & _). congruence.
  - intros s Hs. unfold collect_imports, extract_imports_from_file.
    rewrite Hread. simpl.
    destruct (relative_to file_path root) as [rel|e0] eqn:Hfrom;
      rewrite Hs, Hfrom; [|simpl; eauto].
    simpl.
    destruct (import_records_raise
                (set_file_contents s
                   (dict_set (file_contents s) (str_abs file_path) content))
                fs file_path (str_rel rel) _ _ Hmatch) as [e3 He3].
    + simpl. unfold import_record.
      rewrite (resolve_import_path_root _ (init root)) by exact Hs.
      rewrite Hres. simpl. rewrite Hs, Hrel. simpl. eauto.
    + rewrite He3. simpl. eauto.
Qed.

(** [src/App.tsx] imports [../../shared/x], which exists beside the
    project. *)
Lemma build_aborts_on_escaping_import_witness :
  In Scenario.app_tsx
     (get_all_source_files (init ["p"]) Scenario2.fs_escaping)
  /\ read_text Scenario2.fs_escaping Scenario.app_tsx
     = Some "import x from '../../shared/x'"
  /\ In ("static_import", "../../shared/x")
        (raw_matches "import x from '../../shared/x'")
  /\ resolve_import_path (init ["p"]) Scenario2.fs_escaping "../../shared/x"
       Scenario.app_tsx = Ok (Some ["shared"; "x.ts"])
  /\ (exists e, relative_to ["shared"; "x.ts"] ["p"] = Raise e)
  /\ exists e', build_dependency_graph (init ["p"]) Scenario2.fs_escaping
                = Raise e'.
Proof.
  assert (Hfile : In Scenario.app_tsx
                     (get_all_source_files (init ["p"]) Scenario2.fs_escaping))
    by (vm_compute; tauto).
  assert (Hread : read_text Scenario2.fs_escaping Scenario.app_tsx
                  = Some "import x from '../../shared/x'") by reflexivity.
  assert (Hmatch : In ("static_import", "../../shared/x")
                      (raw_matches "import x from '../../shared/x'"))
    by (vm_compute; tauto).
  assert (Hres : resolve_import_path (init ["p"]) Scenario2.fs_escaping
                   "../../shared/x" Scenario.app_tsx
                 = Ok (Some ["shared"; "x.ts"])) by reflexivity.
  assert (Hrel : relative_to ["shared"; "x.ts"] ["p"]
                 = Raise (ValueError "path is not in the subpath of the root"))
    by reflexivity.
  split; [exact Hfile|]. split; [exact Hread|]. split; [exact Hmatch|].
  split; [exact Hres|]. split; [eauto|].
  exact (build_aborts_on_escaping_import _ _ _ _ _ _ _ _
           Hfile Hread Hmatch Hres Hrel).
Defined.

(** ** Further properties of the classifier *)

Lemma relative_to_Ok (p root rel : path) :
  relative_to p root = Ok rel <-> p = root ++ rel.
Proof.
  revert p. induction root as [|r root IH]; intros p.
  - split.
    + intros H. destruct p; by inversion H.
    + intros Heq. simpl in Heq. subst p. by destruct rel.
  - destruct p as [|seg p]; [split; discriminate|]. simpl.
    destruct (String.eqb r seg) eqn:Heqb.
    + apply String.eqb_eq in Heqb. subst seg.
      split; [intros H; apply IH in H; by subst p
             | intros H; apply IH; by inversion H].
    + apply String.eqb_neq in Heqb.
      split; [discriminate | intros H; inversion H; congruence].
Qed.

(** X12. The directory rules look at every segment of the absolute path, those of
    the project root included: when no pattern rule matches, a file of a
    project that is checked out below a directory named [components] is a
    component wherever it lies in the project. *)
Theorem classify_sees_project_location (self : analyzer) (file_path : path)
  (rel : list string) :
  relative_to file_path (project_root self) = Ok rel ->
  match_file_type_pattern (str_rel rel) = None ->
  classify_file_type self file_path
  = Ok (classify_by_directory ("/" :: project_root self ++ rel))
  /\ (In "components" (project_root self) ->
      classify_file_type self file_path = Ok "component").
Proof.
  intros Hrel Hnone.
  assert (Hcls : classify_file_type self file_path
                 = Ok (classify_by_directory
                         ("/" :: project_root self ++ rel))).
  { unfold classify_file_type. rewrite Hrel. simpl. rewrite Hnone.
    apply relative_to_Ok in Hrel. by rewrite Hrel. }
  split; [exact Hcls|]. intros Hin. rewrite Hcls.
  unfold classify_by_directory.
  replace (PyStr.mem "components" ("/" :: project_root self ++ rel))
    with true; [reflexivity|].
  symmetry. apply existsb_exists. exists "components".
  split; [right; apply in_or_app; by left | reflexivity].
Qed.

Lemma classify_sees_project_location_witness :
  relative_to ["home"; "components"; "app"; "src"; "hooks"; "useThing.ts"]
              (project_root (init ["home"; "components"; "app"]))
  = Ok ["src"; "hooks"; "useThing.ts"]
  /\ match_file_type_pattern (str_rel ["src"; "hooks"; "useThing.ts"]) = None
  /\ In "components" (project_root (init ["home"; "components"; "app"]))
  /\ classify_file_type (init ["home"; "components"; "app"])
       ["home"; "components"; "app"; "src"; "hooks"; "useThing.ts"]
     = Ok "component".
Proof.
  assert (Hrel : relative_to
                   ["home"; "components"; "app"; "src"; "hooks"; "useThing.ts"]
                   (project_root (init ["home"; "components"; "app"]))
                 = Ok ["src"; "hooks"; "useThing.ts"]) by reflexivity.
  assert (Hnone : match_file_type_pattern
                    (str_rel ["src"; "hooks"; "useThing.ts"]) = None)
    by reflexivity.
  assert (Hin : In "components"
                   (project_root (init ["home"; "components"; "app"])))
    by (simpl; tauto).
  split; [exact Hrel|]. split; [exact Hnone|]. split; [exact Hin|].
  exact (proj2 (classify_sees_project_location _ _ _ Hrel Hnone) Hin).
Defined.

(** ** File discovery, characterized *)









Lemma string_compare_refl (s : string) : String.compare s s = Eq.
Proof. by apply String_as_OT.cmp_eq. Qed.

Lemma string_compare_Lt_trans (a b c : string) :
  String.compare a b = Lt -> String.compare b c = Lt ->
  String.compare a c = Lt.
Proof.
  intros Hab Hbc.
  apply String_as_OT.cmp_lt. apply String_as_OT.cmp_lt in Hab, Hbc.
  exact (String_as_OT.lt_trans _ _ _ Hab Hbc).
Qed.





(** ** The report *)

Import ReportSections.

(** *** Rankings *)

Lemma insert_desc_Permutation {A} (key : A -> nat) (x : A) (l : list A) :
  Permutation (insert_desc key x l) (x :: l).
Proof.
  induction l as [|y l IH]; simpl; [reflexivity|].
  destruct (key y <=? key x)%nat; [reflexivity|].
  rewrite IH. apply perm_swap.
Qed.

Lemma sorted_desc_Permutation {A} (key : A -> nat) (l : list A) :
  Permutation (sorted_desc key l) l.
Proof.
  induction l as [|x l IH]; simpl; [reflexivity|].
  rewrite insert_desc_Permutation. by constructor.
Qed.

Lemma insert_desc_sorted {A} (key : A -> nat) (x : A) (l : list A) :
  StronglySorted (fun a b => key b <= key a) l ->
  StronglySorted (fun a b => key b <= key a) (insert_desc key x l).
Proof.
  induction 1 as [|y l Hsorted IH Hall]; simpl.
  - constructor; constructor.
  - destruct (Nat.leb_spec (key y) (key x)) as [Hle|Hgt].
    + constructor; [by constructor|].
      constructor; [exact Hle|].
      eapply List.Forall_impl; [|exact Hall]. simpl. intros b Hb. lia.
    + constructor; [exact IH|].
      apply List.Forall_forall. intros b Hb.
      apply (Permutation_in _ (insert_desc_Permutation key x l)) in Hb.
      destruct Hb as [<-|Hb]; [lia|].
      rewrite List.Forall_forall in Hall. by apply Hall.
Qed.

Lemma sorted_desc_sorted {A} (key : A -> nat) (l : list A) :
  StronglySorted (fun a b => key b <= key a) (sorted_desc key l).
Proof.
  induction l as [|x l IH]; simpl; [constructor|].
  by apply insert_desc_sorted.
Qed.

Lemma insert_desc_stable {A} (key : A -> nat) (n : nat) (x : A) (l : list A) :
  StronglySorted (fun a b => key b <= key a) l ->
  List.filter (fun a => key a =? n)%nat (insert_desc key x l)
  = List.filter (fun a => key a =? n)%nat (x :: l).
Proof.
  induction 1 as [|y l Hsorted IH Hall]; [reflexivity|].
  simpl insert_desc.
  destruct (Nat.leb_spec (key y) (key x)) as [Hle|Hgt]; [reflexivity|].
  simpl in *. rewrite IH.
  destruct (Nat.eqb_spec (key x) n) as [Hx|Hx];
    destruct (Nat.eqb_spec (key y) n) as [Hy|Hy]; try reflexivity.
  lia.
Qed.

Lemma sorted_desc_stable {A} (key : A -> nat) (n : nat) (l : list A) :
  List.filter (fun a => key a =? n)%nat (sorted_desc key l)
  = List.filter (fun a => key a =? n)%nat l.
Proof.
  induction l as [|x l IH]; [reflexivity|].
  simpl sorted_desc. rewrite insert_desc_stable by apply sorted_desc_sorted.
  simpl. by rewrite IH.
Qed.

Lemma StronglySorted_take_drop {A} (R : A -> A -> Prop) (n : nat)
  (l : list A) (x y : A) :
  StronglySorted R l -> In x (take n l) -> In y (drop n l) -> R x y.
Proof.
  intros Hsorted. revert n. induction Hsorted as [|a l Hsorted IH Hall];
    intros n Hx Hy.
  - by destruct n.
  - destruct n as [|n]; [destruct Hx|]. simpl in Hx, Hy.
    destruct Hx as [<-|Hx]; [|by apply (IH n)].
    rewrite List.Forall_forall in Hall. apply Hall.
    rewrite <- (take_drop n l). apply in_or_app. by right.
Qed.

Lemma StronglySorted_prefix {A} (R : A -> A -> Prop) (l1 l2 : list A) :
  StronglySorted R (l1 ++ l2) -> StronglySorted R l1.
Proof.
  induction l1 as [|a l1 IH]; simpl; intros H; [constructor|].
  inversion H as [|? ? Hsorted Hall]; subst.
  constructor; [by apply IH|].
  rewrite List.Forall_forall in Hall. apply List.Forall_forall.
  intros b Hb. apply Hall. apply in_or_app. by left.
Qed.

(** X14. The ranking of the import hubs: at most ten nodes of the document, in
    descending order of their out-degree; nodes of equal out-degree keep the
    order of the document, and no node that is left out has a larger
    out-degree than one that is listed. *)
Theorem hub_ranking (nodes : dict FileNode) :
  let ranking := by_imports nodes in
  length ranking <= 10
  /\ StronglySorted (fun a b => imports b <= imports a) ranking
  /\ (forall node, In node ranking -> In node (dict_values nodes))
  /\ (forall listed other,
        In listed ranking -> In other (dict_values nodes) ->
        ~ In other ranking -> imports other <= imports listed)
  /\ (forall n,
        List.filter (fun node => imports node =? n)%nat
                    (sorted_desc imports (dict_values nodes))
        = List.filter (fun node => imports node =? n)%nat
                      (dict_values nodes)).
Proof.
  intros ranking. unfold ranking, by_imports.
  pose proof (sorted_desc_sorted imports (dict_values nodes)) as Hsorted.
  pose proof (sorted_desc_Permutation imports (dict_values nodes)) as Hperm.
  split; [rewrite length_take; lia|].
  split.
  { rewrite <- (take_drop 10 (sorted_desc imports (dict_values nodes)))
      in Hsorted.
    by apply StronglySorted_prefix in Hsorted. }
  split.
  { intros node Hin. apply (Permutation_in _ Hperm).
    rewrite <- (take_drop 10 (sorted_desc imports (dict_values nodes))).
    apply in_or_app. by left. }
  split; [|intros n; apply sorted_desc_stable].
  intros listed other Hlisted Hother Hout.
  apply (Permutation_in _ (Permutation_sym Hperm)) in Hother.
  rewrite <- (take_drop 10 (sorted_desc imports (dict_values nodes)))
    in Hother.
  apply in_app_or in Hother as [Hother|Hother]; [contradiction|].
  exact (StronglySorted_take_drop _ 10 _ listed other Hsorted Hlisted Hother).
Qed.

(** *** Splitting and joining identities *)

Lemma append_assoc (a b c : string) : (a +:+ b) +:+ c = a +:+ (b +:+ c).
Proof.
  induction a as [|x a IH]; [reflexivity|].
  change (String x ((a +:+ b) +:+ c) = String x (a +:+ (b +:+ c))).
  by rewrite IH.
Qed.

Lemma append_empty_r (a : string) : a +:+ EmptyString = a.
Proof.
  induction a as [|x a IH]; [reflexivity|].
  change (String x (a +:+ EmptyString) = String x a). by rewrite IH.
Qed.

Lemma split_aux_nonempty (c : ascii) (cur s : string) :
  PyStr.split_aux c cur s <> [].
Proof.
  revert cur. induction s as [|a s IH]; intros cur; simpl; [discriminate|].
  destruct (Ascii.eqb a c); [discriminate | apply IH].
Qed.

(** Joining the fields of a split with the separator gives the text back. *)
Lemma join_split_aux (c : ascii) (cur s : string) :
  PyStr.join (String c EmptyString) (PyStr.split_aux c cur s) = cur +:+ s.
Proof.
  unfold PyStr.join. revert cur.
  induction s as [|a s IH]; intros cur; cbn [PyStr.split_aux].
  - cbn [String.concat]. by rewrite append_empty_r.
  - destruct (Ascii.eqb_spec a c) as [->|Hne].
    + pose proof (split_aux_nonempty c EmptyString s) as Hnonempty.
      specialize (IH EmptyString).
      destruct (PyStr.split_aux c EmptyString s) as [|f fs];
        [contradiction|].
      change (cur +:+ String c EmptyString
              +:+ String.concat (String c EmptyString) (f :: fs)
              = cur +:+ String c s).
      rewrite IH. reflexivity.
    + rewrite IH, append_assoc. reflexivity.
Qed.

Lemma join_split (c : ascii) (s : string) :
  PyStr.join (String c EmptyString) (PyStr.split c s) = s.
Proof. unfold PyStr.split. by rewrite join_split_aux. Qed.

Lemma contains_split_aux (c : ascii) (cur s : string) :
  PyStr.contains (String c EmptyString) s = true ->
  exists x y rest, PyStr.split_aux c cur s = x :: y :: rest.
Proof.
  revert cur. induction s as [|a s IH]; intros cur Hin; simpl in Hin.
  - discriminate.
  - simpl. destruct (Ascii.eqb_spec a c) as [->|Hne].
    + pose proof (split_aux_nonempty c EmptyString s) as Hnonempty.
      destruct (PyStr.split_aux c EmptyString s) as [|f fs]; [contradiction|].
      eauto.
    + apply IH. destruct (ascii_dec c a) as [->|_]; [contradiction|].
      exact Hin.
Qed.

Lemma join_snoc (sep : string) (l : list string) (x : string) :
  l <> [] ->
  PyStr.join sep (l ++ [x]) = PyStr.join sep l +:+ sep +:+ x.
Proof.
  unfold PyStr.join. induction l as [|a l IH]; intros Hne; [contradiction|].
  destruct l as [|b l]; [reflexivity|].
  change (a +:+ sep +:+ String.concat sep ((b :: l) ++ [x])
          = (a +:+ sep +:+ String.concat sep (b :: l)) +:+ sep +:+ x).
  rewrite IH by discriminate. by rewrite !append_assoc.
Qed.

(** *** Grouping into a dictionary of lists *)

Lemma dict_get_set {V} (d : dict V) (k k' : string) (v : V) :
  dict_get (dict_set d k v) k'
  = if String.eqb k k' then Some v else dict_get d k'.
Proof.
  induction d as [|[k0 v0] d IH]; simpl.
  - destruct (String.eqb k k'); reflexivity.
  - destruct (String.eqb_spec k0 k) as [->|Hne]; simpl.
    + destruct (String.eqb k k'); reflexivity.
    + rewrite IH. destruct (String.eqb_spec k0 k') as [->|_]; [|reflexivity].
      destruct (String.eqb_spec k k') as [->|_]; [contradiction|reflexivity].
Qed.

Lemma dict_get_append {V} (d : dict (list V)) (k k' : string) (v : V) :
  dict_get (dict_append d k v) k'
  = if String.eqb k k' then Some (default [] (dict_get d k) ++ [v])
    else dict_get d k'.
Proof.
  unfold dict_append. destruct (dict_get d k) as [l|]; by rewrite dict_get_set.
Qed.

(** A loop that appends each item to the list of its key, skipping the
    items without a key, files under every key the items of that key in
    the order of the loop. *)
Lemma group_fold_get {A} (key : A -> option string)
  (step : dict (list A) -> A -> dict (list A)) (xs : list A) (k : string) :
  (forall d x, step d x = match key x with
                          | Some k' => dict_append d k' x
                          | None => d
                          end) ->
  forall d0,
    dict_get (fold_left step xs d0) k
    = match List.filter
              (fun x => match key x with
                        | Some k' => String.eqb k' k
                        | None => false
                        end) xs
      with
      | [] => dict_get d0 k
      | l => Some (default [] (dict_get d0 k) ++ l)
      end.
Proof.
  intros Hstep. induction xs as [|x xs IH]; intros d0; [reflexivity|].
  simpl. rewrite IH, Hstep.
  destruct (key x) as [k'|]; [|reflexivity].
  rewrite dict_get_append.
  destruct (String.eqb_spec k' k) as [->|_]; [|reflexivity].
  simpl. destruct (List.filter _ xs) as [|y l]; [reflexivity|].
  by rewrite <- app_assoc.
Qed.

(** X15. The orphaned files are grouped by directory: under every key stand the
    orphans of that directory, or of no directory for the key [root], in
    the order of the document, and a key is absent when it has none; the
    directory of an orphan with a slash, a slash and its file name make up
    the orphan's identity again. *)
Theorem orphan_groups (orphaned_files : list string) (k : string) :
  let group_key orphan :=
    if PyStr.contains "/" orphan then dir_path orphan else "root" in
  dict_get (orphaned_by_dir orphaned_files) k
  = match List.filter (fun orphan => String.eqb (group_key orphan) k)
                      orphaned_files with
    | [] => None
    | group => Some group
    end
  /\ forall orphan,
      PyStr.contains "/" orphan = true ->
      dir_path orphan +:+ "/" +:+ filename orphan = orphan.
Proof.
  intros group_key. split.
  - unfold orphaned_by_dir.
    rewrite (group_fold_get (fun orphan => Some (group_key orphan))).
    + simpl. destruct (List.filter _ orphaned_files); reflexivity.
    + intros d x. unfold group_key.
      destruct (PyStr.contains "/" x); reflexivity.
  - intros orphan Hslash. unfold dir_path, filename, PyStr.split.
    destruct (contains_split_aux "/" EmptyString orphan Hslash)
      as (x & y & rest & Hsplit).
    pose proof (join_split "/" orphan) as Hjoin.
    unfold PyStr.split in Hjoin. rewrite Hsplit in Hjoin |- *.
    rewrite (app_removelast_last EmptyString
               (l := x :: y :: rest)) in Hjoin at 1 by discriminate.
    rewrite join_snoc in Hjoin; [exact Hjoin|].
    destruct rest; discriminate.
Qed.

Lemma orphan_groups_witness :
  PyStr.contains "/" "src/utils/helpers.ts" = true
  /\ dir_path "src/utils/helpers.ts" = "src/utils"
  /\ filename "src/utils/helpers.ts" = "helpers.ts"
  /\ dir_path "src/utils/helpers.ts" +:+ "/" +:+ filename "src/utils/helpers.ts"
     = "src/utils/helpers.ts".
Proof.
  assert (Hslash : PyStr.contains "/" "src/utils/helpers.ts" = true)
    by reflexivity.
  split; [exact Hslash|]. split; [reflexivity|]. split; [reflexivity|].
  exact (proj2 (orphan_groups [] EmptyString) _ Hslash).
Defined.

(** *** Reading the document back *)

Lemma dict_set_fresh {V} (d : dict V) (k : string) (v : V) :
  ~ In k (dict_keys d) -> dict_set d k v = d ++ [(k, v)].
Proof.
  unfold dict_keys. induction d as [|[k0 v0] d IH]; simpl; intros Hfresh;
    [reflexivity|].
  destruct (String.eqb_spec k0 k) as [->|_]; [tauto|].
  rewrite IH; [reflexivity | tauto].
Qed.

Lemma load_nodes_fold (values : list FileNode) (d0 : dict FileNode) :
  List.NoDup (dict_keys d0 ++ map id values) ->
  fold_left (fun d node => dict_set d (id node) node) values d0
  = d0 ++ map (fun node => (id node, node)) values.
Proof.
  revert d0. induction values as [|node values IH]; intros d0 Hnd; simpl.
  - by rewrite app_nil_r.
  - rewrite dict_set_fresh.
    + rewrite IH; [by rewrite <- app_assoc|].
      unfold dict_keys in *. rewrite map_app, <- app_assoc. exact Hnd.
    + apply NoDup_remove_2 in Hnd. intros Hin. apply Hnd.
      apply in_or_app. by left.
Qed.

Lemma load_nodes_generate_json_output (root : path) (fs : entry)
  (a : analyzer) :
  build_dependency_graph (init root) fs = Ok a ->
  load_nodes (generate_json_output a) = nodes a.
Proof.
  intros Hbuild.
  destruct (built_graph_shape _ _ _ Hbuild)
    as (d & Hnodes & Hkeys & Hnd & Hids & _).
  destruct (build_dependency_graph_spec _ _ _ Hbuild) as (_ & _ & _ & Hmapid).
  unfold load_nodes. simpl.
  rewrite load_nodes_fold by (simpl; rewrite Hmapid, Hkeys; exact Hnd).
  simpl. rewrite Hnodes. unfold dict_values. rewrite !map_map.
  apply map_ext_in. intros [k node] Hin.
  rewrite List.Forall_forall in Hids. specialize (Hids _ Hin).
  simpl in *. by rewrite Hids.
Qed.

(** X13. The report reads back the node dictionary that the analyzer built: the
    nodes of the document, keyed by their identity, are the nodes of the
    graph in the same order, so every section of the report works on the
    degrees and roles that the builder computed. *)
Theorem load_nodes_round_trip (root : path) (fs : entry) (a : analyzer) :
  build_dependency_graph (init root) fs = Ok a ->
  load_nodes (generate_json_output a) = nodes a
  /\ by_imports (load_nodes (generate_json_output a))
     = take 10 (sorted_desc imports (dict_values (nodes a)))
  /\ Report.test_files (load_nodes (generate_json_output a))
     = List.filter (fun node => String.eqb (type node) "test")
                   (dict_values (nodes a)).
Proof.
  intros Hbuild.
  pose proof (load_nodes_generate_json_output _ _ _ Hbuild) as Hload.
  split; [exact Hload|]. unfold by_imports, Report.test_files.
  by rewrite Hload.
Qed.

Lemma load_nodes_round_trip_witness :
  build_dependency_graph (init ["p"]) Scenario.fs_app_foo
  = Ok Scenario.graph_app_foo
  /\ load_nodes (generate_json_output Scenario.graph_app_foo)
     = nodes Scenario.graph_app_foo.
Proof.
  assert (Hbuild : build_dependency_graph (init ["p"]) Scenario.fs_app_foo
                   = Ok Scenario.graph_app_foo) by (vm_compute; reflexivity).
  split; [exact Hbuild|].
  exact (proj1 (load_nodes_round_trip _ _ _ Hbuild)).
Defined.

(** *** Divisions *)

Lemma percentages_Ok (total : nat) (items : list (string * nat)) :
  total <> 0 \/ items = [] -> exists rows, percentages total items = Ok rows.
Proof.
  intros [Htotal| ->]; [|simpl; eauto].
  induction items as [|[label count] items [rows IH]]; simpl; [eauto|].
  unfold percentage, truediv. destruct total as [|n]; [contradiction|].
  simpl. rewrite IH. simpl. eauto.
Qed.

Lemma percentages_Raise (items : list (string * nat)) :
  items <> [] -> percentages 0 items = Raise ZeroDivisionError.
Proof. destruct items as [|[label count] items]; [contradiction|reflexivity]. Qed.

Lemma sorted_desc_nil {A} (key : A -> nat) (l : list A) :
  sorted_desc key l = [] <-> l = [].
Proof.
  split; [|by intros ->]. intros H.
  pose proof (sorted_desc_Permutation key l) as Hperm. rewrite H in Hperm.
  by apply Permutation_nil in Hperm.
Qed.

Lemma average_Ok (field : FileNode -> nat) (files : list FileNode) :
  exists q, average field files = Ok q.
Proof. destruct files as [|f files]; simpl; eauto. Qed.

Lemma feature_rows_Ok (items : dict (list FileNode)) :
  exists rows, feature_rows items = Ok rows.
Proof.
  induction items as [|[feature files] items [rows IH]]; simpl; [eauto|].
  destruct (average_Ok imports files) as [q1 ->].
  destruct (average_Ok imported_by files) as [q2 ->].
  simpl. rewrite IH. simpl. eauto.
Qed.

Lemma test_ratio_Ok (nodes : dict FileNode) :
  exists ratio, test_ratio nodes = Ok ratio.
Proof.
  unfold test_ratio. destruct (source_files nodes) as [|n l]; simpl; eauto.
Qed.

Lemma import_type_analysis_Ok (edges : list ImportInfo) :
  exists rows, import_type_analysis edges = Ok rows.
Proof.
  unfold import_type_analysis. apply percentages_Ok.
  destruct edges as [|edge edges]; [by right | left; discriminate].
Qed.

(** X16. The report divides by the total number of files, by the number of edges
    and by the size of each feature module.  Only the first can fail: the
    report ends in [ZeroDivisionError] exactly when the document gives a
    total of zero files beside a non-empty table of file types, which a
    document written by the analyzer never does. *)
Theorem report_divisions (graph_data : graph_document) :
  ((exists e, analyze_dependency_graph graph_data = Raise e)
   <-> totalFiles (doc_stats graph_data) = 0
       /\ fileTypes (doc_stats graph_data) <> ∅)
  /\ forall self,
      exists r, analyze_dependency_graph (generate_json_output self) = Ok r.
Proof.
  assert (Hgen : forall doc,
    (exists e, analyze_dependency_graph doc = Raise e)
    <-> totalFiles (doc_stats doc) = 0 /\ fileTypes (doc_stats doc) <> ∅).
  { intros doc. unfold analyze_dependency_graph.
    destruct (import_type_analysis_Ok (doc_edges doc)) as [rows2 H2].
    destruct (feature_rows_Ok
                (sorted_desc (fun item => length (snd item))
                             (feature_modules (load_nodes doc))))
      as [rows3 H3].
    destruct (test_ratio_Ok (load_nodes doc)) as [ratio Hratio].
    unfold feature_module_analysis, low_test_coverage.
    rewrite H2, H3, Hratio. simpl.
    unfold file_type_distribution.
    destruct (decide (totalFiles (doc_stats doc) = 0)) as [Hzero|Hpos].
    - rewrite Hzero.
      destruct (map_to_list (fileTypes (doc_stats doc))) as [|item items]
        eqn:Hlist.
      + apply map_to_list_empty_iff in Hlist. rewrite Hlist. simpl.
        split; [intros [e He]; discriminate | intros [_ ?]; contradiction].
      + rewrite percentages_Raise.
        * simpl. split; [|eauto]. intros _. split; [reflexivity|].
          intros Hempty. rewrite Hempty, map_to_list_empty in Hlist.
          discriminate.
        * intros Hnil. apply sorted_desc_nil in Hnil. discriminate.
    - destruct (percentages_Ok (totalFiles (doc_stats doc))
                  (sorted_desc snd (map_to_list (fileTypes (doc_stats doc))))
                  (or_introl Hpos)) as [rows1 H1].
      rewrite H1. simpl.
      split; [intros [e He]; discriminate | intros [? _]; contradiction]. }
  split; [apply Hgen|].
  intros self.
  destruct (analyze_dependency_graph (generate_json_output self))
    as [r|e] eqn:Hrun; [eauto|].
  exfalso. destruct (proj1 (Hgen _) (ex_intro _ e Hrun)) as [Hzero Hne].
  apply Hne. simpl in Hzero |- *.
  apply length_zero_iff_nil in Hzero. rewrite Hzero. reflexivity.
Qed.

(** *** Feature modules *)

Lemma prefix_append (a b : string) : String.prefix a (a +:+ b) = true.
Proof.
  induction a as [|x a IH]; simpl; [by destruct b|].
  destruct (ascii_dec x x); [exact IH | contradiction].
Qed.

Lemma contains_prefix (sub s : string) :
  String.prefix sub s = true -> PyStr.contains sub s = true.
Proof.
  intros H. destruct s as [|c s].
  - change (String.prefix sub EmptyString || false = true). by rewrite H.
  - change (String.prefix sub (String c s) || PyStr.contains sub s = true).
    by rewrite H.
Qed.

Lemma contains_append (sub a b : string) :
  PyStr.contains sub (a +:+ sub +:+ b) = true.
Proof.
  induction a as [|x a IH].
  - change (PyStr.contains sub (sub +:+ b) = true).
    apply contains_prefix, prefix_append.
  - change (PyStr.contains sub (String x (a +:+ sub +:+ b)) = true).
    simpl. rewrite IH. apply orb_true_r.
Qed.

Lemma features_segment_contains (s first feature_name : string)
  (rest : list string) :
  PyStr.split "/" s = first :: "features" :: feature_name :: rest ->
  PyStr.contains "features/" s = true.
Proof.
  intros Hsplit. rewrite <- (join_split "/" s), Hsplit.
  change (PyStr.join "/" (first :: "features" :: feature_name :: rest))
    with (first +:+ "/" +:+ "features" +:+ "/"
          +:+ PyStr.join "/" (feature_name :: rest)).
  replace (first +:+ "/" +:+ "features" +:+ "/"
           +:+ PyStr.join "/" (feature_name :: rest))
    with ((first +:+ "/") +:+ "features/"
          +:+ PyStr.join "/" (feature_name :: rest))
    by (by rewrite !append_assoc).
  apply contains_append.
Qed.

(** X17. The feature modules: a node belongs to the module named by the third
    segment of its identity when the second segment is [features], whatever
    the first; the nodes of a module are listed in the order of the
    document, and an identity with [features] at another depth belongs to
    no module. *)
Theorem feature_groups (nodes : dict FileNode) (name : string) :
  let in_feature node :=
    match PyStr.split "/" (id node) with
    | _ :: second :: feature_name :: _ =>
        String.eqb second "features" && String.eqb feature_name name
    | _ => false
    end in
  dict_get (feature_modules nodes) name
  = match List.filter in_feature (dict_values nodes) with
    | [] => None
    | module => Some module
    end.
Proof.
  intros in_feature. unfold feature_modules.
  rewrite (group_fold_get
             (fun node =>
                match PyStr.split "/" (id node) with
                | _ :: second :: feature_name :: _ =>
                    if String.eqb second "features" then Some feature_name
                    else None
                | _ => None
                end)).
  - assert (Hfilter :
      List.filter
        (fun x =>
           match
             match PyStr.split "/" (id x) with
             | _ :: second :: feature_name :: _ =>
                 if String.eqb second "features" then Some feature_name
                 else None
             | _ => None
             end
           with
           | Some k' => String.eqb k' name
           | None => false
           end) (feature_files nodes)
      = List.filter in_feature (dict_values nodes)).
    { unfold feature_files.
      induction (dict_values nodes) as [|node values IH]; [reflexivity|].
      simpl. unfold in_feature at 1.
      destruct (PyStr.split "/" (id node))
        as [|first [|second [|feature_name rest]]] eqn:Hsplit;
        try (destruct (PyStr.contains "features/" (id node)); simpl;
             rewrite ?Hsplit; exact IH).
      destruct (String.eqb_spec second "features") as [->|Hne].
      - rewrite (features_segment_contains _ _ _ _ Hsplit). simpl.
        rewrite Hsplit. simpl.
        destruct (String.eqb feature_name name); by rewrite IH.
      - destruct (PyStr.contains "features/" (id node)); simpl;
          rewrite ?Hsplit; simpl;
          destruct (String.eqb_spec second "features"); try contradiction;
          exact IH. }
    rewrite Hfilter. simpl.
    destruct (List.filter in_feature (dict_values nodes)); reflexivity.
  - intros d node.
    destruct (PyStr.split "/" (id node)) as [|first [|second [|f rest]]];
      try reflexivity.
    destruct (String.eqb second "features"); reflexivity.
Qed.

(** *** Cleanup candidates and risk candidates *)

(** X18. Every unused component that the report lists as a cleanup candidate is
    one of the orphaned files of the document. *)
Theorem unused_components_are_orphans (root : path) (fs : entry)
  (a : analyzer) (node : FileNode) :
  build_dependency_graph (init root) fs = Ok a ->
  In node (orphaned_components (load_nodes (generate_json_output a))) ->
  In (id node) (orphanedFiles (generate_json_output a)).
Proof.
  intros Hbuild Hin.
  pose proof (load_nodes_generate_json_output _ _ _ Hbuild) as Hload.
  rewrite Hload in Hin. unfold orphaned_components, component_files in Hin.
  apply filter_In in Hin as [Hin Hzero].
  apply filter_In in Hin as [Hin Hcomp].
  apply Nat.eqb_eq in Hzero. apply String.eqb_eq in Hcomp.
  simpl. apply in_map, filter_In. split; [exact Hin|].
  destruct (build_dependency_graph_nodes _ _ _ Hbuild) as (mid & Hnodes & _).
  unfold dict_values in Hin. rewrite Hnodes, map_map in Hin.
  apply in_map_iff in Hin as (item & <- & _).
  rewrite update_node_orphan in *. rewrite Hzero, Hcomp. reflexivity.
Qed.

Lemma StronglySorted_tagged {A} (key : A -> nat) (l : list A) :
  StronglySorted (fun a b => key b <= key a) l ->
  StronglySorted (fun a b : A * nat => snd b <= snd a)
                 (map (fun x => (x, key x)) l).
Proof.
  induction 1 as [|x l _ IH Hall]; simpl; constructor; [exact IH|].
  apply List.Forall_forall. intros [y t] Hy.
  apply in_map_iff in Hy as (z & Heq & Hz). injection Heq as <- <-.
  rewrite List.Forall_forall in Hall. simpl. by apply Hall.
Qed.

(** X19. The nodes printed as circular-dependency risks: at most five, each with
    more than five imports and more than five importers, hence at least
    twelve connections, in descending order of the connections. *)
Theorem circular_risk_candidates (nodes : dict FileNode) :
  length (circular_risks nodes) <= 5
  /\ StronglySorted (fun a b => snd b <= snd a) (circular_risks nodes)
  /\ forall node total,
      In (node, total) (circular_risks nodes) ->
      In node (dict_values nodes)
      /\ 5 < imports node /\ 5 < imported_by node
      /\ total = imports node + imported_by node /\ 12 <= total.
Proof.
  unfold circular_risks.
  set (key := fun node : FileNode => imports node + imported_by node).
  pose proof (sorted_desc_sorted key (high_interconnected nodes)) as Hsorted.
  pose proof (sorted_desc_Permutation key (high_interconnected nodes)) as Hperm.
  rewrite <- (take_drop 5 (sorted_desc key (high_interconnected nodes)))
    in Hsorted, Hperm.
  apply StronglySorted_prefix in Hsorted.
  split; [rewrite length_map, length_take; lia|]. split.
  - exact (StronglySorted_tagged key _ Hsorted).
  - intros node total Hin.
    apply in_map_iff in Hin as (x & Heq & Hx). injection Heq as -> <-.
    assert (Hhigh : In node (high_interconnected nodes)).
    { apply (Permutation_in _ Hperm). apply in_or_app. by left. }
    apply filter_In in Hhigh as [Hnode Hboth].
    apply andb_true_iff in Hboth as [H1 H2].
    apply Nat.ltb_lt in H1, H2. unfold key. repeat split; auto; lia.
Qed.

(** ** The diagram *)

Import Mermaid.

Lemma insert_unique_In (x y : string) (l : list string) :
  In y (insert_unique x l) <-> y = x \/ In y l.
Proof.
  induction l as [|z l IH]; simpl; [intuition|].
  destruct (String.compare x z) eqn:Hcmp; simpl.
  - apply String.compare_eq_iff in Hcmp. subst. intuition.
  - intuition.
  - rewrite IH. intuition.
Qed.

Lemma sorted_set_In (y : string) (xs : list string) :
  In y (sorted_set xs) <-> In y xs.
Proof.
  induction xs as [|x xs IH]; simpl; [reflexivity|].
  rewrite insert_unique_In, IH. intuition.
Qed.

Lemma insert_unique_sorted (x : string) (l : list string) :
  StronglySorted string_lt l -> StronglySorted string_lt (insert_unique x l).
Proof.
  induction 1 as [|z l Hsorted IH Hall]; simpl.
  - constructor; constructor.
  - destruct (String.compare x z) eqn:Hcmp.
    + by constructor.
    + constructor; [by constructor|]. constructor; [exact Hcmp|].
      eapply List.Forall_impl; [|exact Hall].
      intros b Hb. exact (string_compare_Lt_trans _ _ _ Hcmp Hb).
    + constructor; [exact IH|]. apply List.Forall_forall. intros b Hb.
      apply insert_unique_In in Hb as [->|Hb].
      * unfold string_lt. rewrite String.compare_antisym, Hcmp. reflexivity.
      * rewrite List.Forall_forall in Hall. by apply Hall.
Qed.

Lemma sorted_set_sorted (xs : list string) :
  StronglySorted string_lt (sorted_set xs).
Proof.
  induction xs as [|x xs IH]; simpl; [constructor|].
  by apply insert_unique_sorted.
Qed.

Lemma StronglySorted_lt_NoDup (l : list string) :
  StronglySorted string_lt l -> List.NoDup l.
Proof.
  induction 1 as [|x l _ IH Hall]; constructor; [|exact IH].
  intros Hin. rewrite List.Forall_forall in Hall. specialize (Hall x Hin).
  unfold string_lt in Hall. rewrite string_compare_refl in Hall. discriminate.
Qed.

Lemma node_name_inj (i j : nat) : node_name i = node_name j -> i = j.
Proof.
  unfold node_name. intros H. apply append_inv_head in H.
  assert (Huint : Some (Nat.to_uint i) = Some (Nat.to_uint j))
    by (rewrite <- !NilEmpty.usu; by rewrite H).
  injection Huint as Huint.
  apply (f_equal Nat.of_uint) in Huint. by rewrite !Unsigned.of_to in Huint.
Qed.

Lemma dict_get_None {V} (d : dict V) (k : string) :
  ~ In k (dict_keys d) -> dict_get d k = None.
Proof.
  unfold dict_keys. induction d as [|[k0 v0] d IH]; simpl; [reflexivity|].
  intros Hfresh. destruct (String.eqb_spec k0 k) as [->|_]; [tauto|].
  apply IH. tauto.
Qed.

Lemma enumerate_nodes_mapping (self : analyzer) (files : list string) :
  forall i node_mapping lines file name,
    List.NoDup files ->
    (forall f, In f files -> ~ In f (dict_keys node_mapping)) ->
    dict_get (fst (enumerate_nodes self i files node_mapping lines)) file
    = Some name
    <-> dict_get node_mapping file = Some name
        \/ exists j, files !! j = Some file /\ name = node_name (i + j).
Proof.
  induction files as [|f0 files IH];
    intros i node_mapping lines file name Hnd Hfresh.
  - simpl. split; [by left | intros [H|(j & Hj & _)]; [exact H|discriminate]].
  - inversion Hnd as [|? ? Hnotin Hnd']; subst. simpl.
    rewrite IH; [|exact Hnd'|].
    + rewrite dict_get_set.
      destruct (String.eqb_spec f0 file) as [->|Hne].
      * rewrite (dict_get_None node_mapping file)
          by (apply Hfresh; by left).
        split.
        -- intros [H|(j & Hj & Hname)].
           ++ right. exists 0. rewrite Nat.add_0_r. split; [reflexivity|].
              by injection H.
           ++ exfalso. apply Hnotin. apply list_elem_of_In.
              by apply list_elem_of_lookup_2 in Hj.
        -- intros [H|(j & Hj & Hname)]; [discriminate|].
           destruct j as [|j].
           ++ left. rewrite Nat.add_0_r in Hname. by subst.
           ++ exfalso. apply Hnotin. apply list_elem_of_In.
              simpl in Hj. by apply list_elem_of_lookup_2 in Hj.
      * split.
        -- intros [H|(j & Hj & Hname)]; [by left|].
           right. exists (S j). split; [exact Hj|].
           by rewrite Nat.add_succ_r.
        -- intros [H|(j & Hj & Hname)]; [by left|].
           destruct j as [|j]; [simpl in Hj; congruence|].
           right. exists j. split; [exact Hj|].
           by rewrite Nat.add_succ_r in Hname.
    + intros f Hf Hin. apply dict_set_keys in Hin as [->|Hin];
        [contradiction|].
      apply (Hfresh f); [by right | exact Hin].
Qed.

Lemma node_mapping_lookup (self : analyzer) (file name : string) :
  dict_get (node_mapping self) file = Some name
  <-> exists i, sorted_set (important_files self) !! i = Some file
                /\ name = node_name i.
Proof.
  unfold node_mapping.
  rewrite enumerate_nodes_mapping;
    [|apply StronglySorted_lt_NoDup, sorted_set_sorted | intros f _ []].
  simpl. split; [intros [H|H]; [discriminate|exact H] | by right].
Qed.

(** X20. The files of the diagram are the entry points, the targets of the
    internal edges that leave an entry point, and the files with more than
    five imports.  They are numbered in ascending order of their identity:
    [N] followed by its index names a file, and two files never share a
    name. *)
Theorem diagram_nodes (self : analyzer) (file : string) :
  ((exists name, dict_get (node_mapping self) file = Some name)
   <-> In file (Mermaid.entry_points self)
       \/ (exists edge, In edge (edges self) /\ is_external edge = false
                        /\ In (from_file edge) (Mermaid.entry_points self)
                        /\ to_file edge = file)
       \/ In file (high_import_files self))
  /\ (forall name,
        dict_get (node_mapping self) file = Some name
        <-> exists i, sorted_set (important_files self) !! i = Some file
                      /\ name = node_name i)
  /\ StronglySorted string_lt (sorted_set (important_files self))
  /\ (forall file' name,
        dict_get (node_mapping self) file = Some name ->
        dict_get (node_mapping self) file' = Some name -> file = file').
Proof.
  split; [|split; [apply node_mapping_lookup|split;
                   [apply sorted_set_sorted|]]].
  - split.
    + intros [name Hname]. apply node_mapping_lookup in Hname
        as (i & Hi & _).
      apply list_elem_of_lookup_2 in Hi. apply list_elem_of_In in Hi.
      apply (proj1 (sorted_set_In _ _)) in Hi.
      unfold important_files in Hi.
      apply in_app_or in Hi as [Hi|Hi]; [by left|].
      apply in_app_or in Hi as [Hi|Hi]; [|by right; right].
      right. left. apply in_map_iff in Hi as (edge & <- & Hedge).
      apply filter_In in Hedge as [Hedge Hfrom].
      apply filter_In in Hedge as [Hedge Hint].
      exists edge. split; [exact Hedge|].
      split; [by apply negb_true_iff in Hint|]. split; [|reflexivity].
      apply existsb_exists in Hfrom as (k & Hk & Heq).
      apply String.eqb_eq in Heq. by subst.
    + intros Hfile.
      assert (Hin : In file (sorted_set (important_files self))).
      { apply sorted_set_In. unfold important_files.
        destruct Hfile as [H|[(edge & Hedge & Hint & Hfrom & <-)|H]].
        - apply in_or_app. by left.
        - apply in_or_app. right. apply in_or_app. left.
          apply in_map, filter_In. split.
          + apply filter_In. split; [exact Hedge|]. by rewrite Hint.
          + apply existsb_exists. exists (from_file edge).
            split; [exact Hfrom | apply String.eqb_refl].
        - apply in_or_app. right. apply in_or_app. by right. }
      apply list_elem_of_In, list_elem_of_lookup_1 in Hin as [i Hi].
      exists (node_name i). apply node_mapping_lookup. eauto.
  - intros file' name H1 H2.
    apply node_mapping_lookup in H1 as (i & Hi & ->).
    apply node_mapping_lookup in H2 as (j & Hj & Hname).
    apply node_name_inj in Hname. subst j. congruence.
Qed.

Lemma enumerate_nodes_lines (self : analyzer) (files : list string) :
  forall i node_mapping lines,
    snd (enumerate_nodes self i files node_mapping lines)
    = lines
      ++ concat (imap (fun j file_id =>
                         node_lines self (node_name (i + j)) file_id) files).
Proof.
  induction files as [|f0 files IH]; intros i node_mapping lines.
  - simpl. by rewrite app_nil_r.
  - cbn [enumerate_nodes]. rewrite IH, imap_cons. cbn [concat].
    rewrite <- List.app_assoc, Nat.add_0_r. do 3 f_equal.
    apply imap_ext. intros j f _. simpl. by rewrite Nat.add_succ_r.
Qed.

(** X21. The text of the diagram: the header, the declarations of the important
    files that are nodes, in ascending order of their identity, and one line
    for every internal edge between two important files, in the order of
    the edge list, dashed when the kind of the edge is dynamic; an edge with
    an end that is not important, and every external edge, leaves no line. *)
Theorem diagram_lines (self : analyzer) :
  let files := sorted_set (important_files self) in
  mermaid_lines self
  = ["graph TD"]
    ++ concat (imap (fun i file_id => node_lines self (node_name i) file_id)
                    files)
    ++ concat (map (edge_lines (node_mapping self))
                   (List.filter (fun edge => negb (is_external edge))
                                (edges self)))
  /\ (forall edge,
        edge_lines (node_mapping self) edge <> []
        <-> In (from_file edge) files /\ In (to_file edge) files)
  /\ (forall edge i j,
        files !! i = Some (from_file edge) ->
        files !! j = Some (to_file edge) ->
        edge_lines (node_mapping self) edge
        = ["    " +:+ node_name i
           +:+ (if String.eqb (import_type edge) "dynamic"
                then " -.-> " else " --> ")
           +:+ node_name j]).
Proof.
  intros files.
  assert (Hlines : forall edge i j,
    files !! i = Some (from_file edge) ->
    files !! j = Some (to_file edge) ->
    edge_lines (node_mapping self) edge
    = ["    " +:+ node_name i
       +:+ (if String.eqb (import_type edge) "dynamic"
            then " -.-> " else " --> ")
       +:+ node_name j]).
  { intros edge i j Hi Hj. unfold edge_lines.
    rewrite (proj2 (node_mapping_lookup self (from_file edge) (node_name i)))
      by eauto.
    rewrite (proj2 (node_mapping_lookup self (to_file edge) (node_name j)))
      by eauto.
    destruct (String.eqb (import_type edge) "dynamic"); reflexivity. }
  split; [|split; [|exact Hlines]].
  - unfold mermaid_lines, node_mapping.
    pose proof (enumerate_nodes_lines self files 0 [] ["graph TD"]) as Hsnd.
    fold files.
    destruct (enumerate_nodes self 0 files [] ["graph TD"]) as [m l].
    simpl in Hsnd |- *. rewrite Hsnd. reflexivity.
  - intros edge. split.
    + intros Hne. unfold edge_lines in Hne.
      destruct (dict_get (node_mapping self) (from_file edge)) as [n1|] eqn:H1;
        [|contradiction].
      destruct (dict_get (node_mapping self) (to_file edge)) as [n2|] eqn:H2;
        [|contradiction].
      apply node_mapping_lookup in H1 as (i & Hi & _).
      apply node_mapping_lookup in H2 as (j & Hj & _).
      apply list_elem_of_lookup_2 in Hi, Hj.
      split; by apply list_elem_of_In.
    + intros [Hfrom Hto].
      apply list_elem_of_In, list_elem_of_lookup_1 in Hfrom as [i Hi].
      apply list_elem_of_In, list_elem_of_lookup_1 in Hto as [j Hj].
      rewrite (Hlines edge i j Hi Hj). discriminate.
Qed.

Lemma diagram_lines_witness :
  sorted_set (important_files Scenario2.graph_entry) !! 0 = Some "main.tsx"
  /\ sorted_set (important_files Scenario2.graph_entry) !! 2
     = Some "src/Lazy.tsx"
  /\ edge_lines (node_mapping Scenario2.graph_entry) Scenario2.lazy_edge
     = ["    N0 -.-> N2"].
Proof.
  assert (Hi : sorted_set (important_files Scenario2.graph_entry) !! 0
               = Some (from_file Scenario2.lazy_edge)) by reflexivity.
  assert (Hj : sorted_set (important_files Scenario2.graph_entry) !! 2
               = Some (to_file Scenario2.lazy_edge)) by reflexivity.
  split; [exact Hi|]. split; [exact Hj|].
  exact (proj2 (proj2 (diagram_lines Scenario2.graph_entry))
           Scenario2.lazy_edge 0 2 Hi Hj).
Defined.

Lemma unused_components_are_orphans_witness :
  build_dependency_graph (init ["p"]) Scenario2.fs_component
  = Ok Scenario2.graph_component
  /\ In Scenario2.button_node
        (orphaned_components
           (load_nodes (generate_json_output Scenario2.graph_component)))
  /\ In (id Scenario2.button_node)
        (orphanedFiles (generate_json_output Scenario2.graph_component)).
Proof.
  assert (Hbuild : build_dependency_graph (init ["p"]) Scenario2.fs_component
                   = Ok Scenario2.graph_component) by (vm_compute; reflexivity).
  assert (Hin : In Scenario2.button_node
                  (orphaned_components
                     (load_nodes
                        (generate_json_output Scenario2.graph_component))))
    by (vm_compute; tauto).
  split; [exact Hbuild|]. split; [exact Hin|].
  exact (unused_components_are_orphans _ _ _ _ Hbuild Hin).
Defined.

(** ** The file type table adds up *)

Lemma file_types_lookup (self : analyzer) (t : string) :
  let count :=
    length (List.filter (fun n => String.eqb (type n) t)
                        (dict_values (nodes self))) in
  fileTypes (doc_stats (generate_json_output self)) !! t
  = if (count =? 0)%nat then None else Some count.
Proof.
  intros count. unfold generate_json_output. simpl.
  rewrite (list_to_map_tabulate
             (fun file_type =>
                length (List.filter
                          (fun n => String.eqb (type n) file_type)
                          (dict_values (nodes self))))).
  rewrite mem_types_count. fold count.
  destruct (count =? 0)%nat; reflexivity.
Qed.

(** X22. The node counts of the [fileTypes] table sum to [totalFiles]: every
    node is counted under exactly one role. *)
Theorem file_types_sum (self : analyzer) :
  let stats := doc_stats (generate_json_output self) in
  list_sum (map snd (map_to_list (fileTypes stats))) = totalFiles stats.
Proof.
  intros stats.
  set (values := dict_values (nodes self)).
  set (count := fun t : string =>
         length (List.filter (fun n => String.eqb (type n) t) values)).
  assert (Hlookup : forall t, fileTypes stats !! t
                    = if (count t =? 0)%nat then None else Some (count t))
    by (intros t; apply file_types_lookup).
  set (table := map_to_list (fileTypes stats)).
  assert (Hsnd : map snd table = map count (map fst table)).
  { rewrite map_map. apply map_ext_in. intros [t c] Hin. simpl.
    apply list_elem_of_In, elem_of_map_to_list in Hin.
    rewrite Hlookup in Hin. destruct (count t =? 0)%nat; congruence. }
  rewrite Hsnd.
  assert (Hnd : List.NoDup (map fst table)).
  { apply NoDup_ListNoDup. apply NoDup_fst_map_to_list. }
  pose proof (list_sum_counts (fun _ : FileNode => true) type
                (map fst table) values Hnd) as Hsum.
  simpl in Hsum.
  rewrite (map_ext count
             (fun k => length (List.filter
                                 (fun x => String.eqb (type x) k) values)))
    by reflexivity.
  rewrite Hsum.
  rewrite (filter_ext_in _ (fun _ => true)).
  - change (totalFiles stats) with (length (nodes self)).
    unfold values, dict_values.
    rewrite <- (length_map snd (nodes self)). f_equal.
    clear. induction (map snd (nodes self)) as [|x l IH]; simpl; congruence.
  - intros node Hnode. apply existsb_exists. exists (type node).
    split; [|apply String.eqb_refl].
    assert (Hpos : count (type node) <> 0).
    { unfold count. intros Hzero. apply length_zero_iff_nil in Hzero.
      assert (Hin : In node (List.filter
                               (fun n => String.eqb (type n) (type node))
                               values))
        by (apply filter_In; split; [exact Hnode | apply String.eqb_refl]).
      rewrite Hzero in Hin. destruct Hin. }
    apply (in_map fst table (type node, count (type node))).
    apply list_elem_of_In, elem_of_map_to_list. rewrite Hlookup.
    destruct (Nat.eqb_spec (count (type node)) 0); [contradiction|reflexivity].
Qed.

(** ** Building twice *)

Lemma import_records_root (s t : analyzer) (fs : entry) (file_path : path)
  (relative_from : string) (matches : list (string * string)) :
  project_root s = project_root t ->
  import_records s fs file_path relative_from matches
  = import_records t fs file_path relative_from matches.
Proof.
  intros Hroot. induction matches as [|[ty p] ms IH]; simpl; [reflexivity|].
  by rewrite (import_record_root s t), IH.
Qed.

Lemma extract_imports_from_file_root (s t : analyzer) (fs : entry)
  (file_path : path) (imports : list ImportInfo) (s' : analyzer) :
  project_root s = project_root t ->
  extract_imports_from_file s fs file_path = Ok (imports, s') ->
  exists t',
    extract_imports_from_file t fs file_path = Ok (imports, t')
    /\ project_root t' = project_root t
    /\ nodes t' = nodes t /\ edges t' = edges t.
Proof.
  unfold extract_imports_from_file. intros Hroot H.
  destruct (read_text fs file_path) as [content|].
  - bind_inv H. bind_inv H. inversion H; subst; clear H.
    simpl in Ha. simpl. rewrite <- Hroot, Ha. simpl.
    rewrite (import_records_root _
               (set_file_contents s
                  (dict_set (file_contents s) (str_abs file_path) content)))
      by (simpl; congruence).
    rewrite Ha0. simpl. eexists. split; [reflexivity|]. simpl. auto.
  - inversion H; subst. eexists. split; [reflexivity|]. auto.
Qed.

(** The second loop adds the same records whatever edges are there already:
    they depend on the project root and the file system only. *)
Lemma collect_imports_twice (fs : entry) (files : list path) :
  forall s s' t,
    project_root s = project_root t ->
    for_each (collect_imports fs) files s = Ok s' ->
    exists t' added,
      for_each (collect_imports fs) files t = Ok t'
      /\ edges s' = edges s ++ added /\ edges t' = edges t ++ added
      /\ project_root t' = project_root t /\ nodes t' = nodes t.
Proof.
  induction files as [|f files IH]; intros s s' t Hroot H; simpl in H.
  - inversion H; subst. exists t, []. simpl. by rewrite !app_nil_r.
  - bind_inv H. unfold collect_imports in Ha. bind_inv Ha.
    destruct a0 as [imports s0]. inversion Ha; subst a; clear Ha.
    destruct (extract_imports_from_file_root s t _ _ _ _ Hroot Ha0)
      as (t0 & Ht0 & Hroot0 & Hnodes0 & Hedges0).
    assert (Hs0 : project_root s0 = project_root s /\ edges s0 = edges s).
    { destruct (extract_imports_from_file_root s s _ _ _ _ eq_refl Ha0)
        as (s1 & Hs1 & Hr & _ & He). rewrite Ha0 in Hs1.
      inversion Hs1; subst. auto. }
    destruct Hs0 as [Hroot_s0 Hedges_s0].
    destruct (IH (set_edges s0 (edges s0 ++ imports)) s'
                 (set_edges t0 (edges t0 ++ imports)))
      as (t' & added & Hrun & Hs' & Ht' & Hroot' & Hnodes');
      [simpl; congruence | exact H |].
    assert (Hrun' : for_each (collect_imports fs) (f :: files) t = Ok t').
    { assert (Hstep : collect_imports fs t f
                      = Ok (set_edges t0 (edges t0 ++ imports)))
        by (unfold collect_imports; rewrite Ht0; reflexivity).
      cbn [for_each]. rewrite Hstep. exact Hrun. }
    exists t', (imports ++ added). simpl in *.
    rewrite Hs', Ht', Hedges_s0, Hedges0, <- !List.app_assoc.
    repeat split; congruence.
Qed.

Lemma dict_set_keys_present {V} (d : dict V) (k : string) (v : V) :
  In k (dict_keys d) -> dict_keys (dict_set d k v) = dict_keys d.
Proof.
  unfold dict_keys. induction d as [|[k0 v0] d IH]; simpl; [tauto|].
  intros Hin. destruct (String.eqb_spec k0 k) as [->|Hne]; simpl;
    [reflexivity|].
  rewrite IH; [reflexivity|]. destruct Hin; [contradiction|assumption].
Qed.

Lemma classify_file_type_root (s t : analyzer) (file_path : path) :
  project_root s = project_root t ->
  classify_file_type s file_path = classify_file_type t file_path.
Proof. intros Hroot. unfold classify_file_type. by rewrite Hroot. Qed.

(** The first loop on a graph whose nodes are already there replaces them
    in place. *)
Lemma create_nodes_twice (files : list path) :
  forall s s' t,
    project_root s = project_root t ->
    for_each create_node files s = Ok s' ->
    (forall f rel, In f files -> relative_to f (project_root t) = Ok rel ->
                   In (str_rel rel) (dict_keys (nodes t))) ->
    exists t',
      for_each create_node files t = Ok t'
      /\ project_root t' = project_root t /\ edges t' = edges t
      /\ dict_keys (nodes t') = dict_keys (nodes t).
Proof.
  induction files as [|f files IH]; intros s s' t Hroot H Hkeys; simpl in H.
  - inversion H; subst. exists t. simpl. auto.
  - bind_inv H. unfold create_node in Ha. bind_inv Ha. bind_inv Ha.
    inversion Ha; subst a; clear Ha.
    assert (Hk : In (str_rel a0) (dict_keys (nodes t)))
      by (apply (Hkeys f); [by left | congruence]).
    destruct (IH (set_nodes s (dict_set (nodes s) (str_rel a0)
                                 (new_FileNode (str_rel a0) a1)))
                 s'
                 (set_nodes t (dict_set (nodes t) (str_rel a0)
                                 (new_FileNode (str_rel a0) a1))))
      as (t' & Hrun & Hroot' & Hedges' & Hkeys');
      [exact Hroot | exact H | |].
    + intros f' rel Hf' Hrel. simpl. rewrite dict_set_keys_present by exact Hk.
      apply (Hkeys f'); [by right | exact Hrel].
    + assert (Hrun' : for_each create_node (f :: files) t = Ok t').
      { assert (Hstep : create_node t f
                        = Ok (set_nodes t
                                (dict_set (nodes t) (str_rel a0)
                                   (new_FileNode (str_rel a0) a1)))).
        { unfold create_node. rewrite <- Hroot, Ha0. simpl.
          rewrite <- (classify_file_type_root s t) by exact Hroot.
          rewrite Ha1. reflexivity. }
        cbn [for_each]. rewrite Hstep. exact Hrun. }
      exists t'. simpl in *.
      rewrite Hkeys', dict_set_keys_present by exact Hk. auto.
Qed.

Lemma get_all_source_files_root (s t : analyzer) (fs : entry) :
  project_root s = project_root t ->
  get_all_source_files s fs = get_all_source_files t fs.
Proof.
  intros Hroot. unfold get_all_source_files, src_root. by rewrite Hroot.
Qed.

Lemma filter_app_length {A} (p : A -> bool) (l : list A) :
  length (List.filter p (l ++ l)) = 2 * length (List.filter p l).
Proof. rewrite List.filter_app, length_app. lia. Qed.

Lemma incoming_count_twice (a1 : analyzer) (es2 : list ImportInfo)
  (k : string) (n1 n2 : FileNode) :
  (exists d1, nodes a1 = map (update_node (import_statistics (edges a1))) d1
              /\ In (k, n1) (nodes a1)) ->
  (exists d2, In (k, n2) (map (update_node (import_statistics es2)) d2)) ->
  es2 = edges a1 ++ edges a1 ->
  imports n2 = 2 * imports n1 /\ imported_by n2 = 2 * imported_by n1.
Proof.
  intros (d1 & Hnodes1 & Hn1) (d2 & Hn2) ->.
  rewrite Hnodes1 in Hn1.
  apply in_map_iff in Hn1 as ([k1 m1] & Heq1 & _).
  apply in_map_iff in Hn2 as ([k2 m2] & Heq2 & _).
  simpl in Heq1, Heq2.
  injection Heq1 as Hk1 Hm1. injection Heq2 as Hk2 Hm2.
  subst k1 k2. rewrite <- Hm1, <- Hm2. simpl.
  destruct (import_statistics_counts (edges a1) k) as [-> ->].
  destruct (import_statistics_counts (edges a1 ++ edges a1) k) as [-> ->].
  split; apply filter_app_length.
Qed.

(** X23. Running [build_dependency_graph] a second time on the analyzer it
    returned succeeds, keeps the node identities and appends every edge a
    second time, so all degree counts double. *)
Theorem build_twice_doubles (root : path) (fs : entry) (a1 : analyzer) :
  build_dependency_graph (init root) fs = Ok a1 ->
  exists a2,
    build_dependency_graph a1 fs = Ok a2
    /\ edges a2 = edges a1 ++ edges a1
    /\ node_ids a2 = node_ids a1
    /\ forall k n1 n2,
        In (k, n1) (nodes a1) -> In (k, n2) (nodes a2) ->
        imports n2 = 2 * imports n1 /\ imported_by n2 = 2 * imported_by n1.
Proof.
  intros Hbuild.
  destruct (build_dependency_graph_spec _ _ _ Hbuild)
    as (Hroot1 & _ & Hfiles & _).
  destruct (build_dependency_graph_stages _ _ _ Hbuild)
    as (b1 & b2 & H1 & H2 & Ha1).
  pose proof H1 as Hb1.
  apply create_nodes_spec in Hb1 as (Hrootb1 & Hedgesb1 & _).
  simpl in Hrootb1, Hedgesb1.
  assert (Hsame : get_all_source_files a1 fs
                  = get_all_source_files (init root) fs)
    by (apply get_all_source_files_root; by rewrite Hroot1).
  destruct (create_nodes_twice _ (init root) b1 a1
              (eq_sym Hroot1) H1)
    as (c1 & Hc1 & Hrootc1 & Hedgesc1 & Hkeysc1).
  { intros f rel Hf Hrel. destruct (Hfiles f Hf) as (rel' & Hrel' & Hin).
    rewrite Hroot1 in Hrel. rewrite Hrel in Hrel'.
    injection Hrel' as <-. exact Hin. }
  assert (Hrootb1c1 : project_root b1 = project_root c1)
    by (rewrite Hrootb1, Hrootc1, Hroot1; reflexivity).
  destruct (collect_imports_twice fs _ b1 b2 c1 Hrootb1c1 H2)
    as (c2 & added & Hc2 & Hb2 & Hedgesc2 & Hrootc2 & Hnodesc2).
  assert (Hedges1 : edges a1 = added).
  { rewrite Ha1. simpl. by rewrite Hb2, Hedgesb1. }
  exists (set_nodes c2
            (map (update_node (import_statistics (edges c2))) (nodes c2))).
  split; [|split; [|split]].
  - unfold build_dependency_graph. rewrite Hsame, Hc1. simpl.
    rewrite Hc2. reflexivity.
  - simpl. by rewrite Hedgesc2, Hedgesc1, Hedges1.
  - unfold node_ids. simpl. by rewrite update_node_keys, Hnodesc2, Hkeysc1.
  - intros k n1 n2 Hn1 Hn2.
    apply (incoming_count_twice a1 (edges c2) k n1 n2).
    + exists (nodes b2). split; [|exact Hn1].
      clear -Ha1. subst a1. reflexivity.
    + exists (nodes c2). exact Hn2.
    + by rewrite Hedgesc2, Hedgesc1, <- Hedges1.
Qed.

Lemma build_twice_doubles_witness :
  build_dependency_graph (init ["p"]) Scenario.fs_app_foo
  = Ok Scenario.graph_app_foo
  /\ exists a2,
      build_dependency_graph Scenario.graph_app_foo Scenario.fs_app_foo = Ok a2
      /\ edges a2
         = edges Scenario.graph_app_foo ++ edges Scenario.graph_app_foo
      /\ node_ids a2 = node_ids Scenario.graph_app_foo.
Proof.
  assert (Hbuild : build_dependency_graph (init ["p"]) Scenario.fs_app_foo
                   = Ok Scenario.graph_app_foo) by (vm_compute; reflexivity).
  split; [exact Hbuild|].
  destruct (build_twice_doubles _ _ _ Hbuild) as (a2 & H2 & Hedges & Hids & _).
  exists a2. auto.
Defined.

(** ** The analyzer under the errors of the operating system *)

(** *** The probes *)

Lemma path_exists_Ok (os : OS.os_errors) (fs : entry) (p : path) (b : bool) :
  OS.path_exists os fs p = Ok b <->
  OS.stat_error os p = None /\ b = exists_ fs p.
Proof.
  unfold OS.path_exists. destruct (OS.stat_error os p).
  - split; [discriminate | intros [? _]; discriminate].
  - split; [intros H; inversion H; auto | intros [_ ->]; reflexivity].
Qed.

Lemma path_is_dir_Ok (os : OS.os_errors) (fs : entry) (p : path) (b : bool) :
  OS.path_is_dir os fs p = Ok b <->
  OS.stat_error os p = None /\ b = is_dir fs p.
Proof.
  unfold OS.path_is_dir. destruct (OS.stat_error os p).
  - split; [discriminate | intros [? _]; discriminate].
  - split; [intros H; inversion H; auto | intros [_ ->]; reflexivity].
Qed.

(** Either the operating system answers every probe of a list, or one of
    them is refused. *)
Lemma stat_errors_dec (os : OS.os_errors) (ps : list path) :
  (forall p, In p ps -> OS.stat_error os p = None)
  \/ (exists p, In p ps /\ OS.stat_error os p <> None).
Proof.
  induction ps as [|p ps IH]; [left; intros p []|].
  destruct (OS.stat_error os p) eqn:Hp.
  - right. exists p. split; [by left | congruence].
  - destruct IH as [IH|(q & Hq & Herr)].
    + left. intros q [<-|Hq]; auto.
    + right. exists q. split; [by right | exact Herr].
Qed.

Lemma os_direct_matches_clear (os : OS.os_errors) (fs : entry) (p : path)
  (exts : list string) :
  name p <> EmptyString ->
  (forall ext, In ext exts ->
               OS.stat_error os (direct_candidate p ext) = None) ->
  OS.direct_matches os fs p exts
  = Ok (List.filter (exists_ fs) (map (direct_candidate p) exts)).
Proof.
  intros Hnm. induction exts as [|ext exts IH]; intros Hclear;
    [reflexivity|].
  assert (Hc : with_suffix p ext = Ok (direct_candidate p ext))
    by (apply with_suffix_Ok; auto).
  assert (Hx : OS.path_exists os fs (direct_candidate p ext)
               = Ok (exists_ fs (direct_candidate p ext)))
    by (apply path_exists_Ok; split; [apply Hclear; by left | reflexivity]).
  cbn [OS.direct_matches]. rewrite Hc. cbn [mbind result_bind].
  rewrite Hx. cbn [mbind result_bind].
  rewrite IH by (intros e He; apply Hclear; by right).
  cbn [mbind result_bind map List.filter].
  destruct (exists_ fs (direct_candidate p ext)); reflexivity.
Qed.

Lemma os_direct_matches_refused (os : OS.os_errors) (fs : entry) (p : path)
  (exts : list string) (ext : string) :
  name p <> EmptyString ->
  In ext exts ->
  OS.stat_error os (direct_candidate p ext) <> None ->
  exists e, OS.direct_matches os fs p exts = Raise e.
Proof.
  intros Hnm. induction exts as [|x exts IH]; intros Hin Herr;
    [destruct Hin|].
  assert (Hc : with_suffix p x = Ok (direct_candidate p x))
    by (apply with_suffix_Ok; auto).
  cbn [OS.direct_matches]. rewrite Hc. cbn [mbind result_bind].
  unfold OS.path_exists.
  destruct (OS.stat_error os (direct_candidate p x)) eqn:Hx;
    [cbn [mbind result_bind]; eauto|].
  cbn [mbind result_bind]. destruct Hin as [->|Hin]; [congruence|].
  destruct (IH Hin Herr) as [e He]. rewrite He. cbn [mbind result_bind]. eauto.
Qed.

Lemma os_direct_matches_root (os : OS.os_errors) (fs : entry) (p : path) :
  name p = EmptyString ->
  exists e, OS.direct_matches os fs p extensions = Raise e.
Proof.
  intros Hnm. destruct (with_suffix_Raise p ".ts" Hnm) as [e He].
  unfold extensions. cbn [OS.direct_matches]. rewrite He.
  cbn [mbind result_bind]. eauto.
Qed.

Lemma os_index_files_clear (os : OS.os_errors) (fs : entry) (p : path)
  (exts : list string) :
  (forall ext, In ext exts ->
               OS.stat_error os (index_candidate p ext) = None) ->
  OS.index_files os fs p exts
  = Ok (List.filter (exists_ fs) (map (index_candidate p) exts)).
Proof.
  induction exts as [|ext exts IH]; intros Hclear; [reflexivity|].
  assert (Hx : OS.path_exists os fs (index_candidate p ext)
               = Ok (exists_ fs (index_candidate p ext)))
    by (apply path_exists_Ok; split; [apply Hclear; by left | reflexivity]).
  cbn [OS.index_files]. fold (index_candidate p ext). rewrite Hx.
  cbn [mbind result_bind].
  rewrite IH by (intros e He; apply Hclear; by right).
  cbn [mbind result_bind map List.filter].
  destruct (exists_ fs (index_candidate p ext)); reflexivity.
Qed.

Lemma os_index_files_refused (os : OS.os_errors) (fs : entry) (p : path)
  (exts : list string) (ext : string) :
  In ext exts ->
  OS.stat_error os (index_candidate p ext) <> None ->
  exists e, OS.index_files os fs p exts = Raise e.
Proof.
  induction exts as [|x exts IH]; intros Hin Herr; [destruct Hin|].
  cbn [OS.index_files]. fold (index_candidate p x). unfold OS.path_exists.
  destruct (OS.stat_error os (index_candidate p x)) eqn:Hx;
    [cbn [mbind result_bind]; eauto|].
  cbn [mbind result_bind]. destruct Hin as [->|Hin]; [congruence|].
  destruct (IH Hin Herr) as [e He]. rewrite He. cbn [mbind result_bind]. eauto.
Qed.

Lemma os_first_existing_clear (os : OS.os_errors) (fs : entry)
  (ps : list path) :
  (forall p, In p ps -> OS.stat_error os p = None) ->
  OS.first_existing os fs ps = Ok (find (exists_ fs) ps).
Proof.
  induction ps as [|p ps IH]; intros Hclear; [reflexivity|].
  cbn [OS.first_existing find]. unfold OS.path_exists.
  rewrite (Hclear p) by (by left). cbn [mbind result_bind].
  destruct (exists_ fs p); [reflexivity|].
  apply IH. intros q Hq. apply Hclear. by right.
Qed.

(** *** The resolver *)

Lemma resolved_candidate_joined (self : analyzer) (import_path : string)
  (from_file : path) :
  resolved_candidate self import_path from_file
  = resolve (joined_segments self import_path from_file).
Proof.
  unfold resolved_candidate, joined_segments.
  by destruct (PyStr.startswith import_path "@/").
Qed.

Lemma os_resolve_import_path_local (os : OS.os_errors) (self : analyzer)
  (fs : entry) (import_path : string) (from_file : path) :
  is_local import_path = true ->
  OS.resolve_import_path os self fs import_path from_file
  = (resolved_path ← OS.path_resolve
                        (joined_segments self import_path from_file);
     direct ← OS.direct_matches os fs resolved_path extensions;
     index ← OS.index_matches os fs resolved_path extensions;
     OS.first_existing os fs (direct ++ index)).
Proof.
  unfold is_local, OS.resolve_import_path, joined_segments.
  intros Hloc.
  destruct (PyStr.startswith import_path ".") eqn:Hdot;
    destruct (PyStr.startswith import_path "@/") eqn:Halias;
    simpl in *; try discriminate; reflexivity.
Qed.

Lemma os_resolve_import_path_external (os : OS.os_errors) (self : analyzer)
  (fs : entry) (import_path : string) (from_file : path) :
  is_local import_path = false ->
  OS.resolve_import_path os self fs import_path from_file = Ok None.
Proof.
  unfold is_local, OS.resolve_import_path. intros Hloc.
  apply orb_false_iff in Hloc as [-> ->]. reflexivity.
Qed.

Lemma path_resolve_Ok (self : analyzer) (import_path : string)
  (from_file : path) :
  existsb (PyStr.contains OS.nul)
          (joined_segments self import_path from_file) = false ->
  OS.path_resolve (joined_segments self import_path from_file)
  = Ok (resolved_candidate self import_path from_file).
Proof.
  intros Hnul. unfold OS.path_resolve. rewrite Hnul.
  by rewrite resolved_candidate_joined.
Qed.

(** When nothing is refused, the resolver answers as the first level
    does. *)
Lemma os_resolve_import_path_clear (os : OS.os_errors) (self : analyzer)
  (fs : entry) (import_path : string) (from_file : path) :
  is_local import_path = true ->
  existsb (PyStr.contains OS.nul)
          (joined_segments self import_path from_file) = false ->
  name (resolved_candidate self import_path from_file) <> EmptyString ->
  (forall p,
      In p (probed_paths fs (resolved_candidate self import_path from_file)) ->
      OS.stat_error os p = None) ->
  OS.resolve_import_path os self fs import_path from_file
  = resolve_import_path self fs import_path from_file.
Proof.
  intros Hloc Hnul Hnm Hclear.
  rewrite os_resolve_import_path_local, resolve_import_path_local
    by exact Hloc.
  rewrite path_resolve_Ok by exact Hnul.
  set (c := resolved_candidate self import_path from_file) in *.
  cbn [mbind result_bind].
  rewrite first_match_Ok by exact Hnm.
  unfold probed_paths in Hclear.
  rewrite os_direct_matches_clear;
    [|exact Hnm|intros ext Hext; apply Hclear, in_or_app; left;
                 by apply in_map].
  cbn [mbind result_bind].
  assert (Hindex : OS.index_matches os fs c extensions
                   = Ok (index_matches fs c extensions)).
  { unfold OS.index_matches, OS.path_is_dir.
    rewrite (Hclear c) by (apply in_or_app; right; by left).
    cbn [mbind result_bind]. rewrite index_matches_filter.
    destruct (is_dir fs c) eqn:Hdir; [|reflexivity].
    apply os_index_files_clear. intros ext Hext.
    apply Hclear, in_or_app. right. right. by apply in_map. }
  rewrite Hindex. cbn [mbind result_bind].
  apply os_first_existing_clear. intros p Hp. apply Hclear.
  apply in_app_or in Hp as [Hp|Hp].
  - apply in_or_app. left. by apply filter_In in Hp as [Hp _].
  - apply in_or_app. right. right.
    rewrite index_matches_filter in Hp.
    destruct (is_dir fs c); [|destruct Hp].
    by apply filter_In in Hp as [Hp _].
Qed.

(** When a probe is refused, the resolver raises. *)
Lemma os_resolve_import_path_refused (os : OS.os_errors) (self : analyzer)
  (fs : entry) (import_path : string) (from_file : path) (p : path) :
  is_local import_path = true ->
  existsb (PyStr.contains OS.nul)
          (joined_segments self import_path from_file) = false ->
  name (resolved_candidate self import_path from_file) <> EmptyString ->
  In p (probed_paths fs (resolved_candidate self import_path from_file)) ->
  OS.stat_error os p <> None ->
  exists e, OS.resolve_import_path os self fs import_path from_file = Raise e.
Proof.
  intros Hloc Hnul Hnm Hin Herr.
  rewrite os_resolve_import_path_local by exact Hloc.
  rewrite path_resolve_Ok by exact Hnul.
  set (c := resolved_candidate self import_path from_file) in *.
  cbn [mbind result_bind].
  destruct (stat_errors_dec os (map (direct_candidate c) extensions))
    as [Hdirect|(q & Hq & Hqerr)].
  2:{ apply in_map_iff in Hq as (ext & <- & Hext).
      destruct (os_direct_matches_refused os fs c _ _ Hnm Hext Hqerr)
        as [e He].
      rewrite He. cbn [mbind result_bind]. eauto. }
  rewrite os_direct_matches_clear;
    [|exact Hnm|intros ext Hext; apply Hdirect; by apply in_map].
  cbn [mbind result_bind]. unfold OS.index_matches, OS.path_is_dir.
  destruct (OS.stat_error os c) eqn:Hc; [cbn [mbind result_bind]; eauto|].
  cbn [mbind result_bind].
  unfold probed_paths in Hin.
  apply in_app_or in Hin as [Hin|[<-|Hin]];
    [by apply Hdirect in Hin|congruence|].
  destruct (is_dir fs c); [|destruct Hin].
  apply in_map_iff in Hin as (ext & <- & Hext).
  destruct (os_index_files_refused os fs c _ _ Hext Herr) as [e He].
  rewrite He. cbn [mbind result_bind]. eauto.
Qed.

Lemma os_resolve_import_path_nul (os : OS.os_errors) (self : analyzer)
  (fs : entry) (import_path : string) (from_file : path) :
  is_local import_path = true ->
  existsb (PyStr.contains OS.nul)
          (joined_segments self import_path from_file) = true ->
  OS.resolve_import_path os self fs import_path from_file
  = Raise (ValueError "embedded null byte").
Proof.
  intros Hloc Hnul. rewrite os_resolve_import_path_local by exact Hloc.
  unfold OS.path_resolve. rewrite Hnul. reflexivity.
Qed.

Lemma os_resolve_import_path_at_root (os : OS.os_errors) (self : analyzer)
  (fs : entry) (import_path : string) (from_file : path) :
  is_local import_path = true ->
  name (resolved_candidate self import_path from_file) = EmptyString ->
  exists e, OS.resolve_import_path os self fs import_path from_file = Raise e.
Proof.
  intros Hloc Hnm. rewrite os_resolve_import_path_local by exact Hloc.
  unfold OS.path_resolve.
  destruct (existsb (PyStr.contains OS.nul)
              (joined_segments self import_path from_file));
    [cbn [mbind result_bind]; eauto|].
  rewrite <- resolved_candidate_joined. cbn [mbind result_bind].
  destruct (os_direct_matches_root os fs _ Hnm) as [e He].
  rewrite He. cbn [mbind result_bind]. eauto.
Qed.


(** Without a NUL character and without refusals the two resolvers
    agree. *)
Lemma resolve_import_path_no_errors (self : analyzer) (fs : entry)
  (import_path : string) (from_file : path) :
  existsb (PyStr.contains OS.nul)
          (joined_segments self import_path from_file) = false ->
  OS.resolve_import_path OS.no_errors self fs import_path from_file
  = resolve_import_path self fs import_path from_file.
Proof.
  intros Hnul. destruct (is_local import_path) eqn:Hloc.
  2:{ rewrite os_resolve_import_path_external by exact Hloc.
      by rewrite resolve_import_path_external. }
  destruct (String.eqb_spec
              (name (resolved_candidate self import_path from_file))
              EmptyString) as [Hnm|Hnm].
  - rewrite os_resolve_import_path_local, resolve_import_path_local
      by exact Hloc.
    rewrite path_resolve_Ok by exact Hnul. cbn [mbind result_bind].
    destruct (with_suffix_Raise _ ".ts" Hnm) as [e He].
    unfold first_match, extensions.
    cbn [OS.direct_matches direct_matches]. rewrite He. reflexivity.
  - apply os_resolve_import_path_clear; auto.
Qed.

(** *** The records and the loops *)
















(** *** Unresolved imports and internal edges *)




(** *** Output without validation *)






(** *** When the resolver raises *)

(** X9. The resolver raises exactly when the import path is local and one
    of three things happens: a segment of the joined path holds a NUL
    character, which [Path.resolve()] rejects; the normalized candidate is
    the root, a path without a final segment, on which [with_suffix] has no
    name to work on; or the operating system refuses one of the probes - the
    four direct candidates, the candidate itself and, when it is a
    directory, its index files - with an error other than absence. *)
Theorem resolver_raise_conditions (os : OS.os_errors) (self : analyzer)
  (fs : entry) (import_path : string) (from_file : path) :
  (exists e,
      OS.resolve_import_path os self fs import_path from_file = Raise e)
  <-> is_local import_path = true
      /\ (existsb (PyStr.contains OS.nul)
                  (joined_segments self import_path from_file) = true
          \/ name (resolved_candidate self import_path from_file)
             = EmptyString
          \/ exists p,
              In p (probed_paths fs
                      (resolved_candidate self import_path from_file))
              /\ OS.stat_error os p <> None).
Proof.
  destruct (is_local import_path) eqn:Hloc.
  2:{ rewrite os_resolve_import_path_external by exact Hloc.
      split; [intros [e He]; discriminate | intros [? _]; discriminate]. }
  destruct (existsb (PyStr.contains OS.nul)
              (joined_segments self import_path from_file)) eqn:Hnul.
  { rewrite os_resolve_import_path_nul by assumption.
    split; [auto | eauto]. }
  destruct (String.eqb_spec
              (name (resolved_candidate self import_path from_file))
              EmptyString) as [Hnm|Hnm].
  { split; [auto|]. intros _.
    by apply os_resolve_import_path_at_root. }
  destruct (stat_errors_dec os
              (probed_paths fs
                 (resolved_candidate self import_path from_file)))
    as [Hclear|(p & Hp & Herr)].
  - rewrite os_resolve_import_path_clear by assumption.
    rewrite resolve_import_path_local, first_match_Ok by assumption.
    split; [intros [e He]; discriminate|].
    intros [_ [Habs|[Habs|(p & Hp & Herr)]]];
      [discriminate | contradiction | by apply Hclear in Hp].
  - split; [eauto 6|]. intros _.
    exact (os_resolve_import_path_refused os self fs _ _ p
             Hloc Hnul Hnm Hp Herr).
Qed.

(** The three causes at work: a NUL character, an alias path that climbs
    to the root, and a probe that the operating system refuses. *)
Lemma resolver_raise_conditions_witness :
  OS.resolve_import_path OS.no_errors Scenario.the_analyzer
    Scenario.fs_app_foo ("./a" +:+ OS.nul) Scenario.app_tsx
  = Raise (ValueError "embedded null byte")
  /\ (exists e,
        OS.resolve_import_path OS.no_errors Scenario.the_analyzer
          Scenario.fs_app_foo "@/../.." Scenario.app_tsx = Raise e)
  /\ exists e,
      OS.resolve_import_path Scenario3.os_refusing Scenario.the_analyzer
        Scenario3.fs_missing "./Missing" Scenario.app_tsx = Raise e.
Proof.
  split; [vm_compute; reflexivity|]. split.
  - apply (proj2 (resolver_raise_conditions OS.no_errors
                    Scenario.the_analyzer Scenario.fs_app_foo "@/../.."
                    Scenario.app_tsx)).
    split; [reflexivity|]. right. left. reflexivity.
  - apply (proj2 (resolver_raise_conditions Scenario3.os_refusing
                    Scenario.the_analyzer Scenario3.fs_missing "./Missing"
                    Scenario.app_tsx)).
    split; [reflexivity|]. right. right.
    exists ["p"; "src"; "Missing.jsx"]. split; [vm_compute; tauto|].
    vm_compute. discriminate.
Defined.
